(** * nb2plots: the [nbplot] directive (nbplots.py)

    A shallow embedding of the parts of [nb2plots/nbplots.py] that decide
    builder visibility, part parsing and selection, doctest detection, the
    code runner, figure naming and the per-document flag namespaces,
    followed by the properties proved about them.

    Conventions.
    - A Python [str] is a [string]; the character classes below are those of
      Python on ASCII text ([str.isspace], the regex classes [\s] and [\w],
      the line boundaries of [str.splitlines]).
    - Python objects that are mutated in place and may be shared (dicts and
      lists) live in a heap of objects and are referred to by location.
    - Code that can raise returns a [result]; code that also mutates process
      or interpreter state is a function [world -> world * result _].
    - Calls into the interpreter or into libraries whose behaviour the
      directive cannot know ([exec], [eval], [compile], [savefig], ...) are
      Variables of the Section that uses them. *)

From Stdlib Require Import ZArith Ascii String List Lia Bool.
From Stdlib Require DecimalString DecimalNat.
From stdpp Require Import base option list gmap strings.

Set Default Proof Using "Type".
Local Open Scope Z_scope.
Local Open Scope stdpp_scope.

(* ===================================================================== *)
(** * Python strings *)
(* ===================================================================== *)

Module Str.

Definition LF : ascii := Ascii.ascii_of_nat 10.
Definition CR : ascii := Ascii.ascii_of_nat 13.
Definition TAB : ascii := Ascii.ascii_of_nat 9.
Definition SPACE : ascii := Ascii.ascii_of_nat 32.

Definition code (c : ascii) : nat := Ascii.nat_of_ascii c.

Definition between (lo hi : nat) (c : ascii) : bool :=
  (Nat.leb lo (code c)) && (Nat.leb (code c) hi).

(** [str.isspace] and the regex class [\s] on ASCII: tab, LF, VT, FF, CR,
    the separators 0x1c..0x1f and the space. *)
Definition is_space (c : ascii) : bool :=
  between 9 13 c || between 28 31 c || Nat.eqb (code c) 32.

(** The regex class [\w] on ASCII: letters, digits and the underscore. *)
Definition is_word (c : ascii) : bool :=
  between 48 57 c || between 65 90 c || between 97 122 c
  || Nat.eqb (code c) 95.

(** The line boundaries of [str.splitlines] on ASCII: LF, VT, FF, CR and
    the separators 0x1c..0x1e. *)
Definition is_linebreak (c : ascii) : bool :=
  between 10 13 c || between 28 30 c.

Definition ascii_eqb (a b : ascii) : bool := bool_decide (a = b).

Definition str1 (c : ascii) : string := String c EmptyString.

(** [sep.join(l)] *)
Fixpoint join (sep : string) (l : list string) : string :=
  match l with
  | [] => EmptyString
  | x :: l' =>
      match l' with
      | [] => x
      | _ :: _ => x +:+ sep +:+ join sep l'
      end
  end.

(** [s.lstrip()] *)
Fixpoint lstrip (s : string) : string :=
  match s with
  | EmptyString => EmptyString
  | String a s' => if is_space a then lstrip s' else s
  end.

(** [s.rstrip()] *)
Fixpoint rstrip (s : string) : string :=
  match s with
  | EmptyString => EmptyString
  | String a s' =>
      match rstrip s' with
      | EmptyString => if is_space a then EmptyString else str1 a
      | String b r => String a (String b r)
      end
  end.

(** [s.strip()] *)
Definition strip (s : string) : string := rstrip (lstrip s).

(** [s.split(c)] for a one-character separator [c]; never empty. *)
Fixpoint split_on (c : ascii) (s : string) : list string :=
  match s with
  | EmptyString => [EmptyString]
  | String a s' =>
      if ascii_eqb a c then EmptyString :: split_on c s'
      else match split_on c s' with
           | [] => [str1 a]
           | w :: ws => String a w :: ws
           end
  end.

(** [s.split()]: the maximal runs of non-whitespace characters. *)
Fixpoint split (s : string) : list string :=
  match s with
  | EmptyString => []
  | String a s' =>
      if is_space a then split s'
      else match s' with
           | EmptyString => [str1 a]
           | String b _ =>
               if is_space b then str1 a :: split s'
               else match split s' with
                    | [] => [str1 a]
                    | w :: ws => String a w :: ws
                    end
           end
  end.

(** [s.splitlines()]: split at line boundaries, CR LF counting as one; a
    boundary at the very end opens no further line. *)
Fixpoint splitlines (s : string) : list string :=
  match s with
  | EmptyString => []
  | String a s' =>
      if is_linebreak a then
        match s' with
        | String b s'' =>
            if ascii_eqb a CR && ascii_eqb b LF
            then EmptyString :: splitlines s''
            else EmptyString :: splitlines s'
        | EmptyString => [EmptyString]
        end
      else match splitlines s' with
           | [] => [str1 a]
           | w :: ws => String a w :: ws
           end
  end.

(** [s.startswith(p)] *)
Definition startswith (p s : string) : bool := String.prefix p s.

(** [p in s] for strings *)
Fixpoint contains (p s : string) : bool :=
  String.prefix p s ||
  match s with
  | EmptyString => false
  | String _ s' => contains p s'
  end.

(** The text after a prefix, when the string starts with it. *)
Fixpoint drop_prefix (p s : string) : option string :=
  match p with
  | EmptyString => Some s
  | String a p' =>
      match s with
      | String b s' => if ascii_eqb a b then drop_prefix p' s' else None
      | EmptyString => None
      end
  end.

Fixpoint all_chars (f : ascii -> bool) (s : string) : bool :=
  match s with
  | EmptyString => true
  | String a s' => f a && all_chars f s'
  end.

Fixpoint last_char (s : string) : option ascii :=
  match s with
  | EmptyString => None
  | String a s' =>
      match last_char s' with
      | None => Some a
      | Some b => Some b
      end
  end.

Definition first_char (s : string) : option ascii :=
  match s with
  | EmptyString => None
  | String a _ => Some a
  end.

Definition is_empty (s : string) : bool :=
  match s with
  | EmptyString => true
  | String _ _ => false
  end.

(** The longest prefix of characters satisfying [f], and what follows. *)
Fixpoint span (f : ascii -> bool) (s : string) : string * string :=
  match s with
  | EmptyString => (EmptyString, EmptyString)
  | String a s' =>
      if f a then let '(p, r) := span f s' in (String a p, r)
      else (EmptyString, s)
  end.

Definition drop_while (f : ascii -> bool) (s : string) : string :=
  (span f s).2.

Fixpoint take (n : nat) (s : string) : string :=
  match n, s with
  | S k, String a s' => String a (take k s')
  | _, _ => EmptyString
  end.

Fixpoint drop (n : nat) (s : string) : string :=
  match n, s with
  | S k, String _ s' => drop k s'
  | _, _ => s
  end.

Definition ends_with (p s : string) : bool :=
  bool_decide (drop (String.length s - String.length p) s = p).

Definition is_sp (c : ascii) : bool := ascii_eqb c SPACE.
Definition not_LF (c : ascii) : bool := negb (ascii_eqb c LF).

(** [s.rstrip(' ')] *)
Fixpoint rstrip_sp (s : string) : string :=
  match s with
  | EmptyString => EmptyString
  | String a s' =>
      match rstrip_sp s' with
      | EmptyString => if is_sp a then EmptyString else str1 a
      | String b r => String a (String b r)
      end
  end.

(** [x in l] for a list of strings *)
Definition mem (x : string) (l : list string) : bool :=
  bool_decide (x ∈ l).

(** [l.remove(x)]: drops the first occurrence only. *)
Fixpoint remove_first (x : string) (l : list string) : list string :=
  match l with
  | [] => []
  | y :: l' => if bool_decide (x = y) then l' else y :: remove_first x l'
  end.

End Str.

(* ===================================================================== *)
(** * Exceptions and results *)
(* ===================================================================== *)

Module Exc.

(** A class is known by its name and the names of its proper ancestors,
    nearest first (its method resolution order without itself). *)
Record pyclass := { cls_name : string; cls_bases : list string }.

(** [issubclass(c, d)] *)
Definition issubclass (c d : pyclass) : bool :=
  bool_decide (cls_name d = cls_name c) || Str.mem (cls_name d) (cls_bases c).

Definition BaseException : pyclass :=
  {| cls_name := "BaseException"; cls_bases := [] |}.
Definition subclass (name : string) (base : pyclass) : pyclass :=
  {| cls_name := name; cls_bases := cls_name base :: cls_bases base |}.

Definition Exception := subclass "Exception" BaseException.
Definition SystemExit := subclass "SystemExit" BaseException.
Definition TypeError := subclass "TypeError" Exception.
Definition ValueError := subclass "ValueError" Exception.
Definition LookupError := subclass "LookupError" Exception.
Definition KeyError := subclass "KeyError" LookupError.
Definition IndexError := subclass "IndexError" LookupError.
Definition AttributeError := subclass "AttributeError" Exception.
Definition SyntaxError := subclass "SyntaxError" Exception.
Definition RuntimeError := subclass "RuntimeError" Exception.
Definition ZeroDivisionError := subclass "ZeroDivisionError" Exception.
Definition OSError := subclass "OSError" Exception.
Definition FileNotFoundError := subclass "FileNotFoundError" OSError.
Definition NotADirectoryError := subclass "NotADirectoryError" OSError.
Definition PermissionError := subclass "PermissionError" OSError.

(** [class PlotError(RuntimeError)] and [class PlotValueError(ValueError)] *)
Definition PlotError := subclass "PlotError" RuntimeError.
Definition PlotValueError := subclass "PlotValueError" ValueError.

(** A raised exception: its class and its message. *)
Record exc := { exc_class : pyclass; exc_msg : string }.

Definition isinstance (e : exc) (c : pyclass) : bool :=
  issubclass (exc_class e) c.

Definition mk (c : pyclass) (msg : string) : exc :=
  {| exc_class := c; exc_msg := msg |}.

Inductive result (A : Type) : Type :=
| Ok (a : A)
| Raise (e : exc).
Arguments Ok {A} a.
Arguments Raise {A} e.

Definition rbind {A B} (r : result A) (f : A -> result B) : result B :=
  match r with
  | Ok a => f a
  | Raise e => Raise e
  end.

Definition is_ok {A} (r : result A) : bool :=
  match r with Ok _ => true | Raise _ => false end.

End Exc.

Export Exc.

(* ===================================================================== *)
(** * Python values and the object heap *)
(* ===================================================================== *)

Module Py.

Abbreviation loc := positive.

(** Values.  Tuples and strings are immutable and are values; lists and
    dicts are objects in the heap, denoted by [VRef].  [VOpaque] stands for
    a value of any other type (a float, a function, a module, ...): such a
    value is not an integer, has no [__index__] and is not a Sequence. *)
#[warnings="-register-all"]
Inductive val : Type :=
| VNone
| VBool (b : bool)
| VInt (z : Z)
| VStr (s : string)
| VTuple (vs : list val)
| VRef (l : loc)
| VOpaque (type_name : string).

Inductive obj : Type :=
| ODict (d : gmap string val)
| OList (vs : list val).

Abbreviation heap := (gmap loc obj).

(** A location that no object of the heap occupies. *)
Definition fresh_loc (h : heap) : loc := fresh (dom h).

Definition alloc (o : obj) (h : heap) : loc * heap :=
  let l := fresh_loc h in (l, <[l := o]> h).

Definition get_dict (h : heap) (l : loc) : option (gmap string val) :=
  match h !! l with
  | Some (ODict d) => Some d
  | _ => None
  end.

Definition get_list (h : heap) (l : loc) : option (list val) :=
  match h !! l with
  | Some (OList vs) => Some vs
  | _ => None
  end.

(** Truth value of a Python object. *)
Definition truthy (h : heap) (v : val) : bool :=
  match v with
  | VNone => false
  | VBool b => b
  | VInt z => negb (Z.eqb z 0)
  | VStr s => negb (bool_decide (s = EmptyString))
  | VTuple vs => negb (bool_decide (length vs = 0%nat))
  | VRef l =>
      match h !! l with
      | Some (ODict d) => negb (bool_decide (d = ∅))
      | Some (OList vs) => negb (bool_decide (length vs = 0%nat))
      | None => true
      end
  | VOpaque _ => true
  end.

End Py.

Export Py.

(* ===================================================================== *)
(** * Builder visibility: [likes_builder], [_hide_from_builder],
      [NBPlotDirective._proc_builder_opts] *)
(* ===================================================================== *)

Module Visibility.

(** The [hide-from] / [show-to] attributes: a dict from attribute name to a
    list of builder names.  The two lists of one dict are distinct list
    objects (as [_proc_builder_opts] builds them), so updating one in
    place is an update of that entry. *)
Abbreviation attrs := (gmap string (list string)).

(** [self.get(key, default)] *)
Definition get (self : attrs) (key : string) (default : list string)
  : list string :=
  match self !! key with
  | Some v => v
  | None => default
  end.

Module nbplot_container.

(** [nbplot_container.likes_builder(self, builder_name)] *)
Definition likes_builder (self : attrs) (builder_name : string) : bool :=
  let hide_from := get self "hide-from" [] in
  let show_to := get self "show-to" [] in
  if Str.mem builder_name show_to then true
  else if Str.mem "all" hide_from then false
  else negb (Str.mem builder_name hide_from).

End nbplot_container.

(** A docutils node: an [nbplot_container] with its attributes, or a node
    of a class that has no [likes_builder] method. *)
Inductive node : Type :=
| Container (a : attrs)
| PlainNode.

(** The module-level [likes_builder(node, builder_name)]:
    [not hasattr(node, 'likes_builder') or node.likes_builder(name)]. *)
Definition likes_builder (n : node) (builder_name : string) : bool :=
  match n with
  | PlainNode => true
  | Container a => nbplot_container.likes_builder a builder_name
  end.

(** [rst2nodes] copies onto the node the attributes whose value is true,
    that is, the non-empty lists. *)
Definition node_of_attrs (node_attrs : attrs) : node :=
  Container (filter (fun kv => kv.2 ≠ []) node_attrs).

(** [_hide_from_builder(attrs, builder_name)]; the dict is modified in
    place, so the updated dict is returned also when a key is missing. *)
Definition _hide_from_builder (a : attrs) (builder_name : string)
  : attrs * result unit :=
  match a !! "show-to" with
  | None => (a, Raise (Exc.mk KeyError "show-to"))
  | Some show_to =>
      let a1 :=
        if Str.mem builder_name show_to
        then <["show-to" := Str.remove_first builder_name show_to]> a
        else a in
      match a1 !! "hide-from" with
      | None => (a1, Raise (Exc.mk KeyError "hide-from"))
      | Some hide_from =>
          if negb (Str.mem builder_name hide_from)
          then (<["hide-from" := hide_from ++ [builder_name]]> a1, Ok tt)
          else (a1, Ok tt)
      end
  end.

(** [options.setdefault(key, value)] *)
Definition setdefault (key : string) (value : val) (options : gmap string val)
  : gmap string val :=
  match options !! key with
  | Some _ => options
  | None => <[key := value]> options
  end.

(** One round of the loop of [_proc_builder_opts]:
    [node_attrs[opt_name] += [b.strip() for b in options[opt_name].split()]]
    when the option is present. *)
Definition add_builders (options : gmap string val) (opt_name : string)
    (node_attrs : attrs) : result attrs :=
  match options !! opt_name with
  | None => Ok node_attrs
  | Some (VStr s) =>
      let values := Str.split s in
      Ok (<[opt_name := get node_attrs opt_name [] ++ map Str.strip values]>
            node_attrs)
  | Some _ => Raise (Exc.mk AttributeError "split")
  end.

(** [NBPlotDirective._proc_builder_opts(self, config)]: returns the
    directive's options (updated by [setdefault]) and the node
    attributes.  [nbplot_include_source] is the configuration value. *)
Definition _proc_builder_opts (h : Py.heap) (options : gmap string val)
    (nbplot_include_source : val)
  : gmap string val * result attrs :=
  let options := setdefault "include-source" nbplot_include_source options in
  let include_source :=
    match options !! "include-source" with
    | Some v => Py.truthy h v
    | None => false
    end in
  let node_attrs : attrs :=
    if include_source
    then <["hide-from" := []]> (<["show-to" := []]> ∅)
    else <["hide-from" := ["all"]]> (<["show-to" := ["doctest"]]> ∅) in
  (options,
   Exc.rbind (add_builders options "hide-from" node_attrs)
             (add_builders options "show-to")).

End Visibility.

(* ===================================================================== *)
(** * The part parser: [PARTER], [ATTRIBUTER], [_proc_part_def],
      [_part_strs2dicts], [parse_parts] *)
(* ===================================================================== *)

Module Parts.

Definition NL : string := Str.str1 Str.LF.

(** A part is a dict: its attributes (strings) and, under the key
    [contents], its lines. *)
Inductive part_value : Type :=
| PStr (s : string)
| PLines (l : list string).

Abbreviation part := (gmap string part_value).

(** ** [PARTER]

    [(?:\n\n|^) \.\.\ part\n ( (?:\ *\w+\ *=\ *.+\n)* ) \n], verbose and
    not multi-line: [^] is the start of the text only, [.] is any
    character but LF. *)

(** One attribute line [\ *\w+\ *=\ *.+\n] at the head of [s]: the number of
    characters it takes.  After [=] the pattern needs a non-empty run of
    characters other than LF and then the LF. *)
Definition match_attr_line (s : string) : option nat :=
  let s1 := Str.drop_while Str.is_sp s in
  let '(w, s2) := Str.span Str.is_word s1 in
  if Str.is_empty w then None else
  match Str.drop_while Str.is_sp s2 with
  | String eq s4 =>
      if Str.ascii_eqb eq "="%char then
        let '(body, s5) := Str.span Str.not_LF s4 in
        if Str.is_empty body then None else
        match s5 with
        | String _ rest => Some (String.length s - String.length rest)%nat
        | EmptyString => None
        end
      else None
  | EmptyString => None
  end.

(** The greedy repetition of attribute lines: the number of characters
    taken.  [skip] counts the characters of the line being taken that are
    still ahead.  (An attribute line never starts with LF, so giving a
    line back can never let the closing [\n] match: the longest run is the
    only candidate.) *)
Fixpoint match_attr_lines (skip : nat) (s : string) : nat :=
  match s with
  | EmptyString => 0
  | String _ s' =>
      match skip with
      | S k => S (match_attr_lines k s')
      | O =>
          match match_attr_line s with
          | Some (S k) => S (match_attr_lines k s')
          | _ => 0
          end
      end
  end%nat.

(** What follows the separator's opening: [\.\. part\n], the attribute
    lines (group 1) and the closing [\n].  Returns group 1 and the text
    after the match. *)
Definition match_marker (s : string) : option (string * string) :=
  match Str.drop_prefix (".. part" +:+ NL) s with
  | None => None
  | Some s1 =>
      let n := match_attr_lines 0 s1 in
      match Str.drop_prefix NL (Str.drop n s1) with
      | None => None
      | Some rest => Some (Str.take n s1, rest)
      end
  end.

(** [PARTER] matched at the head of [s]; [at_start] tells whether [s] is
    the whole text.  The alternative [\n\n] is tried before [^]. *)
Definition PARTER_match (at_start : bool) (s : string)
  : option (string * string) :=
  match
    match Str.drop_prefix (NL +:+ NL) s with
    | Some s1 => match_marker s1
    | None => None
    end
  with
  | Some m => Some m
  | None => if at_start then match_marker s else None
  end.

(** [PARTER.search(text)]: is there a match anywhere in the text. *)
Fixpoint PARTER_search (at_start : bool) (s : string) : bool :=
  match PARTER_match at_start s with
  | Some _ => true
  | None =>
      match s with
      | EmptyString => false
      | String _ s' => PARTER_search false s'
      end
  end.

(** [PARTER.split(text)]: the pieces between the matches, with group 1 of
    each match between them.  [cur] is the piece being collected; [skip]
    counts the characters of the current match that are still ahead. *)
Fixpoint PARTER_split_go (skip : nat) (at_start : bool) (cur : string)
    (s : string) : list string :=
  match skip with
  | S k =>
      match s with
      | EmptyString => [cur]
      | String _ s' => PARTER_split_go k false cur s'
      end
  | O =>
      match PARTER_match at_start s with
      | Some (g, rest) =>
          match s with
          | EmptyString => [cur]
          | String _ s' =>
              cur :: g ::
                PARTER_split_go
                  (String.length s' - String.length rest) false EmptyString s'
          end
      | None =>
          match s with
          | EmptyString => [cur]
          | String a s' =>
              PARTER_split_go 0 false (cur +:+ Str.str1 a) s'
          end
      end
  end.

Definition PARTER_split (text : string) : list string :=
  PARTER_split_go 0 true EmptyString text.

(** ** [ATTRIBUTER]: [^(\w+)\ *=\ *(.+?)\ *$] matched on one line. *)
Definition ATTRIBUTER_match (line : string) : option (string * string) :=
  let '(key, s1) := Str.span Str.is_word line in
  if Str.is_empty key then None else
  match Str.drop_while Str.is_sp s1 with
  | String eq s2 =>
      if Str.ascii_eqb eq "="%char then
        (* [$] also matches just before a final LF *)
        let '(body, tail) := Str.span Str.not_LF s2 in
        if Str.is_empty body then None
        else if negb (Str.is_empty tail || bool_decide (tail = NL)) then None
        else
          match Str.drop_while Str.is_sp body with
          | EmptyString => Some (key, " ")
          | String b r => Some (key, Str.rstrip_sp (String b r))
          end
      else None
  | EmptyString => None
  end.

(** ** [textwrap.dedent] *)

Definition is_blank (c : ascii) : bool :=
  Str.ascii_eqb c Str.SPACE || Str.ascii_eqb c Str.TAB.

Fixpoint common_prefix (a b : string) : string :=
  match a, b with
  | String x a', String y b' =>
      if Str.ascii_eqb x y then String x (common_prefix a' b')
      else EmptyString
  | _, _ => EmptyString
  end.

(** The common leading blanks of the lines that have other characters. *)
Fixpoint margin (acc : option string) (lines : list string) : string :=
  match lines with
  | [] => match acc with Some m => m | None => EmptyString end
  | l :: ls =>
      let '(indent, r) := Str.span is_blank l in
      if Str.is_empty r then margin acc ls
      else margin (Some (match acc with
                         | None => indent
                         | Some m => common_prefix m indent
                         end)) ls
  end.

Definition dedent (text : string) : string :=
  let lines :=
    map (fun l => if Str.all_chars is_blank l then EmptyString else l)
        (Str.split_on Str.LF text) in
  let m := margin None lines in
  Str.join NL
    (map (fun l => match Str.drop_prefix m l with
                   | Some r => r
                   | None => l
                   end) lines).

(** ** [_proc_part_def(part_def)] *)

Fixpoint attrs_of_lines (lines : list string) (d : part) : result part :=
  match lines with
  | [] => Ok d
  | line :: ls =>
      match ATTRIBUTER_match line with
      | Some (k, v) => attrs_of_lines ls (<[k := PStr v]> d)
      | None => Raise (Exc.mk AttributeError "groups")
      end
  end.

Definition _proc_part_def (part_def : string) : result part :=
  if Str.is_empty part_def then Ok ∅
  else if negb (Str.startswith " " part_def) then
    Raise (Exc.mk PlotValueError "Part attributes should be indented")
  else
    let justified := Str.splitlines (dedent part_def) in
    if existsb (Str.startswith " ") justified then
      Raise (Exc.mk PlotValueError
               "Part attributes should have same indentation")
    else attrs_of_lines justified ∅.

(** ** [_part_strs2dicts(part_strs)] *)
Fixpoint _part_strs2dicts (part_strs : list string) : result (list part) :=
  match part_strs with
  | [] => Ok []
  | part_def :: rest =>
      Exc.rbind (_proc_part_def part_def) (fun part_dict =>
        match rest with
        | [] => Raise (Exc.mk IndexError "pop from empty list")
        | contents :: rest' =>
            Exc.rbind (_part_strs2dicts rest') (fun dicts =>
              Ok (<["contents" := PLines (Str.splitlines contents)]> part_dict
                    :: dicts))
        end)
  end.

(** ** [parse_parts(lines)] *)
Definition parse_parts (lines : list string) : result (list part) :=
  let text := Str.strip (Str.join NL lines) in
  let part_strs := PARTER_split text in
  match part_strs with
  | [only] => Ok [ {["contents" := PLines (Str.splitlines only)]} ]
  | first :: rest =>
      if Str.is_empty first
      then _part_strs2dicts rest
      else _part_strs2dicts (EmptyString :: part_strs)
  | [] => Raise (Exc.mk IndexError "list index out of range")
  end.

(** The attributes of a part: everything but its contents. *)
Definition attributes (p : part) : part := delete "contents" p.

Definition contents (p : part) : option (list string) :=
  match p !! "contents" with
  | Some (PLines l) => Some l
  | _ => None
  end.

End Parts.

(* ===================================================================== *)
(** * Doctest handling: [contains_doctest], [unescape_doctest],
      [remove_coding] *)
(* ===================================================================== *)

Module Doctest.

(** ** The regex [^\s*>>>] with [re.M] *)

(** [\s*>>>] matched at the head of [s]. *)
Definition match_prompt (s : string) : bool :=
  Str.startswith ">>>" (Str.drop_while Str.is_space s).

(** [r.search(text)]: is there a line start ([^] under [re.M]: the start
    of the text or the position after a LF) where [\s*>>>] matches. *)
Fixpoint search_prompt (at_line_start : bool) (s : string) : bool :=
  (at_line_start && match_prompt s) ||
  match s with
  | EmptyString => false
  | String a s' => search_prompt (Str.ascii_eqb a Str.LF) s'
  end.

(** ** The loop body of [unescape_doctest]

    [re.match] of the pattern [^\s*] then [>>>] or [...], one space and
    the captured rest of the line, on a line without LF: the text after
    the prompt and that space. *)
Definition match_prompt_line (line : string) : option string :=
  let s := Str.drop_while Str.is_space line in
  match Str.drop_prefix ">>> " s with
  | Some r => Some r
  | None => Str.drop_prefix "... " s
  end.

Definition unescape_line (line : string) : string :=
  match match_prompt_line line with
  | Some g => g +:+ Parts.NL
  | None =>
      if negb (Str.is_empty (Str.strip line))
      then "# " +:+ Str.strip line +:+ Parts.NL
      else Parts.NL
  end.

(** The transcript-to-code translation: the loop over [text.split("\n")]. *)
Definition translate (text : string) : string :=
  fold_left (fun code line => code +:+ unescape_line line)
            (Str.split_on Str.LF text) EmptyString.

(** ** The regex of [remove_coding]:
    [^#\s*-\*-\s*coding:\s*.*-\*-$] with [re.MULTILINE]. *)

(** [.*-\*-$] at the head of [s]: the rest of the line must end with
    [-*-]; the match then runs to the end of the line. *)
Definition match_coding_tail (s : string) : option nat :=
  let line := (Str.span Str.not_LF s).1 in
  if Str.ends_with "-*-" line && Nat.leb 3 (String.length line)
  then Some (String.length line)
  else None.

(** [\s*.*-\*-$]: [\s*] is greedy, so the longest run of white space
    after which the tail matches is taken.  Returns the length taken. *)
Fixpoint match_coding_ws (s : string) : option nat :=
  match s with
  | String a s' =>
      if Str.is_space a then
        match match_coding_ws s' with
        | Some n => Some (S n)
        | None => match_coding_tail s
        end
      else match_coding_tail s
  | EmptyString => match_coding_tail s
  end.

(** The whole pattern at a line start: the length of the match. *)
Definition match_coding (s : string) : option nat :=
  match s with
  | String c s1 =>
      if Str.ascii_eqb c "#"%char then
        match Str.drop_prefix "-*-" (Str.drop_while Str.is_space s1) with
        | None => None
        | Some s2 =>
            match Str.drop_prefix "coding:"
                    (Str.drop_while Str.is_space s2) with
            | None => None
            | Some s3 =>
                match match_coding_ws s3 with
                | Some n =>
                    Some (String.length s - String.length s3 + n)%nat
                | None => None
                end
            end
        end
      else None
  | EmptyString => None
  end.

(** [sub_re.sub('', text)]; [skip] counts the characters of the current
    match that are still ahead. *)
Fixpoint remove_coding_go (skip : nat) (at_line_start : bool) (s : string)
  : string :=
  match s with
  | EmptyString => EmptyString
  | String a s' =>
      let next := Str.ascii_eqb a Str.LF in
      match skip with
      | S k => remove_coding_go k next s'
      | O =>
          match (if at_line_start then match_coding s else None) with
          | Some (S k) => remove_coding_go k next s'
          | _ => String a (remove_coding_go 0 next s')
          end
      end
  end.

(** [remove_coding(text)] *)
Definition remove_coding (text : string) : string :=
  remove_coding_go 0 true text.

Section WithCompiler.

(** [compile(text, '<string>', 'exec')]: succeeds or raises. *)
Variable py_compile : string -> result unit.

(** [contains_doctest(text)] *)
Definition contains_doctest (text : string) : result bool :=
  match py_compile text with
  | Ok _ => Ok false
  | Raise e =>
      if Exc.isinstance e SyntaxError
      then Ok (search_prompt true text)
      else Raise e
  end.

(** [unescape_doctest(text)] *)
Definition unescape_doctest (text : string) : result string :=
  Exc.rbind (contains_doctest text) (fun b =>
    if negb b then Ok text else Ok (translate text)).

End WithCompiler.

End Doctest.

(* ===================================================================== *)
(** * The process and interpreter state *)
(* ===================================================================== *)

Module Runtime.

(** An output stream: one of the process's streams, or an in-memory sink
    with what was written to it. *)
Inductive stream : Type :=
| Stream (name : string)
| StringIO (buf : string)
| BytesIO (buf : string).

(** A figure manager of the plotting backend. *)
Definition figure := nat.

(** What an absolute path names in the file system: a directory that can
    be entered, a directory without search permission, or anything else
    that exists.  A path that names nothing has no entry.  A directory is
    known by its path. *)
Inductive entry : Type :=
| Dir
| ClosedDir
| File.

Record world := mkWorld {
  heap : Py.heap;                       (* dict and list objects *)
  cwd : string;                         (* the process working directory *)
  sys_path : list string;               (* the contents of sys.path *)
  sys_argv : list val;                  (* the list bound to sys.argv *)
  sys_stdout : stream;                  (* the object bound to sys.stdout *)
  figs : list figure;                   (* Gcf: live figure managers, in
                                           registration order *)
  rcparams : gmap string val;           (* matplotlib.rcParams *)
  plot_context : Py.loc;                (* the module-level plot_context *)
  nbplot_reset_markers : gmap string bool;      (* env.nbplot_reset_markers *)
  nbplot_flag_namespaces : gmap string Py.loc;  (* env.nbplot_flag_namespaces *)
  nbplot_flags : val;                   (* config.nbplot_flags *)
  files : gmap string entry;            (* the file system *)
}.

Definition set_heap (h : Py.heap) (w : world) : world :=
  mkWorld h (cwd w) (sys_path w) (sys_argv w) (sys_stdout w) (figs w)
          (rcparams w) (plot_context w) (nbplot_reset_markers w)
          (nbplot_flag_namespaces w) (nbplot_flags w) (files w).
Definition set_cwd (d : string) (w : world) : world :=
  mkWorld (heap w) d (sys_path w) (sys_argv w) (sys_stdout w) (figs w)
          (rcparams w) (plot_context w) (nbplot_reset_markers w)
          (nbplot_flag_namespaces w) (nbplot_flags w) (files w).
Definition set_sys_path (p : list string) (w : world) : world :=
  mkWorld (heap w) (cwd w) p (sys_argv w) (sys_stdout w) (figs w)
          (rcparams w) (plot_context w) (nbplot_reset_markers w)
          (nbplot_flag_namespaces w) (nbplot_flags w) (files w).
Definition set_sys_argv (a : list val) (w : world) : world :=
  mkWorld (heap w) (cwd w) (sys_path w) a (sys_stdout w) (figs w)
          (rcparams w) (plot_context w) (nbplot_reset_markers w)
          (nbplot_flag_namespaces w) (nbplot_flags w) (files w).
Definition set_sys_stdout (s : stream) (w : world) : world :=
  mkWorld (heap w) (cwd w) (sys_path w) (sys_argv w) s (figs w)
          (rcparams w) (plot_context w) (nbplot_reset_markers w)
          (nbplot_flag_namespaces w) (nbplot_flags w) (files w).
Definition set_figs (f : list figure) (w : world) : world :=
  mkWorld (heap w) (cwd w) (sys_path w) (sys_argv w) (sys_stdout w) f
          (rcparams w) (plot_context w) (nbplot_reset_markers w)
          (nbplot_flag_namespaces w) (nbplot_flags w) (files w).
Definition set_rcparams (r : gmap string val) (w : world) : world :=
  mkWorld (heap w) (cwd w) (sys_path w) (sys_argv w) (sys_stdout w) (figs w)
          r (plot_context w) (nbplot_reset_markers w)
          (nbplot_flag_namespaces w) (nbplot_flags w) (files w).
Definition set_reset_markers (m : gmap string bool) (w : world) : world :=
  mkWorld (heap w) (cwd w) (sys_path w) (sys_argv w) (sys_stdout w) (figs w)
          (rcparams w) (plot_context w) m
          (nbplot_flag_namespaces w) (nbplot_flags w) (files w).
Definition set_flag_namespaces (m : gmap string Py.loc) (w : world) : world :=
  mkWorld (heap w) (cwd w) (sys_path w) (sys_argv w) (sys_stdout w) (figs w)
          (rcparams w) (plot_context w) (nbplot_reset_markers w)
          m (nbplot_flags w) (files w).

(** [os.path.isdir(path)] *)
Definition isdir (w : world) (path : string) : bool :=
  match files w !! path with
  | Some Dir | Some ClosedDir => true
  | _ => false
  end.

(** The error of [os.chdir(path)], if any: the path names nothing, names
    something that is no directory, or names a directory that may not be
    entered. *)
Definition chdir_error (w : world) (path : string) : option exc :=
  match files w !! path with
  | Some Dir => None
  | Some ClosedDir => Some (Exc.mk PermissionError path)
  | Some File => Some (Exc.mk NotADirectoryError path)
  | None => Some (Exc.mk FileNotFoundError path)
  end.

(** ** Computations that read and write the world and may raise *)

Definition M (A : Type) : Type := world -> world * result A.

Definition ret {A} (a : A) : M A := fun w => (w, Ok a).
Definition raise {A} (e : exc) : M A := fun w => (w, Raise e).
Definition lift {A} (r : result A) : M A := fun w => (w, r).
Definition gets {A} (f : world -> A) : M A := fun w => (w, Ok (f w)).
Definition modify (f : world -> world) : M unit := fun w => (f w, Ok tt).

Definition bind {A B} (m : M A) (f : A -> M B) : M B :=
  fun w =>
    match m w with
    | (w1, Ok a) => f a w1
    | (w1, Raise e) => (w1, Raise e)
    end.

(** [try: m  except <any> as e: handler e] *)
Definition try_except {A} (m : M A) (handler : exc -> M A) : M A :=
  fun w =>
    match m w with
    | (w1, Ok a) => (w1, Ok a)
    | (w1, Raise e) => handler e w1
    end.

(** [try: m  finally: fin].  The [finally] suite always runs; when it
    raises, its exception replaces the outcome of [m]. *)
Definition try_finally {A} (m : M A) (fin : M unit) : M A :=
  fun w =>
    match m w with
    | (w1, r) =>
        match fin w1 with
        | (w2, Ok _) => (w2, r)
        | (w2, Raise e) => (w2, Raise e)
        end
    end.

Declare Scope py_scope.
Delimit Scope py_scope with py.
Notation "x <- c ;; k" := (bind c (fun x => k))
  (at level 100, c at next level, right associativity) : py_scope.
Notation "c ;; k" := (bind c (fun _ => k))
  (at level 100, right associativity) : py_scope.

(** ** Heap operations *)

(** [{}] or [dict(d)]: a new dict object. *)
Definition new_dict (d : gmap string val) : M Py.loc :=
  fun w =>
    let '(l, h) := Py.alloc (ODict d) (heap w) in
    (set_heap h w, Ok l).

(** [d[key] = v] for the dict at [l]. *)
Definition dict_setitem (l : Py.loc) (key : string) (v : val) : M unit :=
  fun w =>
    match Py.get_dict (heap w) l with
    | Some d => (set_heap (<[l := ODict (<[key := v]> d)]> (heap w)) w, Ok tt)
    | None => (w, Raise (Exc.mk TypeError "item assignment"))
    end.

(** [del d[key]] for the dict at [l]. *)
Definition dict_delitem (l : Py.loc) (key : string) : M unit :=
  fun w =>
    match Py.get_dict (heap w) l with
    | Some d =>
        match d !! key with
        | Some _ =>
            (set_heap (<[l := ODict (delete key d)]> (heap w)) w, Ok tt)
        | None => (w, Raise (Exc.mk KeyError key))
        end
    | None => (w, Raise (Exc.mk TypeError "item deletion"))
    end.

(** [d.clear()] for the dict at [l]. *)
Definition dict_clear (l : Py.loc) : M unit :=
  fun w =>
    match Py.get_dict (heap w) l with
    | Some _ => (set_heap (<[l := ODict ∅]> (heap w)) w, Ok tt)
    | None => (w, Raise (Exc.mk AttributeError "clear"))
    end.

(** [x.append(v)] for the list at [l]. *)
Definition list_append (l : Py.loc) (v : val) : M unit :=
  fun w =>
    match Py.get_list (heap w) l with
    | Some vs => (set_heap (<[l := OList (vs ++ [v])]> (heap w)) w, Ok tt)
    | None => (w, Raise (Exc.mk AttributeError "append"))
    end.

End Runtime.

(* ===================================================================== *)
(** * The code runner: [run_code] *)
(* ===================================================================== *)

Module Runner.
Import Runtime.
Local Open Scope py_scope.

Section WithInterpreter.

(** [six.PY3] *)
Variable PY3 : bool.
(** [compile(text, '<string>', 'exec')] *)
Variable py_compile : string -> result unit.
(** [six.exec_(code, ns)]: runs arbitrary code with the dict at [ns] as
    its globals; it may change anything in the world and may raise. *)
Variable py_exec : string -> Py.loc -> world -> world * option exc.
(** [traceback.format_exc()] for the exception being handled. *)
Variable format_exc : exc -> string.

(** [os.getcwd()] (or [os.getcwdu()]) *)
Definition os_getcwd : M string :=
  fun w =>
    if isdir w (cwd w) then (w, Ok (cwd w))
    else (w, Raise (Exc.mk FileNotFoundError (cwd w))).

(** [os.chdir(path)] *)
Definition os_chdir (path : string) : M unit :=
  fun w =>
    match chdir_error w path with
    | None => (set_cwd path w, Ok tt)
    | Some e => (w, Raise e)
    end.

Definition exec_ (code : string) (ns : Py.loc) : M unit :=
  fun w =>
    match py_exec code ns w with
    | (w1, None) => (w1, Ok tt)
    | (w1, Some e) => (w1, Raise e)
    end.

(** [six.exec_("__name__ = '__main__'", ns)]: the globals get their
    [__builtins__] entry if they have none, then the binding. *)
Definition exec_name_main (ns : Py.loc) : M unit :=
  fun w =>
    match Py.get_dict (heap w) ns with
    | Some d =>
        let d1 := Visibility.setdefault "__builtins__" (VOpaque "module") d in
        (set_heap (<[ns := ODict (<["__name__" := VStr "__main__"]> d1)]>
                     (heap w)) w, Ok tt)
    | None => (w, Raise (Exc.mk TypeError "globals must be a dict"))
    end.

Definition str_truthy (s : option string) : bool :=
  match s with
  | Some x => negb (Str.is_empty x)
  | None => false
  end.

(** The [if raises is None: ... else: ...] statement. *)
Definition exec_expecting (raises : option pyclass) (code : string)
    (ns : Py.loc) : M unit :=
  match raises with
  | None => exec_ code ns
  | Some cls =>
      try_except (exec_ code ns)
        (fun e => if Exc.isinstance e cls then ret tt else raise e)
  end.

(** The statements before the code itself is executed: the code that
    will be run is returned. *)
Definition prepare (code : string) (ns : Py.loc) (pre_code : option string)
  : M string :=
  code <- lift (Doctest.unescape_doctest py_compile code) ;;
  ns_true <- gets (fun w => Py.truthy (heap w) (VRef ns)) ;;
  (if str_truthy pre_code && negb ns_true
   then exec_ (default EmptyString pre_code) ns
   else ret tt) ;;
  dict_setitem ns "print" (VOpaque "function") ;;
  (if Str.contains "__main__" code then exec_name_main ns else ret tt) ;;
  ret (Doctest.remove_coding code).

(** The [if function_name:] statement. *)
Definition call_function (function_name : option string) (ns : Py.loc)
  : M unit :=
  if str_truthy function_name
  then exec_ (default EmptyString function_name +:+ "()") ns
  else ret tt.

(** The suite of the inner [try]. *)
Definition run_body (code : string) (ns : Py.loc)
    (function_name pre_code : option string) (raises : option pyclass)
  : M unit :=
  code <- prepare code ns pre_code ;;
  exec_expecting raises code ns ;;
  call_function function_name ns.

(** [except (Exception, SystemExit): raise PlotError(format_exc())] *)
Definition to_plot_error (e : exc) : M unit :=
  if Exc.isinstance e Exception || Exc.isinstance e SystemExit
  then raise (Exc.mk PlotError (format_exc e))
  else raise e.

(** The suite of [finally]. *)
Definition restore (pwd : string) (old_sys_argv : list val)
    (old_sys_path : list string) (stdout : stream) : M unit :=
  os_chdir pwd ;;
  modify (set_sys_argv old_sys_argv) ;;
  modify (set_sys_path old_sys_path) ;;
  modify (set_sys_stdout stdout).

(** [run_code(code, code_path, ns, function_name, workdir, pre_code,
    raises)] *)
Definition run_code (code : string) (code_path : val)
    (ns : option Py.loc) (function_name workdir pre_code : option string)
    (raises : option pyclass) : M Py.loc :=
  pwd <- os_getcwd ;;
  old_sys_path <- gets sys_path ;;
  workdir <- match workdir with
             | None => os_getcwd
             | Some d => ret d
             end ;;
  os_chdir workdir ;;
  modify (fun w => set_sys_path (workdir :: sys_path w) w) ;;
  old_sys_argv <- gets sys_argv ;;
  modify (set_sys_argv [code_path]) ;;
  stdout <- gets sys_stdout ;;
  modify (set_sys_stdout
            (if PY3 then StringIO EmptyString else BytesIO EmptyString)) ;;
  ns <- match ns with
        | None => new_dict ∅
        | Some l => ret l
        end ;;
  try_finally
    (try_except (run_body code ns function_name pre_code raises)
                to_plot_error)
    (restore pwd old_sys_argv old_sys_path stdout) ;;
  ret ns.

End WithInterpreter.

End Runner.

(* ===================================================================== *)
(** * The figure renderer: [ImageFile], [render_figures] *)
(* ===================================================================== *)


Module Figures.
Import Runtime.
Local Open Scope py_scope.

(** [class ImageFile] *)
Record ImageFile := mkImageFile {
  basename : string;
  dirname : string;
  formats : list string;
}.

(** [ImageFile(basename, path)] *)
Definition new_ImageFile (base path : string) : ImageFile :=
  mkImageFile base path [].

(** ["%d" % j] *)
Definition str_of_nat (j : nat) : string :=
  DecimalString.NilZero.string_of_uint (Nat.to_uint j).

(** ["%02d" % j]: the decimal digits of [j], filled with zeros on the left
    up to two characters. *)
Definition format_02d (j : nat) : string :=
  let s := str_of_nat j in
  String.concat EmptyString (repeat "0" (2 - String.length s)) +:+ s.

(** The base name of the [j]-th of [n] figures. *)
Definition image_name (output_base : string) (n j : nat) : string :=
  if Nat.eqb n 1 then output_base
  else output_base +:+ "_" +:+ format_02d j.

(** A member of [config.nbplot_formats]. *)
Inductive fmt_entry : Type :=
| FStr (s : string)                 (* a string *)
| FTuple (items : list val)         (* a tuple *)
| FList (items : list val)          (* a list *)
| FOther.                           (* anything else that is no tuple:
                                       a number, [None], a dict, ... *)

(** [config.nbplot_formats]: a string or a list. *)
Inductive formats_value : Type :=
| FormatsStr (s : string)
| FormatsList (l : list fmt_entry).

Record config := mkConfig {
  nbplot_formats : formats_value;
  nbplot_rcparams : gmap string val;
  nbplot_working_directory : val;
  nbplot_pre_code : option string;
}.

(** [default_dpi.get(fmt, 80)] *)
Definition default_dpi (fmt : string) : Z :=
  if bool_decide (fmt = "png") then 80
  else if bool_decide (fmt = "hires.png") then 200
  else if bool_decide (fmt = "pdf") then 200
  else 80.

Section WithBackend.

Variable PY3 : bool.
Variable py_compile : string -> result unit.
Variable py_exec : string -> Py.loc -> world -> world * option exc.
Variable format_exc : exc -> string.
(** [int(s)] for a string, when it is an integer literal; [int(v)] for a
    value of a type that the model leaves opaque (a float is truncated,
    most others raise [TypeError]); [str(v)] for a value that is no
    string. *)
Variable py_int : string -> option Z.
Variable int_opaque : string -> result Z.
Variable py_str : val -> string.
(** [os.path.abspath] (given the working directory), [os.path.dirname]
    and [os.path.join] *)
Variable abspath : string -> string -> string.
Variable os_dirname : string -> string.
Variable pjoin : string -> string -> string.
(** [matplotlib.rc_file_defaults()]: the default parameters. *)
Variable rc_defaults : gmap string val.
(** [figman.canvas.figure.savefig(filename, dpi=dpi)] *)
Variable savefig : figure -> string -> Z -> world -> world * option exc.

(** [int(v)] *)
Definition int_of_val (v : val) : result Z :=
  match v with
  | VInt z => Ok z
  | VBool b => Ok (if b then 1 else 0)
  | VStr s =>
      match py_int s with
      | Some z => Ok z
      | None => Raise (Exc.mk ValueError "invalid literal for int()")
      end
  | VOpaque type_name => int_opaque type_name
  | _ => Raise (Exc.mk TypeError "int() argument")
  end.

(** [str(v)] *)
Definition str_of_val (v : val) : string :=
  match v with
  | VStr s => s
  | _ => py_str v
  end.

(** [(str(fmt[0]), int(fmt[1]))] *)
Definition format_of_pair (a b : val) : result (string * Z) :=
  Exc.rbind (int_of_val b) (fun d => Ok (str_of_val a, d)).

(** The body of the loop over [plot_formats].  In the last branch the
    message is made with [%], which takes a tuple for the list of its
    arguments: a tuple that does not hold exactly one member makes the
    formatting itself fail. *)
Definition parse_format (fmt : fmt_entry) : result (string * Z) :=
  match fmt with
  | FStr s =>
      if Str.contains ":" s then
        match Str.split_on ":"%char s with
        | [suffix; dpi] => format_of_pair (VStr suffix) (VStr dpi)
        | _ => Raise (Exc.mk ValueError "too many values to unpack")
        end
      else Ok (s, default_dpi s)
  | FTuple [a; b] | FList [a; b] => format_of_pair a b
  | FTuple [_] | FList _ | FOther =>
      Raise (Exc.mk PlotError "invalid image format in nbplot_formats")
  | FTuple _ =>
      Raise (Exc.mk TypeError "arguments of the format string")
  end.

Fixpoint parse_formats (l : list fmt_entry) : result (list (string * Z)) :=
  match l with
  | [] => Ok []
  | fmt :: rest =>
      Exc.rbind (parse_format fmt) (fun f =>
        Exc.rbind (parse_formats rest) (fun fs => Ok (f :: fs)))
  end.

Definition plot_formats (v : formats_value) : list fmt_entry :=
  match v with
  | FormatsStr s => map FStr (Str.split_on ","%char s)
  | FormatsList l => l
  end.

(** [plt.close('all')] *)
Definition plt_close_all : M unit := modify (set_figs []).

(** [_check_wd(path)] *)
Definition _check_wd (path : val) : M string :=
  match path with
  | VStr p =>
      abs_path <- gets (fun w => abspath (cwd w) p) ;;
      dir <- gets (fun w => isdir w abs_path) ;;
      if dir then ret abs_path
      else raise (Exc.mk OSError
                    "nbplot_working_directory must be a valid directory path")
  | _ => raise (Exc.mk TypeError
                  "nbplot_working_directory must be a string or None")
  end.

(** [img.filename(format)] *)
Definition filename (img : ImageFile) (format : string) : string :=
  pjoin (dirname img) (basename img +:+ "." +:+ format).

Definition savefig_ (figman : figure) (fn : string) (dpi : Z) : M unit :=
  fun w =>
    match savefig figman fn dpi w with
    | (w1, None) => (w1, Ok tt)
    | (w1, Some e) => (w1, Raise e)
    end.

(** The inner loop [for format, dpi in formats]. *)
Fixpoint save_formats (figman : figure) (img : ImageFile)
    (fmts : list (string * Z)) : M ImageFile :=
  match fmts with
  | [] => ret img
  | (format, dpi) :: rest =>
      try_except (savefig_ figman (filename img format) dpi)
        (fun e => if Exc.isinstance e Exception
                  then raise (Exc.mk PlotError (format_exc e))
                  else raise e) ;;
      save_formats figman
        (mkImageFile (basename img) (dirname img) (formats img ++ [format]))
        rest
  end.

(** The loop [for j, figman in enumerate(fig_managers)]; [n] is
    [len(fig_managers)] and [j] the index of the head of [rest]. *)
Fixpoint save_figures (output_base output_dir : string)
    (fmts : list (string * Z)) (n j : nat) (rest : list figure)
  : M (list ImageFile) :=
  match rest with
  | [] => ret []
  | figman :: rest' =>
      img <- save_formats figman
               (new_ImageFile (image_name output_base n j) output_dir)
               fmts ;;
      images <- save_figures output_base output_dir fmts n (S j) rest' ;;
      ret (img :: images)
  end.

(** The last part of [render_figures]: the figures the backend tracks
    are saved and described. *)
Definition collect_images (output_base output_dir : string)
    (fmts : list (string * Z)) : M (list ImageFile) :=
  fig_managers <- gets figs ;;
  save_figures output_base output_dir fmts (length fig_managers) 0
               fig_managers.

(** The part of [render_figures] up to and including [run_code]: the
    parsed formats are returned. *)
Definition run_for_figures (code : string) (code_path : val)
    (cfg setup_config : config) (context : bool)
    (function_name : option string) (context_reset close_figs : bool)
    (raises : option pyclass) : M (list (string * Z)) :=
  fmts <- lift (parse_formats (plot_formats (nbplot_formats cfg))) ;;
  ns <- (if context then gets plot_context else new_dict ∅) ;;
  (if context_reset then
     plt_close_all ;;
     modify (set_rcparams rc_defaults) ;;
     modify (fun w => set_rcparams (nbplot_rcparams cfg ∪ rcparams w) w) ;;
     pc <- gets plot_context ;;
     dict_clear pc
   else ret tt) ;;
  let close_figs := negb context || close_figs in
  workdir <- match nbplot_working_directory setup_config with
             | VNone =>
                 match code_path with
                 | VNone => ret None
                 | VStr p =>
                     d <- gets (fun w => abspath (cwd w) (os_dirname p)) ;;
                     ret (Some d)
                 | _ => raise (Exc.mk TypeError "dirname")
                 end
             | path => d <- _check_wd path ;; ret (Some d)
             end ;;
  (if close_figs then plt_close_all else ret tt) ;;
  Runner.run_code PY3 py_compile py_exec format_exc
    code code_path (Some ns) function_name workdir
    (nbplot_pre_code setup_config) raises ;;
  ret fmts.

(** [render_figures(code, code_path, output_dir, output_base, config,
    context, function_name, context_reset, close_figs, raises)] *)
Definition render_figures (code : string) (code_path : val)
    (output_dir output_base : string) (cfg setup_config : config)
    (context : bool) (function_name : option string)
    (context_reset close_figs : bool) (raises : option pyclass)
  : M (list ImageFile) :=
  fmts <- run_for_figures code code_path cfg setup_config context
            function_name context_reset close_figs raises ;;
  collect_images output_base output_dir fmts.

End WithBackend.

End Figures.

(* ===================================================================== *)
(** * Flag namespaces and part selection: [do_builder_init],
      [do_purge_doc], [NBPlotFlags.run], [NBPlotDirective._get_parts],
      [NBPlotDirective._select_parts] *)
(* ===================================================================== *)

Module Flags.
Import Runtime.
Local Open Scope py_scope.

(** [do_builder_init(app)]: both containers are new and empty
    ([defaultdict(_false)] and [defaultdict(dict)]). *)
Definition do_builder_init : M unit :=
  modify (set_reset_markers ∅) ;;
  modify (set_flag_namespaces ∅).

(** [obj.copy()] for a dict or a list: a new object with the same members
    (the members themselves are shared). *)
Definition copy_object (v : val) : M Py.loc :=
  match v with
  | VRef l =>
      fun w =>
        match heap w !! l with
        | Some o =>
            let '(l', h) := Py.alloc o (heap w) in (set_heap h w, Ok l')
        | None => (w, Raise (Exc.mk AttributeError "copy"))
        end
  | _ => raise (Exc.mk AttributeError "copy")
  end.

(** [do_purge_doc(app, env, docname)] *)
Definition do_purge_doc (docname : string) : M unit :=
  modify (fun w =>
            set_reset_markers (<[docname := false]> (nbplot_reset_markers w)) w) ;;
  flags <- gets nbplot_flags ;;
  l <- copy_object flags ;;
  modify (fun w =>
            set_flag_namespaces (<[docname := l]> (nbplot_flag_namespaces w)) w).

(** [env.nbplot_flag_namespaces[docname]]: the [defaultdict] makes and
    keeps a new empty dict for a document it has no entry for. *)
Definition flag_namespace (docname : string) : M Py.loc :=
  known <- gets (fun w => nbplot_flag_namespaces w !! docname) ;;
  match known with
  | Some l => ret l
  | None =>
      l <- new_dict ∅ ;;
      modify (fun w =>
                set_flag_namespaces
                  (<[docname := l]> (nbplot_flag_namespaces w)) w) ;;
      ret l
  end.

(** A directive instance: its options, its content and the document it is
    in ([env.docname]). *)
Record directive := mkDirective {
  options : gmap string val;
  content : list string;
  docname : string;
}.

(** [isinstance(v, Sequence)] *)
Definition is_sequence (h : Py.heap) (v : val) : bool :=
  match v with
  | VStr _ | VTuple _ => true
  | VRef l =>
      match h !! l with
      | Some (OList _) => true
      | _ => false
      end
  | _ => false
  end.

(** The members that [for i in v] goes through, for a Sequence [v]. *)
Definition sequence_items (h : Py.heap) (v : val) : option (list val) :=
  match v with
  | VStr s => Some (map (fun c => VStr (Str.str1 c)) (list_ascii_of_string s))
  | VTuple vs => Some vs
  | VRef l =>
      match h !! l with
      | Some (OList vs) => Some vs
      | _ => None
      end
  | _ => None
  end.

(** The integer an index stands for: an [int], or a [bool] (a subclass of
    [int]). *)
Definition as_index (i : val) : option Z :=
  match i with
  | VInt z => Some z
  | VBool b => Some (if b then 1 else 0)
  | _ => None
  end.

(** [l[i]] for a list [l]. *)
Definition list_getitem {A} (l : list A) (i : val) : result A :=
  match as_index i with
  | None => Raise (Exc.mk TypeError "list indices must be integers or slices")
  | Some z =>
      let n := Z.of_nat (length l) in
      let k := if z <? 0 then z + n else z in
      if (k <? 0) || (n <=? k)
      then Raise (Exc.mk IndexError "list index out of range")
      else match l !! Z.to_nat k with
           | Some x => Ok x
           | None => Raise (Exc.mk IndexError "list index out of range")
           end
  end.

(** [part['contents']] *)
Definition part_contents (p : Parts.part) : result (list string) :=
  match p !! "contents" with
  | Some (Parts.PLines l) => Ok l
  | Some (Parts.PStr _) => Raise (Exc.mk TypeError "can only concatenate list")
  | None => Raise (Exc.mk KeyError "contents")
  end.

(** [[parts[i]['contents'] for i in indices]] *)
Fixpoint select (parts : list Parts.part) (indices : list val)
  : result (list (list string)) :=
  match indices with
  | [] => Ok []
  | i :: rest =>
      Exc.rbind (list_getitem parts i) (fun p =>
        Exc.rbind (part_contents p) (fun c =>
          Exc.rbind (select parts rest) (fun cs => Ok (c :: cs))))
  end.

Section WithInterpreter.

(** [six.exec_(code, None, local_ns)]: runs arbitrary statements with the
    dict at [local_ns] as their local namespace. *)
Variable py_exec_in : string -> Py.loc -> world -> world * option exc.
(** [eval(expr, name_space)] *)
Variable py_eval : string -> Py.loc -> world -> world * result val.

(** [NBPlotFlags.run(self)] *)
Definition NBPlotFlags_run (self : directive) : M (list Visibility.node) :=
  local_ns <- flag_namespace (docname self) ;;
  (fun w =>
     match py_exec_in (Str.join Parts.NL (content self)) local_ns w with
     | (w1, None) => (w1, Ok tt)
     | (w1, Some e) => (w1, Raise e)
     end) ;;
  ret [].

(** [eval(self.options[option_name], name_space)] *)
Definition eval_option (expr : val) (name_space : Py.loc) : M val :=
  match expr with
  | VStr e => py_eval e name_space
  | _ => raise (Exc.mk TypeError "eval() arg 1 must be a string")
  end.

(** [NBPlotDirective._get_parts(self, option_name)] *)
Definition _get_parts (self : directive) (option_name : string) : M val :=
  match options self !! option_name with
  | None => ret (VTuple [VInt 0])
  | Some expr =>
      ns <- flag_namespace (docname self) ;;
      name_space <- copy_object (VRef ns) ;;
      indices <- eval_option expr name_space ;;
      seq <- gets (fun w => is_sequence (heap w) indices) ;;
      ret (if seq then indices else VTuple [indices])
  end.

(** The parts an option selects:
    [[parts[i]['contents'] for i in self._get_parts(option_name)]] *)
Definition selected (self : directive) (parts : list Parts.part)
    (option_name : string) : M (list (list string)) :=
  indices <- _get_parts self option_name ;;
  h <- gets heap ;;
  match sequence_items h indices with
  | Some items => lift (select parts items)
  | None => raise (Exc.mk TypeError "object is not iterable")
  end.

(** [NBPlotDirective._select_parts(self)] *)
Definition _select_parts (self : directive) : M (string * string) :=
  parts <- lift (Parts.parse_parts (content self)) ;;
  to_render <- selected self parts "render-parts" ;;
  to_run <- selected self parts "run-parts" ;;
  ret (Str.join Parts.NL (concat to_render),
       Str.join Parts.NL (concat to_run)).

End WithInterpreter.

End Flags.

(* ===================================================================== *)
(** * The vocabulary of the properties *)
(* ===================================================================== *)

Module Spec.
Import Str Runtime Flags Parts Figures.

(** A word: a non-empty string without white space. *)
Definition is_word_str (s : string) : bool :=
  negb (is_empty s) && all_chars (fun c => negb (is_space c)) s.

(** A text that is empty or starts with white space. *)
Definition starts_blank (t : string) : bool :=
  match t with
  | EmptyString => true
  | String b _ => is_space b
  end.

(** The effective [include-source] option: the directive's own, else the
    configuration's. *)
Definition effective_include_source (h : Py.heap) (options : gmap string val)
    (nbplot_include_source : val) : bool :=
  Py.truthy h (default nbplot_include_source (options !! "include-source")).

Definition base_hide_from (include_source : bool) : list string :=
  if include_source then [] else ["all"].

Definition base_show_to (include_source : bool) : list string :=
  if include_source then [] else ["doctest"].

(** The value of an option that lists builder names separated by spaces,
    when the option is given. *)
Definition names_option (names : option (list string)) : option val :=
  (fun l => VStr (Str.join " " l)) <$> names.

Definition no_linebreak (s : string) : bool :=
  all_chars (fun c => negb (is_linebreak c)) s.

Definition starts_solid (s : string) : bool :=
  match first_char s with
  | Some c => negb (is_space c)
  | None => false
  end.

Definition ends_solid (s : string) : bool :=
  match last_char s with
  | Some c => negb (is_space c)
  | None => false
  end.

(** Lines that joining, stripping and splitting again leaves as they are:
    no line holds a line boundary, the first line does not start with white
    space and the last line does not end with white space (so neither is
    empty). *)
Definition clean_lines (lines : list string) : bool :=
  match lines with
  | [] => true
  | first :: _ =>
      forallb no_linebreak lines && starts_solid first
      && ends_solid (List.last lines EmptyString)
  end.

(** The line's first characters that are not white space are [>>>]. *)
Definition starts_with_prompt (line : string) : Prop :=
  exists ws rest,
    all_chars is_space ws = true /\ line = ws +:+ ">>>" +:+ rest.

(** The text has a line (between LFs) that starts with the prompt. *)
Definition has_prompt_line (text : string) : Prop :=
  exists line, line ∈ split_on LF text /\ starts_with_prompt line.

(** The first of the LF-separated lines of a text. *)
Definition first_line (s : string) : string :=
  hd EmptyString (split_on LF s).


(** The world in which the inner [try] starts, and the namespace used. *)
Definition enter (PY3 : bool) (code_path : val) (wd : string)
    (ns : option Py.loc) (w : world) : world * Py.loc :=
  let w1 :=
    set_sys_stdout (if PY3 then StringIO EmptyString else BytesIO EmptyString)
      (set_sys_argv [code_path]
         (set_sys_path (wd :: sys_path w) (set_cwd wd w))) in
  match ns with
  | Some l => (w1, l)
  | None => let '(l, h) := Py.alloc (ODict ∅) (heap w1) in (set_heap h w1, l)
  end.

(** The world that the [finally] suite leaves. *)
Definition leave (w0 w1 : world) : world :=
  set_sys_stdout (sys_stdout w0)
    (set_sys_path (sys_path w0)
       (set_sys_argv (sys_argv w0) (set_cwd (cwd w0) w1))).

(** A directory that the process can enter. *)
Definition enterable (w : world) (path : string) : Prop :=
  files w !! path = Some Dir.

(** The character of a decimal digit. *)
Definition digit (d : nat) : ascii := Ascii.ascii_of_nat (48 + d)%nat.

(** The two-digit rendering of an index below 100. *)
Definition two_digits (j : nat) : string :=
  String (digit (j / 10)%nat) (String (digit (j mod 10)%nat) EmptyString).

(** Every write of an image succeeds. *)
Definition savefig_succeeds
    (savefig : figure -> string -> Z -> world -> world * option exc) : Prop :=
  forall figman fn dpi w, (savefig figman fn dpi w).2 = None.

(** The world after [do_purge_doc], when the configured flags are a live
    object. *)
Definition purged (docname : string) (o : obj) (w : world) : world :=
  set_flag_namespaces
    (<[docname := Py.fresh_loc (heap w)]> (nbplot_flag_namespaces w))
    (set_heap (<[Py.fresh_loc (heap w) := o]> (heap w))
       (set_reset_markers (<[docname := false]> (nbplot_reset_markers w)) w)).

(** What a name of the namespace at [ns] denotes: the value bound to it
    and, for a reference, the object referred to. *)
Definition read (h : Py.heap) (ns : Py.loc) (name : string)
  : option (val * option obj) :=
  match Py.get_dict h ns with
  | Some d =>
      match d !! name with
      | Some (VRef l) => Some (VRef l, h !! l)
      | Some v => Some (v, None)
      | None => None
      end
  | None => None
  end.

(** An integer: an [int] or a [bool]. *)
Definition is_int (v : val) : bool :=
  match as_index v with
  | Some _ => true
  | None => false
  end.

(** A Sequence all of whose members are integers. *)
Definition is_int_sequence (h : Py.heap) (v : val) : bool :=
  match sequence_items h v with
  | Some items => forallb is_int items
  | None => false
  end.

(** What a selection expression may evaluate to: a single integer or a
    sequence of integers. *)
Definition valid_indices (h : Py.heap) (v : val) : bool :=
  is_int v || is_int_sequence h v.

End Spec.

(* ===================================================================== *)
(** * Concrete directives, processes and interpreters *)
(* ===================================================================== *)

Module Examples.
Import Visibility Runtime Flags Figures Spec.
Local Open Scope py_scope.

(** The attributes that [:include-source: false] together with
    [:show-to: doctest] produce. *)
Definition doubled_show_to : attrs :=
  <["hide-from" := ["all"]]> (<["show-to" := ["doctest"; "doctest"]]> ∅).

(** [:include-source: false] with [:hide-from: html latex]. *)
Definition example_options : gmap string val :=
  <["include-source" := VBool false]> (<["hide-from" := VStr "html latex"]> ∅).

(** A file system with the directory [/docs] and the file
    [/docs/conf.py]. *)
Definition docs_tree : gmap string entry :=
  <["/docs" := Dir]> (<["/docs/conf.py" := File]> ∅).

(** A process in [/docs] whose heap holds one empty dict. *)
Definition w_init : world :=
  mkWorld (<[1%positive := ODict ∅]> ∅) "/docs" ["/usr/lib/python3"]
          [VStr "sphinx-build"] (Stream "stdout") [] ∅ 1%positive ∅ ∅ VNone
          docs_tree.

Definition compiles (text : string) : result unit := Ok tt.



(** Code that raises nothing and changes nothing. *)
Definition quiet (code : string) (ns : Py.loc) (w : world)
  : world * option exc := (w, None).

(** Code that leaves the backend with the figures [figures]. *)
Definition plotting (figures : list figure) (code : string) (ns : Py.loc)
    (w : world) : world * option exc :=
  (set_figs figures w, None).

Definition saves (figman : figure) (fn : string) (dpi : Z) (w : world)
  : world * option exc := (w, None).

(** [int(v)] for opaque values none of which converts. *)
Definition no_int (type_name : string) : result Z :=
  Raise (Exc.mk TypeError "int() argument").

Definition png_only : config :=
  mkConfig (FormatsList [FStr "png"]) ∅ VNone None.

(** [render_figures] for a document [/docs/index.rst] whose code leaves
    the figures [figures]. *)
Definition render_example (figures : list figure) : M (list ImageFile) :=
  Figures.render_figures true compiles
    (plotting figures) exc_msg (fun _ => None) no_int (fun _ => "?")
    (fun _ path => path) (fun _ => "/docs")
    (fun dir name => dir +:+ "/" +:+ name) ∅ saves
    "plt.plot(x)" (VStr "/docs/index.rst") "/build" "index-1"
    png_only png_only true None false true None.

Definition run_example (figures : list figure) : M (list (string * Z)) :=
  Figures.run_for_figures true compiles
    (plotting figures) exc_msg (fun _ => None) no_int (fun _ => "?")
    (fun _ path => path) (fun _ => "/docs") ∅
    "plt.plot(x)" (VStr "/docs/index.rst")
    png_only png_only true None false true None.

(** A build whose configured flags are [{'slow': True}]. *)
Definition w_flags : world :=
  mkWorld (<[1%positive := ODict (<["slow" := VBool true]> ∅)]> ∅)
          "/docs" ["/usr/lib/python3"] [VStr "sphinx-build"] (Stream "stdout")
          [] ∅ 1%positive ∅ ∅ (VRef 1%positive) docs_tree.

(** A build whose configured flags are [{'seen': []}]: the dict at 1 binds
    [seen] to the list at 2. *)
Definition w_shared : world :=
  mkWorld (<[1%positive := ODict (<["seen" := VRef 2%positive]> ∅)]>
             (<[2%positive := OList []]> ∅))
          "/docs" ["/usr/lib/python3"] [VStr "sphinx-build"] (Stream "stdout")
          [] ∅ 1%positive ∅ ∅ (VRef 1%positive) docs_tree.

(** The statement [seen.append(1)] run in a local namespace. *)
Definition exec_append_seen (code : string) (local_ns : Py.loc) (w : world)
  : world * option exc :=
  match Py.get_dict (heap w) local_ns with
  | Some d =>
      match d !! "seen" with
      | Some (VRef l) =>
          match list_append l (VInt 1) w with
          | (w', Ok _) => (w', None)
          | (w', Raise e) => (w', Some e)
          end
      | _ => (w, Some (Exc.mk AttributeError "append"))
      end
  | None => (w, Some (Exc.mk TypeError "locals must be a mapping"))
  end.

Definition set_flags_directive : directive :=
  mkDirective ∅ ["seen.append(1)"] "intro".

(** The world once the builder is initialised and both documents purged,
    and the world after the [nbplot-flags] directive of [intro] has run. *)
Definition w_both_purged : world :=
  ((do_builder_init ;; do_purge_doc "intro" ;; do_purge_doc "usage")
     w_shared).1.

Definition w_after_flags : world :=
  (NBPlotFlags_run exec_append_seen set_flags_directive w_both_purged).1.

(** [:render-parts: 1.5]: the expression evaluates to a float. *)
Definition eval_float (expr : string) (name_space : Py.loc) (w : world)
  : world * result val := (w, Ok (VOpaque "float")).

Definition float_directive : directive :=
  mkDirective (<["render-parts" := VStr "1.5"]> ∅) ["x = 1"] "index".

(** [:render-parts: ''] : the expression evaluates to the empty string. *)
Definition eval_empty_str (expr : string) (name_space : Py.loc) (w : world)
  : world * result val := (w, Ok (VStr EmptyString)).

Definition empty_str_directive : directive :=
  mkDirective (<["render-parts" := VStr "''"]> ∅) ["x = 1"] "index".

End Examples.

(* ===================================================================== *)
(** * Directive options and the directive's own steps:
      [_option_boolean], [checked_visit], [ImageFile.filenames] and
      statements of [NBPlotDirective.run] *)
(* ===================================================================== *)

Module StrMore.
Import Str.

(** [c.lower()] on ASCII. *)
Definition lower_char (c : ascii) : ascii :=
  if between 65 90 c then Ascii.ascii_of_nat (code c + 32) else c.

(** [s.lower()] *)
Fixpoint lower (s : string) : string :=
  match s with
  | EmptyString => EmptyString
  | String a s' => String (lower_char a) (lower s')
  end.

(** [s.replace(a, b)] for one-character strings [a] and [b]. *)
Fixpoint replace_char (a b : ascii) (s : string) : string :=
  match s with
  | EmptyString => EmptyString
  | String c s' =>
      String (if ascii_eqb c a then b else c) (replace_char a b s')
  end.

(** ["%d" % z] *)
Definition str_of_Z (z : Z) : string :=
  match z with
  | Z0 => "0"
  | Zpos p => Figures.str_of_nat (Pos.to_nat p)
  | Zneg p => "-" +:+ Figures.str_of_nat (Pos.to_nat p)
  end.

Definition QUOTE : string := str1 (Ascii.ascii_of_nat 34).

End StrMore.

Module Options.

(** [_option_boolean(arg)]; [arg] is [None] when the option has no
    argument. *)
Definition _option_boolean (arg : option string) : result bool :=
  match arg with
  | None => Ok true
  | Some s =>
      if Str.is_empty s || Str.is_empty (Str.strip s) then Ok true
      else if Str.mem (StrMore.lower (Str.strip s)) ["no"; "0"; "false"]
      then Ok false
      else if Str.mem (StrMore.lower (Str.strip s)) ["yes"; "1"; "true"]
      then Ok true
      else Raise (Exc.mk PlotValueError
                    (StrMore.QUOTE +:+ s +:+ StrMore.QUOTE
                     +:+ " unknown boolean"))
  end.

End Options.

Module Visiting.
Import Visibility.

(** [docutils.nodes.SkipNode] *)
Definition SkipNode : pyclass :=
  Exc.subclass "SkipNode" (Exc.subclass "TreePruningException" Exception).

(** [checked_visit(self, node)], for the visitor of the builder
    [builder_name]. *)
Definition checked_visit (builder_name : string) (n : node) : result unit :=
  if negb (likes_builder n builder_name)
  then Raise (Exc.mk SkipNode "skip")
  else Ok tt.

(** The builders that [setup] registers the visit functions for. *)
Definition visiting_builders : list string :=
  ["html"; "latex"; "text"; "texinfo"].

End Visiting.

Module Orchestration.
Import Runtime.
Local Open Scope py_scope.

(** [ImageFile.filenames(self)] *)
Definition filenames (pjoin : string -> string -> string)
    (img : Figures.ImageFile) : list string :=
  map (Figures.filename pjoin img) (Figures.formats img).

(** The statement of [run] that decides [context_reset]: the first
    directive of a document finds no true marker, sets it and asks for a
    reset. *)
Definition context_reset_step (docname : string) : M bool :=
  marker <- gets (fun w => default false (nbplot_reset_markers w !! docname)) ;;
  if marker then ret false
  else
    modify (fun w =>
              set_reset_markers (<[docname := true]> (nbplot_reset_markers w))
                                w) ;;
    ret true.

(** The statements of [run] that name the output:
    [output_base = ('%s-%d' % (base, counter)).replace('.', '-')]. *)
Definition output_base (base : string) (counter : Z) : string :=
  StrMore.replace_char "."%char "-"%char
    (base +:+ "-" +:+ StrMore.str_of_Z counter).

End Orchestration.

(* ===================================================================== *)
(** * Further vocabulary and examples *)
(* ===================================================================== *)

Module SpecMore.
Import Str Runtime.

(** The builder names an option gives: the words of its string. *)
Definition option_words (o : option val) : list string :=
  match o with
  | Some (VStr s) => map Str.strip (Str.split s)
  | _ => []
  end.

(** An option that is absent or a string. *)
Definition absent_or_str (o : option val) : Prop :=
  match o with
  | None | Some (VStr _) => True
  | Some _ => False
  end.

(** The line of code that a line of a transcript becomes: the text after
    a prompt; for other text, a comment; for a blank line, nothing. *)
Definition line_code (line : string) : string :=
  match Doctest.match_prompt_line line with
  | Some g => g
  | None =>
      if negb (Str.is_empty (Str.strip line))
      then "# " +:+ Str.strip line
      else EmptyString
  end.

(** The translations of the lines, one after the other. *)
Fixpoint flat (lines : list string) : string :=
  match lines with
  | [] => EmptyString
  | l :: ls => Doctest.unescape_line l +:+ flat ls
  end.

(** A string in which the character [c] does not occur. *)
Definition free_of (c : ascii) (s : string) : bool :=
  all_chars (fun x => negb (ascii_eqb x c)) s.

(** A computation that leaves the figures of the backend as they are. *)
Definition keeps_figs {A} (m : M A) : Prop :=
  forall w, figs (m w).1 = figs w.

(** Code that opens and closes no figure, whatever else it does. *)
Definition plots_nothing
    (py_exec : string -> Py.loc -> world -> world * option exc) : Prop :=
  forall code ns w, figs (py_exec code ns w).1 = figs w.

(** The marker of a part without attributes, and the separator it makes
    between two parts: the marker after an empty line, then the empty line
    that ends the (empty) list of attributes. *)
Definition bare_marker : string := ".. part" +:+ Parts.NL +:+ Parts.NL.
Definition bare_separator : string := Parts.NL +:+ Parts.NL +:+ bare_marker.

(** A part with its lines and no attribute. *)
Definition plain_part (lines : list string) : Parts.part :=
  <["contents" := Parts.PLines lines]> ∅.

(** A line with a prompt: [>>> ] and the code. *)
Definition prompt_line (code : string) : string := ">>> " +:+ code.

(** A coding comment as PEP 263 writes it. *)
Definition coding_line (encoding : string) : string :=
  "# -*- coding: " +:+ encoding +:+ " -*-".

End SpecMore.

Module ExamplesMore.
Import Visibility Runtime.

(** [:include-source: false] with [:hide-from: latex]. *)
Definition hidden_options : gmap string val :=
  <["include-source" := VBool false]> (<["hide-from" := VStr "latex"]> ∅).

(** [:hide-from: latex text] *)
Definition hide_two_options : gmap string val :=
  <["hide-from" := VStr "latex text"]> ∅.

(** [:include-source: false] with [:show-to: html] *)
Definition show_html_options : gmap string val :=
  <["include-source" := VBool false]> (<["show-to" := VStr "html"]> ∅).

Definition plain_attrs : attrs :=
  <["hide-from" := ["latex"]]> (<["show-to" := ["html"; "doctest"]]> ∅).

(** A process whose namespace at 1 binds [x]. *)
Definition w_bound : world :=
  mkWorld (<[1%positive := ODict (<["x" := VInt 1]> ∅)]> ∅) "/docs"
          ["/usr/lib/python3"] [VStr "sphinx-build"] (Stream "stdout") [] ∅
          1%positive ∅ ∅ VNone Examples.docs_tree.

(** A backend that cannot write: every [savefig] raises [OSError]. *)
Definition read_only (figman : figure) (fn : string) (dpi : Z) (w : world)
  : world * option exc := (w, Some (Exc.mk OSError "read-only file system")).

(** A configuration whose working directory is [/nowhere]. *)
Definition nowhere_config : Figures.config :=
  Figures.mkConfig (Figures.FormatsList [Figures.FStr "png"]) ∅
    (VStr "/nowhere") None.

(** A process in which two figures are open. *)
Definition w_two_figures : world :=
  mkWorld (<[1%positive := ODict ∅]> ∅) "/docs" ["/usr/lib/python3"]
          [VStr "sphinx-build"] (Stream "stdout") [7%nat; 8%nat] ∅
          1%positive ∅ ∅ VNone Examples.docs_tree.

(** [int(s)] for the one literal of the examples. *)
Definition int_100 (s : string) : option Z :=
  if bool_decide (s = "100") then Some 100 else None.

(** [render_figures] for [/docs/index.rst] with the interpreter
    [py_exec], the backend [savefig] and the setup configuration
    [setup_config]; the figures are kept when [keepfigs] is set. *)
Definition render_with
    (py_exec : string -> Py.loc -> world -> world * option exc)
    (savefig : figure -> string -> Z -> world -> world * option exc)
    (setup_config : Figures.config) (keepfigs : bool)
  : M (list Figures.ImageFile) :=
  Figures.render_figures true Examples.compiles py_exec exc_msg
    (fun _ => None) Examples.no_int (fun _ => "?") (fun _ path => path) (fun _ => "/docs")
    (fun dir name => dir +:+ "/" +:+ name) ∅ savefig
    "plt.plot(x)" (VStr "/docs/index.rst") "/build" "index-1"
    Examples.png_only setup_config true None false (negb keepfigs) None.

Definition run_with
    (py_exec : string -> Py.loc -> world -> world * option exc)
    (setup_config : Figures.config) (keepfigs : bool)
  : M (list (string * Z)) :=
  Figures.run_for_figures true Examples.compiles py_exec exc_msg
    (fun _ => None) Examples.no_int (fun _ => "?") (fun _ path => path) (fun _ => "/docs") ∅
    "plt.plot(x)" (VStr "/docs/index.rst")
    Examples.png_only setup_config true None false (negb keepfigs) None.

(** A directive without options whose content is one line. *)
Definition plain_directive : Flags.directive :=
  Flags.mkDirective ∅ ["x = 1"] "index".

(** A compiler that rejects every text with [SyntaxError]. *)
Definition rejects (text : string) : result unit :=
  Raise (Exc.mk SyntaxError "invalid syntax").

End ExamplesMore.

(* ===================================================================== *)
(** * Properties *)
(* ===================================================================== *)

(** ** Python strings *)

Module StrFacts.
Import Str.
Import Spec Examples.

Lemma append_cons a s t : String a s +:+ t = String a (s +:+ t).
Proof. reflexivity. Qed.

Lemma append_nil_l t : EmptyString +:+ t = t.
Proof. reflexivity. Qed.

Lemma append_nil_r s : s +:+ EmptyString = s.
Proof. induction s as [|a s IH]; [done|]. by rewrite append_cons, IH. Qed.

Lemma append_assoc s t u : (s +:+ t) +:+ u = s +:+ (t +:+ u).
Proof.
  induction s as [|a s IH]; [done|]. by rewrite !append_cons, IH.
Qed.

Lemma split_word_app n t :
  is_word_str n = true -> starts_blank t = true ->
  split (n +:+ t) = n :: split t.
Proof.
  unfold is_word_str. induction n as [|a n IH]; [done|].
  cbn [is_empty negb andb all_chars].
  intros [Ha Hn]%andb_prop Ht. apply negb_true_iff in Ha.
  rewrite append_cons. cbn [split]. rewrite Ha.
  destruct n as [|a' n].
  - rewrite append_nil_l. destruct t as [|b t]; [done|].
    cbn in Ht. by rewrite Ht.
  - rewrite append_cons. cbn [all_chars] in Hn.
    apply andb_prop in Hn as Hn'. destruct Hn' as [Ha' _].
    apply negb_true_iff in Ha'. rewrite Ha'.
    rewrite <- append_cons. rewrite IH; [done| |done].
    cbn [is_empty negb andb]. exact Hn.
Qed.

Lemma split_blank_cons b t :
  is_space b = true -> split (String b t) = split t.
Proof. intros H. cbn [split]. by rewrite H. Qed.

(** [" ".join(names).split()] gives the names back. *)
Lemma split_join_space (names : list string) :
  Forall (fun n => is_word_str n = true) names ->
  split (join " " names) = names.
Proof.
  induction 1 as [|n names Hn Hall IH]; [done|].
  cbn [join]. destruct names as [|m names].
  - rewrite <- (append_nil_r n) at 1. by rewrite split_word_app.
  - rewrite split_word_app; [|done|done].
    rewrite append_cons, split_blank_cons by done.
    rewrite append_nil_l. by rewrite IH.
Qed.

Lemma lstrip_first s :
  match s with
  | EmptyString => True
  | String a _ => is_space a = false
  end -> lstrip s = s.
Proof. destruct s as [|a s]; [done|]. cbn. by intros ->. Qed.

Lemma rstrip_last s c :
  last_char s = Some c -> is_space c = false -> rstrip s = s.
Proof.
  revert c. induction s as [|a s IH]; [done|].
  intros c. cbn [last_char rstrip].
  destruct (last_char s) as [b|] eqn:Hl.
  - intros [= <-] Hc. rewrite (IH b eq_refl Hc).
    destruct s; [done|reflexivity].
  - intros [= <-] Hc. destruct s as [|a' s].
    + cbn. by rewrite Hc.
    + cbn in Hl. by destruct (last_char s).
Qed.

Lemma last_char_word n :
  is_word_str n = true ->
  exists c, last_char n = Some c /\ is_space c = false.
Proof.
  unfold is_word_str. induction n as [|a n IH]; [done|].
  cbn [is_empty negb andb all_chars last_char].
  intros [Ha Hn]%andb_prop. apply negb_true_iff in Ha.
  destruct n as [|a' n].
  - exists a. by cbn.
  - destruct IH as (c & Hc & Hsc); [exact Hn|].
    exists c. by rewrite Hc.
Qed.

(** Stripping a word leaves it as it is. *)
Lemma strip_word n : is_word_str n = true -> strip n = n.
Proof.
  intros Hn. unfold strip.
  destruct (last_char_word n Hn) as (c & Hc & Hsc).
  rewrite lstrip_first.
  - by apply rstrip_last with c.
  - unfold is_word_str in Hn. destruct n as [|a n]; [done|].
    cbn in Hn. apply andb_prop in Hn as [Ha _]. by apply negb_true_iff in Ha.
Qed.

Lemma map_strip_words names :
  Forall (fun n => is_word_str n = true) names ->
  map strip names = names.
Proof.
  induction 1 as [|n names Hn _ IH]; [done|].
  cbn. by rewrite strip_word, IH.
Qed.

End StrFacts.

(** ** Builder visibility *)

Module VisibilityFacts.
Import Visibility.

Lemma mem_true x l : Str.mem x l = true <-> x ∈ l.
Proof. unfold Str.mem. apply bool_decide_eq_true. Qed.

Lemma mem_false x l : Str.mem x l = false <-> x ∉ l.
Proof. unfold Str.mem. apply bool_decide_eq_false. Qed.

Lemma mem_decide x l : Str.mem x l = bool_decide (x ∈ l).
Proof. reflexivity. Qed.

(** Membership in [show-to] wins over every [hide-from] entry, the ["all"]
    sentinel included. *)
Lemma show_to_overrides (self : attrs) (builder_name : string) :
  builder_name ∈ get self "show-to" [] ->
  nbplot_container.likes_builder self builder_name = true.
Proof.
  intros H. unfold nbplot_container.likes_builder.
  by rewrite (proj2 (mem_true _ _) H).
Qed.

(** C2.  The visibility query of a node: true when the builder name is in
    [show-to]; otherwise false when ["all"] is in [hide-from]; otherwise
    false when the name itself is in [hide-from]; otherwise true.  A missing
    attribute counts as the empty list.  In particular a name in [show-to]
    is accepted whatever [hide-from] holds, the ["all"] sentinel
    included. *)
Theorem likes_builder_cascade (self : attrs) (builder_name : string) :
  nbplot_container.likes_builder self builder_name =
    (if bool_decide (builder_name ∈ get self "show-to" []) then true
     else if bool_decide ("all" ∈ get self "hide-from" []) then false
     else if bool_decide (builder_name ∈ get self "hide-from" []) then false
     else true) /\
  forall hide_from : list string,
    nbplot_container.likes_builder
      (<["hide-from" := hide_from]> (<["show-to" := [builder_name]]> self))
      builder_name = true.
Proof.
  split.
  - unfold nbplot_container.likes_builder. rewrite !mem_decide.
    repeat case_bool_decide; reflexivity.
  - intros hide_from. apply show_to_overrides.
    unfold get. rewrite lookup_insert_ne by done.
    rewrite lookup_insert_eq. set_solver.
Qed.

(** The same query through the module-level function, for a node that
    carries the attributes. *)
Lemma likes_builder_container (a : attrs) (builder_name : string) :
  likes_builder (Container a) builder_name =
    nbplot_container.likes_builder a builder_name.
Proof. reflexivity. Qed.

Lemma get_filter_nonempty (a : attrs) (key : string) :
  get (filter (fun kv => kv.2 ≠ []) a) key [] = get a key [].
Proof.
  unfold get.
  destruct (a !! key) as [v|] eqn:Hk.
  - destruct v as [|x v].
    + rewrite map_lookup_filter_None_2; [done|].
      right. intros y Hy. rewrite Hk in Hy. injection Hy as <-. simpl. tauto.
    + erewrite map_lookup_filter_Some_2; [done|done|simpl; done].
  - rewrite map_lookup_filter_None_2; [done|]. by left.
Qed.

(** A node built by [rst2nodes] answers like its attribute dict. *)
Lemma likes_builder_node_of_attrs (a : attrs) (builder_name : string) :
  likes_builder (node_of_attrs a) builder_name =
    nbplot_container.likes_builder a builder_name.
Proof.
  unfold node_of_attrs, likes_builder, nbplot_container.likes_builder.
  by rewrite !get_filter_nonempty.
Qed.

End VisibilityFacts.

(** ** [_hide_from_builder] *)

Module HideFacts.
Import Visibility.
Import Spec Examples.

Lemma elem_of_remove_first x y l :
  y ∈ Str.remove_first x l -> y ∈ l.
Proof.
  induction l as [|z l IH]; simpl; [done|].
  case_bool_decide.
  - intros. by right.
  - rewrite !elem_of_cons. intros [->|H']; [by left | right; auto].
Qed.

(** Removing the first occurrence of a name that occurs once removes it. *)
Lemma remove_first_NoDup x l :
  NoDup l -> x ∉ Str.remove_first x l.
Proof.
  induction 1 as [|z l Hz Hnd IH]; simpl; [set_solver|].
  case_bool_decide as Heq.
  - by subst.
  - rewrite not_elem_of_cons. split; [congruence | done].
Qed.

(** A dict that already hides the builder is left as it is. *)
Lemma hide_from_builder_fixpoint (a : attrs) (name : string) :
  is_Some (a !! "show-to") -> is_Some (a !! "hide-from") ->
  name ∉ get a "show-to" [] -> name ∈ get a "hide-from" [] ->
  _hide_from_builder a name = (a, Ok tt).
Proof.
  intros [s Hs] [h Hh]. unfold get, _hide_from_builder. rewrite Hs, Hh.
  intros Hns Hnh.
  rewrite (proj2 (VisibilityFacts.mem_false _ _) Hns). rewrite Hh.
  by rewrite (proj2 (VisibilityFacts.mem_true _ _) Hnh).
Qed.

(** When the builder name occurs at most once in [show-to], the call does
    hide the node from the builder: afterwards the name is not in
    [show-to], it is in [hide-from], the query answers false, and a second
    call changes nothing. *)
Lemma hide_from_builder_hides (a : attrs) (name : string)
    (show_to hide_from : list string) :
  a !! "show-to" = Some show_to ->
  a !! "hide-from" = Some hide_from ->
  NoDup show_to ->
  exists a',
    _hide_from_builder a name = (a', Ok tt) /\
    (name ∉ get a' "show-to" []) /\
    (name ∈ get a' "hide-from" []) /\
    likes_builder (node_of_attrs a') name = false /\
    _hide_from_builder a' name = (a', Ok tt).
Proof.
  intros Hs Hh Hnd.
  assert (Hlikes : forall a' : attrs,
            name ∉ get a' "show-to" [] -> name ∈ get a' "hide-from" [] ->
            likes_builder (node_of_attrs a') name = false).
  { intros a' H1 H2.
    rewrite VisibilityFacts.likes_builder_node_of_attrs.
    unfold nbplot_container.likes_builder.
    rewrite (proj2 (VisibilityFacts.mem_false _ _) H1).
    rewrite (proj2 (VisibilityFacts.mem_true _ _) H2).
    by destruct (Str.mem "all" _). }
  unfold _hide_from_builder at 1. rewrite Hs.
  set (a1 := if Str.mem name show_to
             then <["show-to" := Str.remove_first name show_to]> a else a).
  assert (Hh1 : a1 !! "hide-from" = Some hide_from).
  { subst a1. destruct (Str.mem name show_to); [|done].
    by rewrite lookup_insert_ne. }
  assert (Hss : is_Some (a1 !! "show-to")).
  { subst a1. destruct (Str.mem name show_to); [|by eauto].
    rewrite lookup_insert_eq. by eauto. }
  assert (Hs1 : name ∉ get a1 "show-to" []).
  { subst a1. unfold get. destruct (Str.mem name show_to) eqn:Hm.
    - rewrite lookup_insert_eq. by apply remove_first_NoDup.
    - rewrite Hs. by apply VisibilityFacts.mem_false. }
  rewrite Hh1. clearbody a1.
  destruct (Str.mem name hide_from) eqn:Hm; cbn [negb].
  - exists a1.
    assert (Hin : name ∈ get a1 "hide-from" []).
    { unfold get. rewrite Hh1. by apply VisibilityFacts.mem_true. }
    split; [done|]. split; [done|]. split; [done|].
    split; [by apply Hlikes|].
    apply hide_from_builder_fixpoint; [done|by rewrite Hh1|done|done].
  - set (a2 := <["hide-from" := hide_from ++ [name]]> a1).
    exists a2.
    assert (Hs2 : name ∉ get a2 "show-to" []).
    { subst a2. unfold get. rewrite lookup_insert_ne; [|done]. exact Hs1. }
    assert (Hh2 : name ∈ get a2 "hide-from" []).
    { subst a2. unfold get. rewrite lookup_insert_eq. set_solver. }
    split; [done|]. split; [done|]. split; [done|].
    split; [by apply Hlikes|].
    apply hide_from_builder_fixpoint; [| |done|done].
    + subst a2. by rewrite lookup_insert_ne.
    + subst a2. rewrite lookup_insert_eq. by eauto.
Qed.

(** C10.  What the code does when the name occurs twice in [show-to]:
    [list.remove] drops the first occurrence only, so after the call the
    name is still in [show-to], the node still answers true to the
    visibility query, and a second call changes the dict again. *)
Theorem hide_from_builder_keeps_duplicate :
  let a1 := (_hide_from_builder doubled_show_to "doctest").1 in
  let a2 := (_hide_from_builder a1 "doctest").1 in
  _hide_from_builder doubled_show_to "doctest" = (a1, Ok tt) /\
  a1 !! "show-to" = Some ["doctest"] /\
  a1 !! "hide-from" = Some ["all"; "doctest"] /\
  likes_builder (node_of_attrs a1) "doctest" = true /\
  a2 !! "show-to" = Some [] /\
  a2 <> a1.
Proof.
  assert (E1 : _hide_from_builder doubled_show_to "doctest" =
    (<["hide-from" := ["all"; "doctest"]]>
       (<["show-to" := ["doctest"]]> doubled_show_to), Ok tt)).
  { unfold _hide_from_builder, doubled_show_to. simplify_map_eq. reflexivity. }
  rewrite E1. cbn [fst].
  set (a1 := <["hide-from" := ["all"; "doctest"]]>
               (<["show-to" := ["doctest"]]> doubled_show_to)).
  assert (Hs : a1 !! "show-to" = Some ["doctest"]) by (subst a1; by simplify_map_eq).
  assert (Hh : a1 !! "hide-from" = Some ["all"; "doctest"])
    by (subst a1; by simplify_map_eq).
  assert (E2 : _hide_from_builder a1 "doctest" =
                 (<["show-to" := []]> a1, Ok tt)).
  { unfold _hide_from_builder. rewrite Hs. simpl.
    rewrite lookup_insert_ne; [|done]. rewrite Hh. reflexivity. }
  rewrite E2. cbn [fst].
  split; [done|]. split; [done|]. split; [done|]. split.
  - rewrite VisibilityFacts.likes_builder_node_of_attrs.
    unfold nbplot_container.likes_builder, get. rewrite Hs. reflexivity.
  - split; [by rewrite lookup_insert_eq|].
    intros Heq. assert (H := f_equal (fun m => m !! "show-to") Heq).
    simpl in H. rewrite lookup_insert_eq, Hs in H. discriminate.
Qed.

End HideFacts.

(** ** [_proc_builder_opts] *)

Module ProcOptsFacts.
Import Visibility.
Import Spec Examples.

Lemma setdefault_lookup_ne key key' v (options : gmap string val) :
  key <> key' -> setdefault key v options !! key' = options !! key'.
Proof.
  intros Hne. unfold setdefault.
  destruct (options !! key); [done|]. by rewrite lookup_insert_ne.
Qed.

Lemma setdefault_lookup key v (options : gmap string val) :
  setdefault key v options !! key = Some (default v (options !! key)).
Proof.
  unfold setdefault. destruct (options !! key) eqn:H; [done|].
  by rewrite lookup_insert_eq.
Qed.

Lemma add_builders_names options opt_name (node_attrs : attrs)
    (names : option (list string)) :
  options !! opt_name = names_option names ->
  Forall (fun n => Spec.is_word_str n = true) (default [] names) ->
  is_Some (node_attrs !! opt_name) ->
  add_builders options opt_name node_attrs =
    Ok (<[opt_name := get node_attrs opt_name [] ++ default [] names]>
          node_attrs).
Proof.
  intros Ho Hn [old Hold]. unfold add_builders. rewrite Ho.
  destruct names as [l|]; cbn in *.
  - by rewrite StrFacts.split_join_space, StrFacts.map_strip_words.
  - unfold get. rewrite Hold, app_nil_r. by rewrite insert_id.
Qed.

(** C4.  The node attributes start from [hide-from = ["all"]],
    [show-to = ["doctest"]] when the effective [include-source] option is
    false and from two empty lists when it is true; the builder names of
    explicit [hide-from] and [show-to] options (separated by spaces) are
    appended to these lists. *)
Theorem proc_builder_opts_appends (h : Py.heap) (options : gmap string val)
    (nbplot_include_source : val) (hide show : option (list string)) :
  options !! "hide-from" = names_option hide ->
  options !! "show-to" = names_option show ->
  Forall (fun n => Spec.is_word_str n = true) (default [] hide) ->
  Forall (fun n => Spec.is_word_str n = true) (default [] show) ->
  let inc := effective_include_source h options nbplot_include_source in
  exists node_attrs,
    (_proc_builder_opts h options nbplot_include_source).2 = Ok node_attrs /\
    node_attrs !! "hide-from" = Some (base_hide_from inc ++ default [] hide) /\
    node_attrs !! "show-to" = Some (base_show_to inc ++ default [] show) /\
    dom node_attrs = {["hide-from"; "show-to"]}.
Proof.
  intros Hh Hs Hnh Hns inc.
  unfold _proc_builder_opts. cbn [snd].
  rewrite setdefault_lookup.
  fold (effective_include_source h options nbplot_include_source). fold inc.
  set (opts := setdefault "include-source" nbplot_include_source options).
  assert (Hh' : opts !! "hide-from" = names_option hide)
    by (subst opts; by rewrite setdefault_lookup_ne).
  assert (Hs' : opts !! "show-to" = names_option show)
    by (subst opts; by rewrite setdefault_lookup_ne).
  set (base := if inc
               then <["hide-from" := []]> (<["show-to" := []]> (∅ : attrs))
               else <["hide-from" := ["all"]]>
                      (<["show-to" := ["doctest"]]> ∅)).
  assert (Hbh : base !! "hide-from" = Some (base_hide_from inc))
    by (subst base; destruct inc; by simplify_map_eq).
  assert (Hbs : base !! "show-to" = Some (base_show_to inc))
    by (subst base; destruct inc; by simplify_map_eq).
  assert (Hbd : dom base = {["hide-from"; "show-to"]}).
  { subst base. destruct inc; rewrite !dom_insert_L, dom_empty_L; set_solver. }
  rewrite (add_builders_names opts "hide-from" base hide Hh' Hnh)
    by (rewrite Hbh; eauto).
  cbn [Exc.rbind].
  set (a1 := <["hide-from" := get base "hide-from" [] ++ default [] hide]> base).
  assert (Ha1s : a1 !! "show-to" = Some (base_show_to inc))
    by (subst a1; by rewrite lookup_insert_ne).
  rewrite (add_builders_names opts "show-to" a1 show Hs' Hns)
    by (rewrite Ha1s; eauto).
  eexists. split; [reflexivity|].
  split; [|split].
  - rewrite lookup_insert_ne by done. subst a1. rewrite lookup_insert_eq.
    unfold get. by rewrite Hbh.
  - rewrite lookup_insert_eq. unfold get. by rewrite Ha1s.
  - subst a1. rewrite !dom_insert_L, Hbd. set_solver.
Qed.

Lemma proc_builder_opts_appends_witness :
  let inc := effective_include_source ∅ example_options (VBool true) in
  inc = false /\
  exists node_attrs,
    (_proc_builder_opts ∅ example_options (VBool true)).2 = Ok node_attrs /\
    node_attrs !! "hide-from" =
      Some (base_hide_from inc ++ default [] (Some ["html"; "latex"])) /\
    node_attrs !! "show-to" = Some (base_show_to inc ++ default [] None) /\
    dom node_attrs = {["hide-from"; "show-to"]}.
Proof.
  split; [reflexivity|].
  apply (proc_builder_opts_appends ∅ example_options (VBool true)
           (Some ["html"; "latex"]) None).
  - reflexivity.
  - reflexivity.
  - repeat constructor.
  - constructor.
Defined.

End ProcOptsFacts.

(** ** The part parser *)

Module PartsFacts.
Import Str Parts.
Import Spec Examples.

Lemma split_no_match s : forall b cur,
  PARTER_search b s = false ->
  PARTER_split_go 0 b cur s = [cur +:+ s].
Proof.
  induction s as [|a s IH]; intros b cur; cbn [PARTER_search PARTER_split_go].
  - destruct (PARTER_match b EmptyString) as [[g rest]|];
      by rewrite StrFacts.append_nil_r.
  - destruct (PARTER_match b (String a s)) as [[g rest]|]; [done|].
    intros H. rewrite IH by done.
    by rewrite StrFacts.append_assoc.
Qed.

Lemma is_linebreak_LF : is_linebreak LF = true.
Proof. reflexivity. Qed.

(** A line without boundaries, then LF, then more text. *)
Lemma splitlines_line_app x t :
  no_linebreak x = true ->
  splitlines (x +:+ NL +:+ t) = x :: splitlines t.
Proof.
  unfold no_linebreak. induction x as [|a x IH]; cbn [all_chars].
  - intros _. rewrite StrFacts.append_nil_l. unfold NL, str1.
    rewrite StrFacts.append_cons, StrFacts.append_nil_l.
    cbn [splitlines]. rewrite is_linebreak_LF.
    destruct t as [|b t]; [done|].
    replace (ascii_eqb LF CR) with false by reflexivity. done.
  - intros [Ha Hx]%andb_prop. apply negb_true_iff in Ha.
    rewrite StrFacts.append_cons. cbn [splitlines]. rewrite Ha.
    by rewrite IH.
Qed.

Lemma splitlines_last_line x :
  no_linebreak x = true -> x <> EmptyString -> splitlines x = [x].
Proof.
  unfold no_linebreak. induction x as [|a x IH]; [done|].
  cbn [all_chars]. intros [Ha Hx]%andb_prop _. apply negb_true_iff in Ha.
  cbn [splitlines]. rewrite Ha.
  destruct x as [|b x]; [done|].
  by rewrite IH.
Qed.

Lemma splitlines_join (lines : list string) :
  forallb no_linebreak lines = true ->
  List.last lines EmptyString <> EmptyString ->
  splitlines (join NL lines) = lines.
Proof.
  induction lines as [|x lines IH]; [done|].
  cbn [forallb]. intros [Hx Hl]%andb_prop Hlast.
  cbn [join]. destruct lines as [|y lines].
  - by apply splitlines_last_line.
  - rewrite splitlines_line_app by done. f_equal. by apply IH.
Qed.

Lemma last_char_app s t :
  last_char (s +:+ t) =
    match last_char t with
    | Some c => Some c
    | None => last_char s
    end.
Proof.
  induction s as [|a s IH].
  - rewrite StrFacts.append_nil_l. by destruct (last_char t).
  - rewrite StrFacts.append_cons. cbn [last_char]. rewrite IH.
    by destruct (last_char t).
Qed.

Lemma last_char_join (lines : list string) c :
  last_char (List.last lines EmptyString) = Some c ->
  last_char (join NL lines) = Some c.
Proof.
  induction lines as [|x lines IH]; [done|].
  cbn [join]. destruct lines as [|y lines]; [done|].
  intros H. rewrite !last_char_app.
  change (List.last (x :: y :: lines) EmptyString)
    with (List.last (y :: lines) EmptyString) in H.
  by rewrite (IH H).
Qed.

Lemma strip_join_clean (lines : list string) :
  clean_lines lines = true ->
  strip (join NL lines) = join NL lines.
Proof.
  destruct lines as [|x lines]; [done|].
  unfold clean_lines.
  intros [[_ Hfirst]%andb_prop Hlast]%andb_prop.
  unfold ends_solid in Hlast.
  destruct (last_char (List.last (x :: lines) EmptyString)) as [c|] eqn:Hc;
    [|done].
  apply negb_true_iff in Hlast.
  unfold strip. rewrite StrFacts.lstrip_first.
  - apply StrFacts.rstrip_last with c; [|done]. by apply last_char_join.
  - unfold starts_solid in Hfirst.
    destruct x as [|a x]; [done|]. cbn in Hfirst.
    apply negb_true_iff in Hfirst.
    cbn [join]. by destruct lines.
Qed.

Lemma clean_lines_roundtrip (lines : list string) :
  clean_lines lines = true ->
  splitlines (strip (join NL lines)) = lines.
Proof.
  intros Hc. rewrite strip_join_clean by done.
  destruct lines as [|x lines]; [done|].
  unfold clean_lines in Hc.
  apply andb_prop in Hc as [[Hnb _]%andb_prop Hlast].
  apply splitlines_join; [done|].
  unfold ends_solid in Hlast. intros E. by rewrite E in Hlast.
Qed.

(** C3, as the code has it.  When [PARTER] finds no separator in the text,
    [parse_parts] returns exactly one part; it has no attributes, and its
    contents are the lines of the text that joining the input lines with LF
    and stripping the white space around it gives.  These are the input
    lines themselves when the lines are clean: no line holds a line
    boundary, the first does not start and the last does not end with white
    space. *)
Theorem parse_parts_no_separator (lines : list string) :
  PARTER_search true (strip (join NL lines)) = false ->
  exists p,
    parse_parts lines = Ok [p] /\
    attributes p = ∅ /\
    contents p = Some (splitlines (strip (join NL lines))) /\
    (clean_lines lines = true -> contents p = Some lines).
Proof.
  intros Hno. unfold parse_parts, PARTER_split.
  rewrite split_no_match by done. rewrite StrFacts.append_nil_l.
  eexists. split; [reflexivity|].
  split; [|split].
  - unfold attributes. apply delete_singleton_eq.
  - unfold contents. by rewrite lookup_singleton_eq.
  - intros Hc. unfold contents. rewrite lookup_singleton_eq.
    by rewrite clean_lines_roundtrip.
Qed.

Lemma parse_parts_no_separator_witness :
  PARTER_search true (strip (join NL ["x = 1"; EmptyString; "y = 2"])) = false /\
  exists p,
    parse_parts ["x = 1"; EmptyString; "y = 2"] = Ok [p] /\
    attributes p = ∅ /\
    contents p =
      Some (splitlines (strip (join NL ["x = 1"; EmptyString; "y = 2"]))) /\
    (clean_lines ["x = 1"; EmptyString; "y = 2"] = true ->
     contents p = Some ["x = 1"; EmptyString; "y = 2"]).
Proof.
  split; [reflexivity|].
  apply (parse_parts_no_separator ["x = 1"; EmptyString; "y = 2"]). reflexivity.
Defined.

(** C3, as stated, fails: a first line that starts with white space comes
    back without it. *)
Lemma parse_parts_strips_input :
  ~ (forall lines,
       PARTER_search true (strip (join NL lines)) = false ->
       exists p, parse_parts lines = Ok [p] /\
                 attributes p = ∅ /\ contents p = Some lines).
Proof.
  intros H.
  destruct (H ["  a"; "b"] eq_refl) as (p & Hp & _ & Hc).
  vm_compute in Hp. injection Hp as <-.
  vm_compute in Hc. discriminate.
Qed.

End PartsFacts.

(** ** Doctest handling *)

Module DoctestFacts.
Import Str Doctest.
Import Spec Examples.

Lemma span_spec f s :
  s = (span f s).1 +:+ (span f s).2 /\
  all_chars f (span f s).1 = true /\
  match (span f s).2 with
  | String c _ => f c = false
  | EmptyString => True
  end.
Proof.
  induction s as [|a s IH]; [done|].
  cbn [span]. destruct (f a) eqn:Hf.
  - destruct (span f s) as [p r]. cbn in *.
    destruct IH as (-> & Hall & Hr).
    by rewrite Hf, Hall.
  - cbn. by rewrite Hf.
Qed.

Lemma drop_while_app f ws r :
  all_chars f ws = true ->
  match r with
  | String c _ => f c = false
  | EmptyString => True
  end ->
  drop_while f (ws +:+ r) = r.
Proof.
  unfold drop_while. induction ws as [|a ws IH]; cbn [all_chars].
  - intros _ Hr. rewrite StrFacts.append_nil_l.
    destruct r as [|c r]; [done|]. cbn. by rewrite Hr.
  - intros [Ha Hws]%andb_prop Hr. rewrite StrFacts.append_cons.
    cbn [span]. rewrite Ha.
    specialize (IH Hws Hr). by destruct (span f (ws +:+ r)).
Qed.

Lemma prefix_cons c p a s :
  String.prefix (String c p) (String a s) =
    if ascii_dec c a then String.prefix p s else false.
Proof. reflexivity. Qed.

Lemma prefix_app p r : String.prefix p (p +:+ r) = true.
Proof.
  induction p as [|a p IH]; [by destruct r|].
  rewrite StrFacts.append_cons. cbn. by destruct (ascii_dec a a).
Qed.

Lemma prefix_inv p s :
  String.prefix p s = true -> exists r, s = p +:+ r.
Proof.
  revert s. induction p as [|a p IH]; intros s.
  - exists s. done.
  - destruct s as [|b s]; [done|]. cbn.
    destruct (ascii_dec a b) as [<-|]; [|done].
    intros [r ->]%IH. by exists r.
Qed.

Lemma match_prompt_spec s :
  match_prompt s = true <-> starts_with_prompt s.
Proof.
  unfold match_prompt, startswith, starts_with_prompt. split.
  - intros [rest Hr]%prefix_inv.
    destruct (span_spec is_space s) as (Hs & Hall & _).
    exists (span is_space s).1, rest. split; [done|].
    unfold drop_while in Hr. by rewrite <- Hr.
  - intros (ws & rest & Hall & ->).
    rewrite drop_while_app; [apply prefix_app|done|reflexivity].
Qed.

Lemma split_on_cons c s :
  exists w ws, split_on c s = w :: ws.
Proof.
  destruct s as [|a s]; cbn; [by eauto|].
  destruct (ascii_eqb a c); [by eauto|].
  destruct (split_on c s); by eauto.
Qed.

Lemma prefix_first_line p s :
  all_chars not_LF p = true ->
  String.prefix p s = String.prefix p (first_line s).
Proof.
  revert s. induction p as [|c p IH]; intros s; [by destruct s, (first_line _)|].
  cbn [all_chars]. intros [Hc Hp]%andb_prop.
  destruct s as [|a s]; [done|].
  unfold first_line. cbn [split_on].
  unfold not_LF, ascii_eqb in Hc. apply negb_true_iff in Hc.
  apply bool_decide_eq_false in Hc.
  unfold ascii_eqb. case_bool_decide as Ha.
  - subst a. cbn. destruct (ascii_dec c LF); [done|reflexivity].
  - destruct (split_on_cons LF s) as (w & ws & Hw).
    specialize (IH s Hp). unfold first_line in IH. rewrite Hw in *. cbn in *.
    by destruct (ascii_dec c a).
Qed.

Lemma match_prompt_space a s :
  is_space a = true -> match_prompt (String a s) = match_prompt s.
Proof.
  intros Ha. unfold match_prompt, drop_while. cbn [span]. rewrite Ha.
  by destruct (span is_space s).
Qed.

Lemma match_prompt_solid a s :
  is_space a = false ->
  match_prompt (String a s) = String.prefix ">>>" (String a s).
Proof.
  intros Ha. unfold match_prompt, drop_while. cbn [span]. by rewrite Ha.
Qed.

(** Searching the text for a line start where [\s*>>>] matches is looking
    for a line that starts with the prompt. *)
Lemma search_prompt_lines s :
  (forall b,
     search_prompt b s =
       (b && match_prompt s) || existsb match_prompt (tl (split_on LF s))) /\
  match_prompt s || existsb match_prompt (tl (split_on LF s)) =
    existsb match_prompt (split_on LF s).
Proof.
  induction s as [|a s [IHG IHH]]; [split; [by intros []|done]|].
  cbn [search_prompt split_on].
  destruct (ascii_eqb a LF) eqn:Ha.
  - apply bool_decide_eq_true in Ha. subst a. cbn [tl existsb]. split.
    + intros b. rewrite IHG. cbn [andb]. by rewrite IHH.
    + rewrite match_prompt_space by reflexivity.
      rewrite <- IHH.
      replace (match_prompt EmptyString) with false by reflexivity.
      cbn [orb]. by destruct (match_prompt s).
  - destruct (split_on_cons LF s) as (w & ws & Hw). rewrite Hw in *.
    cbn [tl existsb] in *. split.
    + intros b. by rewrite IHG.
    + destruct (is_space a) eqn:Hsp.
      * rewrite !match_prompt_space by done. exact IHH.
      * rewrite !match_prompt_solid by done.
        f_equal. rewrite !(prefix_cons ">" ">>").
        destruct (ascii_dec ">" a); [|done].
        change w with (hd EmptyString (w :: ws)). rewrite <- Hw.
        by apply (prefix_first_line ">>").
Qed.

Lemma search_prompt_spec text :
  search_prompt true text = true <-> has_prompt_line text.
Proof.
  destruct (search_prompt_lines text) as [HG HH].
  rewrite HG. cbn [andb]. rewrite HH.
  rewrite existsb_exists. unfold has_prompt_line.
  split; intros (line & Hin & Hm); exists line.
  - split; [by apply list_elem_of_In | by apply match_prompt_spec].
  - split; [by apply list_elem_of_In | by apply match_prompt_spec].
Qed.

(** C9.  A text that compiles is returned as it is, whatever its lines
    look like; the text is taken for a transcript (and translated) exactly
    when compiling it raises [SyntaxError] and one of its lines starts,
    after white space, with [>>>]; in every other case where
    [contains_doctest] returns, the text is returned unchanged. *)
Theorem unescape_doctest_only_failing_transcripts
    (py_compile : string -> result unit) (text : string) :
  (py_compile text = Ok tt -> unescape_doctest py_compile text = Ok text) /\
  (contains_doctest py_compile text = Ok true <->
     (exists e, py_compile text = Raise e /\
                Exc.isinstance e SyntaxError = true)
     /\ has_prompt_line text) /\
  (contains_doctest py_compile text = Ok true ->
     unescape_doctest py_compile text = Ok (translate text)) /\
  (contains_doctest py_compile text = Ok false ->
     unescape_doctest py_compile text = Ok text).
Proof.
  unfold unescape_doctest, contains_doctest.
  split; [by intros ->|]. split; [|split].
  - destruct (py_compile text) as [[]|e] eqn:Hc.
    + split; [done|]. by intros [(e & He & _) _].
    + destruct (Exc.isinstance e SyntaxError) eqn:Hi.
      * split.
        -- intros [= Hs]. split; [by eauto|]. by apply search_prompt_spec.
        -- intros [_ Hp]. f_equal. by apply search_prompt_spec.
      * split; [done|]. intros [(e' & [= <-] & Hi') _]. congruence.
  - by intros ->.
  - by intros ->.
Qed.

End DoctestFacts.

(** ** The code runner *)

Module RunnerFacts.
Import Runtime Runner.
Import Spec Examples.
Local Open Scope py_scope.



Lemma enterable_isdir w path : enterable w path -> isdir w path = true.
Proof. unfold enterable, isdir. by intros ->. Qed.

Lemma chdir_error_enterable w path :
  chdir_error w path = None <-> enterable w path.
Proof.
  unfold chdir_error, enterable.
  destruct (files w !! path) as [[]|]; split; done.
Qed.

(** The [finally] suite: either the starting directory is entered and
    the other three pieces of state are put back, or [os.chdir] raises and
    nothing is put back. *)
Lemma restore_outcome w0 w1 :
  restore (cwd w0) (sys_argv w0) (sys_path w0) (sys_stdout w0) w1 =
    match chdir_error w1 (cwd w0) with
    | None => (leave w0 w1, Ok tt)
    | Some e => (w1, Raise e)
    end.
Proof.
  unfold Runner.restore, bind, os_chdir, modify.
  by destruct (chdir_error w1 (cwd w0)).
Qed.

Section WithInterpreter.

Variable PY3 : bool.
Variable py_compile : string -> result unit.
Variable py_exec : string -> Py.loc -> world -> world * option exc.
Variable format_exc : exc -> string.

Local Abbreviation run_code :=
  (Runner.run_code PY3 py_compile py_exec format_exc).
Local Abbreviation run_body := (Runner.run_body py_compile py_exec).
Local Abbreviation prepare := (Runner.prepare py_compile py_exec).
Local Abbreviation call_function := (Runner.call_function py_exec).
Local Abbreviation enter := (Spec.enter PY3).

(** The call when the current directory is gone: nothing is done. *)
Lemma run_code_no_cwd code code_path ns function_name workdir pre_code raises w :
  isdir w (cwd w) = false ->
  run_code code code_path ns function_name workdir pre_code raises w
    = (w, Raise (Exc.mk FileNotFoundError (cwd w))).
Proof.
  intros Hcwd. unfold Runner.run_code. unfold bind at 1.
  unfold os_getcwd at 1. by rewrite Hcwd.
Qed.

(** The call when the working directory cannot be entered. *)
Lemma run_code_no_workdir code code_path ns function_name workdir pre_code
    raises w e :
  isdir w (cwd w) = true ->
  chdir_error w (default (cwd w) workdir) = Some e ->
  run_code code code_path ns function_name workdir pre_code raises w
    = (w, Raise e).
Proof.
  intros Hcwd Hd. unfold Runner.run_code.
  unfold bind at 1. unfold os_getcwd at 1. rewrite Hcwd.
  unfold bind at 1. unfold gets at 1. unfold bind at 1.
  assert (Hw : (match workdir with
                | Some d => ret d
                | None => os_getcwd
                end) w = (w, Ok (default (cwd w) workdir))).
  { destruct workdir; [done|]. unfold os_getcwd. by rewrite Hcwd. }
  rewrite Hw. unfold bind at 1. unfold os_chdir at 1. by rewrite Hd.
Qed.

(** [run_code] once its directories are entered: the guarded body runs
    in the entered world; then the [finally] suite either restores the
    process state, and the namespace is returned unless the body raised,
    or fails to enter the starting directory, and its exception is the
    outcome. *)
Lemma run_code_entered code code_path ns function_name workdir pre_code raises w :
  isdir w (cwd w) = true ->
  enterable w (default (cwd w) workdir) ->
  let wd := default (cwd w) workdir in
  let '(w0, l) := enter code_path wd ns w in
  run_code code code_path ns function_name workdir pre_code raises w =
    let '(w1, r) :=
      try_except (run_body code l function_name pre_code raises)
                 (to_plot_error format_exc) w0 in
    match chdir_error w1 (cwd w) with
    | None => (leave w w1, Exc.rbind r (fun _ => Ok l))
    | Some e => (w1, Raise e)
    end.
Proof.
  intros Hcwd Hwd. cbn zeta.
  apply chdir_error_enterable in Hwd.
  unfold Runner.run_code, enter.
  unfold bind at 1. unfold os_getcwd at 1. rewrite Hcwd.
  unfold bind at 1. unfold gets at 1.
  unfold bind at 1.
  assert (Hw : (match workdir with
                | Some d => ret d
                | None => os_getcwd
                end) w = (w, Ok (default (cwd w) workdir))).
  { destruct workdir; [done|]. unfold os_getcwd. by rewrite Hcwd. }
  rewrite Hw.
  unfold bind at 1. unfold os_chdir at 1. rewrite Hwd.
  unfold bind at 1. unfold modify at 1.
  unfold bind at 1. unfold gets at 1.
  unfold bind at 1. unfold modify at 1.
  unfold bind at 1. unfold gets at 1.
  unfold bind at 1. unfold modify at 1.
  unfold bind at 1.
  destruct ns as [l|].
  - unfold ret at 1. unfold bind at 1. unfold try_finally.
    cbn [sys_path sys_argv sys_stdout set_cwd set_sys_path set_sys_argv
         set_sys_stdout cwd].
    destruct (try_except _ _ _) as [w1 r].
    rewrite (restore_outcome w w1).
    destruct (chdir_error w1 (cwd w)); [done|]. by destruct r.
  - unfold new_dict at 1.
    destruct (Py.alloc _ _) as [l h] eqn:Ha.
    unfold bind at 1. unfold try_finally.
    cbn [sys_path sys_argv sys_stdout set_cwd set_sys_path set_sys_argv
         set_sys_stdout cwd].
    destruct (try_except _ _ _) as [w1 r].
    rewrite (restore_outcome w w1).
    destruct (chdir_error w1 (cwd w)); [done|]. by destruct r.
Qed.

(** A call after which the starting directory can be entered has entered
    it in its [finally] suite: the process state is restored and the
    outcome is the one of the guarded body. *)
Lemma run_code_back code code_path ns function_name workdir pre_code raises
    w w0 l :
  isdir w (cwd w) = true ->
  enterable w (default (cwd w) workdir) ->
  enter code_path (default (cwd w) workdir) ns w = (w0, l) ->
  enterable
    (run_code code code_path ns function_name workdir pre_code raises w).1
    (cwd w) ->
  run_code code code_path ns function_name workdir pre_code raises w =
    let '(w1, r) :=
      try_except (run_body code l function_name pre_code raises)
                 (to_plot_error format_exc) w0 in
    (leave w w1, Exc.rbind r (fun _ => Ok l)).
Proof.
  intros Hcwd Hwd Hen.
  pose proof (run_code_entered code code_path ns function_name workdir
                pre_code raises w Hcwd Hwd) as H.
  cbn zeta in H. rewrite Hen in H. rewrite H. clear H.
  destruct (try_except _ _ w0) as [w1 r].
  destruct (chdir_error w1 (cwd w)) as [e|] eqn:E; [|done].
  cbn [fst]. intros Hback%chdir_error_enterable. congruence.
Qed.



(** The guarded body when the code raises nothing. *)
Lemma guarded_body_quiet code l function_name pre_code raises w0 w2 code' w3 :
  prepare code l pre_code w0 = (w2, Ok code') ->
  py_exec code' l w2 = (w3, None) ->
  try_except (run_body code l function_name pre_code raises)
             (to_plot_error format_exc) w0 =
    try_except (call_function function_name l) (to_plot_error format_exc) w3.
Proof.
  intros Hp He. unfold try_except at 1, Runner.run_body.
  unfold bind at 1. rewrite Hp.
  unfold bind at 1.
  assert (Hx : exec_expecting py_exec raises code' l w2 = (w3, Ok tt)).
  { unfold exec_expecting. destruct raises; unfold try_except, exec_;
      by rewrite He. }
  rewrite Hx. unfold try_except. by destruct (call_function _ _ _).
Qed.


(** What the code does when an expected class is given and the code
    raises nothing: the call returns the namespace like any quiet run. *)
Lemma run_code_quiet_returns code code_path ns function_name workdir
    pre_code raises w w0 l w2 code' w3 :
  isdir w (cwd w) = true ->
  enterable w (default (cwd w) workdir) ->
  enter code_path (default (cwd w) workdir) ns w = (w0, l) ->
  prepare code l pre_code w0 = (w2, Ok code') ->
  py_exec code' l w2 = (w3, None) ->
  (call_function function_name l w3).2 = Ok tt ->
  enterable
    (run_code code code_path ns function_name workdir pre_code raises w).1
    (cwd w) ->
  (run_code code code_path ns function_name workdir pre_code raises w).2
    = Ok l.
Proof.
  intros Hcwd Hwd Hen Hp He Hc Hback.
  pose proof (run_code_back code code_path ns function_name workdir
                pre_code raises w w0 l Hcwd Hwd Hen Hback) as H.
  rewrite (guarded_body_quiet _ _ _ _ _ _ _ _ _ Hp He) in H.
  rewrite H. unfold try_except.
  destruct (call_function _ _ _) as [w4 [[]|e4]]; [done|discriminate].
Qed.

End WithInterpreter.

(** *** A concrete interpreter and process *)





(** With [ValueError] expected, code that raises nothing: the call returns
    the namespace. *)
Lemma run_code_expected_but_quiet :
  (Runner.run_code true compiles quiet exc_msg
     "x = 1" VNone (Some 1%positive) None None None (Some ValueError)
     w_init).2 = Ok 1%positive.
Proof.
  apply (run_code_quiet_returns true compiles quiet exc_msg
           "x = 1" VNone (Some 1%positive) None None None (Some ValueError)
           w_init _ _ _ _ _ eq_refl eq_refl eq_refl eq_refl eq_refl eq_refl).
  vm_compute. reflexivity.
Qed.

End RunnerFacts.

(** ** The figure renderer *)

Module FiguresFacts.
Import Runtime Figures.
Import Spec Examples.
Local Open Scope py_scope.
Local Open Scope nat_scope.

Lemma format_02d_table :
  forallb (fun j => String.eqb (format_02d j) (two_digits j)) (seq 0 100) = true.
Proof. vm_compute. reflexivity. Qed.

(** Below 100, ["%02d"] gives exactly two digits. *)
Lemma format_02d_two_digits j : j < 100 -> format_02d j = two_digits j.
Proof.
  intros Hj. apply String.eqb_eq.
  apply (proj1 (forallb_forall _ _) format_02d_table j).
  apply in_seq. lia.
Qed.

Ltac crack_uint :=
  match goal with
  | d : Decimal.uint |- _ => destruct d
  end.

(** From 100 on, the decimal rendering has three digits or more. *)
Lemma str_of_nat_long j : 100 <= j -> 3 <= String.length (str_of_nat j).
Proof.
  intros Hj. unfold str_of_nat.
  pose proof (DecimalNat.Unsigned.of_to j) as Hof.
  destruct (Nat.to_uint j); try (vm_compute in Hof; lia);
    crack_uint; try (vm_compute in Hof; lia);
    crack_uint; try (vm_compute in Hof; lia);
    cbn; lia.
Qed.

Lemma format_02d_long j :
  100 <= j ->
  format_02d j = str_of_nat j /\ 3 <= String.length (format_02d j).
Proof.
  intros Hj. pose proof (str_of_nat_long j Hj) as Hl.
  unfold format_02d.
  replace (2 - String.length (str_of_nat j)) with 0 by lia.
  split; [reflexivity|exact Hl].
Qed.

Section WithBackend.

Variable PY3 : bool.
Variable py_compile : string -> result unit.
Variable py_exec : string -> Py.loc -> world -> world * option exc.
Variable format_exc : exc -> string.
Variable py_int : string -> option Z.
Variable int_opaque : string -> result Z.
Variable py_str : val -> string.
Variable abspath : string -> string -> string.
Variable os_dirname : string -> string.
Variable pjoin : string -> string -> string.
Variable rc_defaults : gmap string val.
Variable savefig : figure -> string -> Z -> world -> world * option exc.

Local Abbreviation save_formats := (Figures.save_formats format_exc pjoin savefig).
Local Abbreviation save_figures := (Figures.save_figures format_exc pjoin savefig).
Local Abbreviation collect_images :=
  (Figures.collect_images format_exc pjoin savefig).
Local Abbreviation run_for_figures :=
  (Figures.run_for_figures PY3 py_compile py_exec format_exc py_int
     int_opaque py_str abspath os_dirname rc_defaults).
Local Abbreviation render_figures :=
  (Figures.render_figures PY3 py_compile py_exec format_exc py_int
     int_opaque py_str abspath os_dirname pjoin rc_defaults savefig).
Local Abbreviation savefig_succeeds := (Spec.savefig_succeeds savefig).

Lemma save_formats_ok figman fmts : forall img w,
  savefig_succeeds ->
  exists w' img',
    save_formats figman img fmts w = (w', Ok img') /\
    basename img' = basename img /\
    formats img' = formats img ++ map fst fmts.
Proof.
  induction fmts as [|[format dpi] fmts IH]; intros img w Hs.
  - exists w, img. by rewrite app_nil_r.
  - cbn [Figures.save_formats]. unfold bind at 1, try_except, savefig_.
    pose proof (Hs figman (filename pjoin img format) dpi w) as Hsave.
    destruct (savefig figman _ dpi w) as [w1 o]. cbn in Hsave. subst o.
    destruct (IH (mkImageFile (basename img) (dirname img)
                    (formats img ++ [format])) w1 Hs)
      as (w' & img' & -> & Hb & Hf).
    exists w', img'. split; [done|]. split; [done|].
    rewrite Hf. cbn. by rewrite <- app_assoc.
Qed.

Lemma save_figures_names output_base output_dir fmts n rest : forall j w,
  savefig_succeeds ->
  exists w' images,
    save_figures output_base output_dir fmts n j rest w = (w', Ok images) /\
    map basename images =
      map (image_name output_base n) (seq j (length rest)).
Proof.
  induction rest as [|figman rest IH]; intros j w Hs.
  - exists w, []. done.
  - cbn [Figures.save_figures]. unfold bind at 1.
    destruct (save_formats_ok figman fmts
                (new_ImageFile (image_name output_base n j) output_dir) w Hs)
      as (w1 & img & -> & Hb & _).
    unfold bind at 1.
    destruct (IH (S j) w1 Hs) as (w' & images & -> & Hn).
    exists w', (img :: images). split; [done|].
    cbn [map length seq]. by rewrite Hb, Hn.
Qed.

(** C7, as the code has it.  When the code has run and every image is
    written, [render_figures] returns one descriptor for each figure the
    backend tracks, in registration order.  A single figure is named
    exactly [output_base]; with more than one, the figure of index [j] is
    named [output_base], an underscore and [j] in decimal, filled with
    zeros up to two digits: exactly two digits for the indices below 100,
    and the digits of [j] from 100 on. *)
Theorem render_figures_names code code_path output_dir output_base cfg
    setup_config context function_name context_reset close_figs raises
    w w1 fmts :
  run_for_figures code code_path cfg setup_config context function_name
    context_reset close_figs raises w = (w1, Ok fmts) ->
  savefig_succeeds ->
  let n := length (figs w1) in
  exists w' images,
    render_figures code code_path output_dir output_base cfg setup_config
      context function_name context_reset close_figs raises w
      = (w', Ok images) /\
    length images = n /\
    (n = 1 -> map basename images = [output_base]) /\
    (1 < n -> forall j, j < n ->
       basename <$> images !! j =
         Some (output_base +:+ "_" +:+ format_02d j)) /\
    (forall j, j < 100 -> format_02d j = two_digits j) /\
    (forall j, 100 <= j ->
       format_02d j = str_of_nat j /\ 3 <= String.length (format_02d j)).
Proof.
  intros Hrun Hs n.
  unfold Figures.render_figures, bind at 1. rewrite Hrun.
  unfold Figures.collect_images, bind at 1, gets at 1.
  destruct (save_figures_names output_base output_dir fmts n (figs w1) 0 w1 Hs)
    as (w' & images & Hsave & Hnames).
  fold n. rewrite Hsave.
  exists w', images. split; [done|].
  assert (Hlen : length images = n).
  { rewrite <- (length_map basename), Hnames, length_map. apply length_seq. }
  split; [done|]. split; [|split; [|split]].
  - intros H1. rewrite Hnames. fold n. rewrite H1. reflexivity.
  - intros Hn j Hj.
    rewrite <- list_lookup_fmap.
    change (fmap basename images) with (map basename images).
    rewrite Hnames.
    change (map (image_name output_base n) (seq 0 n))
      with (image_name output_base n <$> seq 0 n).
    rewrite list_lookup_fmap, lookup_seq_lt by done.
    cbn. unfold image_name.
    destruct (Nat.eqb_spec n 1); [lia|done].
  - apply format_02d_two_digits.
  - apply format_02d_long.
Qed.

End WithBackend.

(** *** A concrete backend *)

Lemma render_figures_names_witness :
  exists w' images,
    render_example [1; 2; 3] Examples.w_init = (w', Ok images) /\
    length images = 3 /\
    basename <$> images !! 2 = Some "index-1_02".
Proof.
  destruct (render_figures_names true
              Examples.compiles (plotting [1; 2; 3]) exc_msg
              (fun _ => None) no_int (fun _ => "?") (fun _ path => path)
              (fun _ => "/docs") (fun dir name => dir +:+ "/" +:+ name)
              ∅ saves
              "plt.plot(x)" (VStr "/docs/index.rst") "/build" "index-1"
              png_only png_only true None false true None
              Examples.w_init
              (run_example [1; 2; 3] Examples.w_init).1
              [("png", 80%Z)])
    as (w' & images & Hr & Hlen & _ & Hn & _).
  - vm_compute. reflexivity.
  - intros figman fn dpi w. reflexivity.
  - exists w', images. split; [exact Hr|]. split; [exact Hlen|].
    apply (Hn ltac:(vm_compute; lia) 2 ltac:(vm_compute; lia)).
Defined.

(** C7, as stated, fails from the 101st figure on: its index is written
    with three digits. *)
Lemma render_figures_three_digit_index :
  exists w' images img,
    render_example (seq 0 101) Examples.w_init = (w', Ok images) /\
    length images = 101 /\
    images !! 100 = Some img /\
    basename img = "index-1_100" /\
    forall d1 d2,
      basename img <> "index-1" +:+ "_" +:+ String d1 (String d2 EmptyString).
Proof.
  eexists _, _, _. split; [vm_compute; reflexivity|].
  split; [reflexivity|]. split; [reflexivity|]. split; [reflexivity|].
  intros d1 d2. cbn. discriminate.
Qed.

End FiguresFacts.

(** ** Flag namespaces *)

Module FlagsFacts.
Import Runtime Flags.
Import Spec Examples.
Local Open Scope py_scope.

Lemma fresh_loc_None (h : Py.heap) : h !! Py.fresh_loc h = None.
Proof. apply not_elem_of_dom. unfold Py.fresh_loc. apply is_fresh. Qed.

Lemma fresh_loc_ne (h : Py.heap) l o : h !! l = Some o -> Py.fresh_loc h <> l.
Proof. intros Hl E. rewrite <- E, fresh_loc_None in Hl. discriminate. Qed.

(** [copy_object] on a live object: a new location holding the same
    object; nothing else in the world changes. *)
Lemma copy_object_live l o w :
  heap w !! l = Some o ->
  copy_object (VRef l) w =
    (set_heap (<[Py.fresh_loc (heap w) := o]> (heap w)) w,
     Ok (Py.fresh_loc (heap w))).
Proof. intros H. unfold copy_object. by rewrite H. Qed.

Lemma do_purge_doc_live docname cfg o w :
  nbplot_flags w = VRef cfg ->
  heap w !! cfg = Some o ->
  do_purge_doc docname w = (purged docname o w, Ok tt).
Proof.
  intros Hf Hc. unfold do_purge_doc.
  unfold bind at 1, modify at 1. unfold bind at 1, gets at 1.
  cbn [nbplot_flags set_reset_markers]. rewrite Hf.
  unfold bind at 1. rewrite (copy_object_live cfg o) by done.
  reflexivity.
Qed.

(** The namespace a document is bound to, once it is bound. *)
Lemma flag_namespace_known docname l w :
  nbplot_flag_namespaces w !! docname = Some l ->
  flag_namespace docname w = (w, Ok l).
Proof.
  intros H. unfold flag_namespace, bind at 1, gets at 1. by rewrite H.
Qed.

(** A document without an entry gets a new, empty dict: the [defaultdict]
    does not look at the configured flags. *)
Lemma flag_namespace_unknown docname w :
  nbplot_flag_namespaces w !! docname = None ->
  flag_namespace docname w =
    (set_flag_namespaces
       (<[docname := Py.fresh_loc (heap w)]> (nbplot_flag_namespaces w))
       (set_heap (<[Py.fresh_loc (heap w) := ODict ∅]> (heap w)) w),
     Ok (Py.fresh_loc (heap w))).
Proof.
  intros H. unfold flag_namespace, bind at 1, gets at 1. rewrite H.
  reflexivity.
Qed.

(** C8, as the code has it.  Once [do_purge_doc] has run for two documents
    (the configured flags being a dict), each document's namespace is a dict
    object of its own, distinct from the other's and from the configured
    mapping, with the bindings of the configured mapping; the first access
    finds it; and binding or deleting a name in one document's namespace
    changes neither the other document's namespace nor the configured
    mapping. *)
Theorem purged_namespaces_are_copies (w : world) (docA docB : string)
    (cfg : Py.loc) (d : gmap string val) :
  docA <> docB ->
  nbplot_flags w = VRef cfg ->
  heap w !! cfg = Some (ODict d) ->
  exists w2 la lb,
    (do_purge_doc docA ;; do_purge_doc docB) w = (w2, Ok tt) /\
    flag_namespace docA w2 = (w2, Ok la) /\
    flag_namespace docB w2 = (w2, Ok lb) /\
    la <> lb /\ la <> cfg /\ lb <> cfg /\
    Py.get_dict (heap w2) la = Some d /\
    Py.get_dict (heap w2) lb = Some d /\
    Py.get_dict (heap w2) cfg = Some d /\
    (forall key v,
       exists w3,
         dict_setitem la key v w2 = (w3, Ok tt) /\
         Py.get_dict (heap w3) la = Some (<[key := v]> d) /\
         Py.get_dict (heap w3) lb = Some d /\
         Py.get_dict (heap w3) cfg = Some d) /\
    (forall key,
       is_Some (d !! key) ->
       exists w3,
         dict_delitem la key w2 = (w3, Ok tt) /\
         Py.get_dict (heap w3) la = Some (delete key d) /\
         Py.get_dict (heap w3) lb = Some d /\
         Py.get_dict (heap w3) cfg = Some d).
Proof.
  intros Hne Hf Hc.
  set (la := Py.fresh_loc (heap w)).
  set (w1 := purged docA (ODict d) w).
  set (lb := Py.fresh_loc (heap w1)).
  set (w2 := purged docB (ODict d) w1).
  assert (Hla : la <> cfg) by (eapply fresh_loc_ne; eauto).
  assert (Hc1 : heap w1 !! cfg = Some (ODict d)).
  { subst w1. cbn. by rewrite lookup_insert_ne. }
  assert (Hla1 : heap w1 !! la = Some (ODict d)).
  { subst w1. cbn. by rewrite lookup_insert_eq. }
  assert (Hlb : lb <> cfg) by (eapply fresh_loc_ne; eauto).
  assert (Hab : la <> lb).
  { intros E. symmetry in E. revert E. eapply fresh_loc_ne; eauto. }
  assert (H2a : heap w2 !! la = Some (ODict d)).
  { subst w2. cbn. rewrite lookup_insert_ne by done. exact Hla1. }
  assert (H2b : heap w2 !! lb = Some (ODict d)).
  { subst w2. cbn. by rewrite lookup_insert_eq. }
  assert (H2c : heap w2 !! cfg = Some (ODict d)).
  { subst w2. cbn. rewrite lookup_insert_ne by done. exact Hc1. }
  assert (Hrun : (do_purge_doc docA ;; do_purge_doc docB) w = (w2, Ok tt)).
  { unfold bind. rewrite (do_purge_doc_live docA cfg (ODict d) w Hf Hc).
    fold w1. by rewrite (do_purge_doc_live docB cfg (ODict d) w1 Hf Hc1). }
  assert (Hna : flag_namespace docA w2 = (w2, Ok la)).
  { apply flag_namespace_known. subst w2 w1. cbn.
    rewrite lookup_insert_ne by done. by rewrite lookup_insert_eq. }
  assert (Hnb : flag_namespace docB w2 = (w2, Ok lb)).
  { apply flag_namespace_known. subst w2. cbn. by rewrite lookup_insert_eq. }
  clearbody w2 lb la.
  exists w2, la, lb.
  do 6 (split; [done|]).
  unfold Py.get_dict. rewrite H2a, H2b, H2c.
  do 3 (split; [done|]).
  split.
  - intros key v. eexists. unfold dict_setitem, Py.get_dict. rewrite H2a.
    split; [reflexivity|]. cbn.
    rewrite lookup_insert_eq, !lookup_insert_ne by done.
    by rewrite H2b, H2c.
  - intros key [x Hx]. eexists. unfold dict_delitem, Py.get_dict.
    rewrite H2a, Hx.
    split; [reflexivity|]. cbn.
    rewrite lookup_insert_eq, !lookup_insert_ne by done.
    by rewrite H2b, H2c.
Qed.

(** *** Concrete documents *)

Lemma purged_namespaces_are_copies_witness :
  exists w2 la lb,
    (do_purge_doc "intro" ;; do_purge_doc "usage") w_flags = (w2, Ok tt) /\
    la <> lb /\
    Py.get_dict (heap w2) la = Some (<["slow" := VBool true]> ∅) /\
    Py.get_dict (heap w2) lb = Some (<["slow" := VBool true]> ∅).
Proof.
  destruct (purged_namespaces_are_copies w_flags "intro" "usage" 1%positive
              (<["slow" := VBool true]> ∅))
    as (w2 & la & lb & Hrun & _ & _ & Hab & _ & _ & Ha & Hb & _).
  - discriminate.
  - reflexivity.
  - reflexivity.
  - exists w2, la, lb. split; [exact Hrun|]. split; [exact Hab|].
    split; [exact Ha|exact Hb].
Defined.

(** C8, as stated, fails.  The copy is shallow: a list held by the
    configured mapping is shared by every document's namespace, so
    [seen.append(1)] run by an [nbplot-flags] directive of one document
    shows in the other document's namespace and in the configured mapping.
    And a document that was not purged gets, on its first access, an empty
    namespace from the [defaultdict], not the configured flags. *)
Lemma shared_list_leaks_between_documents :
  (exists la lb,
     nbplot_flag_namespaces w_both_purged !! "intro" = Some la /\
     nbplot_flag_namespaces w_both_purged !! "usage" = Some lb /\
     la <> lb /\
     (NBPlotFlags_run exec_append_seen set_flags_directive w_both_purged).2
       = Ok [] /\
     read (heap w_both_purged) lb "seen"
       = Some (VRef 2%positive, Some (OList [])) /\
     read (heap w_after_flags) lb "seen"
       = Some (VRef 2%positive, Some (OList [VInt 1])) /\
     read (heap w_both_purged) 1%positive "seen"
       = Some (VRef 2%positive, Some (OList [])) /\
     read (heap w_after_flags) 1%positive "seen"
       = Some (VRef 2%positive, Some (OList [VInt 1]))) /\
  (exists w1 l,
     (do_builder_init ;; flag_namespace "intro") w_shared = (w1, Ok l) /\
     Py.get_dict (heap w1) l = Some ∅ /\
     Py.get_dict (heap w1) 1%positive = Some (<["seen" := VRef 2%positive]> ∅)).
Proof.
  split.
  - exists 3%positive, 4%positive.
    split; [reflexivity|]. split; [reflexivity|]. split; [discriminate|].
    split; [reflexivity|]. split; [reflexivity|]. split; [reflexivity|].
    split; reflexivity.
  - eexists _, _. split; [reflexivity|]. split; reflexivity.
Qed.

End FlagsFacts.

(** ** Part selection *)

Module SelectFacts.
Import Runtime Flags.
Import Spec Examples.
Local Open Scope py_scope.

Lemma is_sequence_items h v :
  is_sequence h v = true -> exists items, sequence_items h v = Some items.
Proof.
  destruct v; cbn; try done; eauto.
  destruct (h !! l) as [[]|]; by eauto.
Qed.

Lemma not_sequence_items h v :
  is_sequence h v = false -> sequence_items h v = None.
Proof.
  destruct v; cbn; try done.
  by destruct (h !! l) as [[]|].
Qed.

(** Indexing the parts with anything but integers raises. *)
Lemma select_raises (parts : list Parts.part) (items : list val) :
  forallb is_int items = false ->
  exists e, select parts items = Raise e.
Proof.
  induction items as [|i items IH]; [done|].
  cbn [forallb select]. intros H.
  unfold list_getitem at 1. unfold is_int at 1 in H.
  destruct (as_index i) as [z|]; [|by eauto].
  cbn [andb] in H. destruct (IH H) as [e He].
  match goal with
  | |- context [Exc.rbind ?r _] => destruct r as [p|e']
  end; [|by eauto].
  cbn [Exc.rbind]. destruct (part_contents p) as [c|e']; [|by eauto].
  cbn [Exc.rbind]. rewrite He. by eauto.
Qed.

Section WithInterpreter.

Variable py_eval : string -> Py.loc -> world -> world * result val.

Local Abbreviation _get_parts := (Flags._get_parts py_eval).
Local Abbreviation selected := (Flags.selected py_eval).
Local Abbreviation _select_parts := (Flags._select_parts py_eval).

Lemma get_parts_evaluates self option_name expr w w1 ns w2 c w3 v :
  options self !! option_name = Some (VStr expr) ->
  flag_namespace (docname self) w = (w1, Ok ns) ->
  copy_object (VRef ns) w1 = (w2, Ok c) ->
  py_eval expr c w2 = (w3, Ok v) ->
  _get_parts self option_name w =
    (w3, Ok (if is_sequence (heap w3) v then v else VTuple [v])).
Proof.
  intros Ho Hn Hc He. unfold Flags._get_parts. rewrite Ho.
  unfold bind at 1. rewrite Hn.
  unfold bind at 1. rewrite Hc.
  unfold bind at 1. unfold eval_option. rewrite He.
  reflexivity.
Qed.

Lemma selected_raises self parts option_name expr w w1 ns w2 c w3 v :
  options self !! option_name = Some (VStr expr) ->
  flag_namespace (docname self) w = (w1, Ok ns) ->
  copy_object (VRef ns) w1 = (w2, Ok c) ->
  py_eval expr c w2 = (w3, Ok v) ->
  valid_indices (heap w3) v = false ->
  exists e, selected self parts option_name w = (w3, Raise e).
Proof.
  intros Ho Hn Hc He Hv. unfold Flags.selected.
  unfold bind at 1.
  rewrite (get_parts_evaluates _ _ _ _ _ _ _ _ _ _ Ho Hn Hc He).
  unfold bind at 1, gets at 1.
  apply orb_false_elim in Hv as [Hint Hseq].
  destruct (is_sequence (heap w3) v) eqn:Hs.
  - destruct (is_sequence_items _ _ Hs) as [items Hi].
    unfold is_int_sequence in Hseq. rewrite Hi in *.
    destruct (select_raises parts items Hseq) as [e ->].
    by exists e.
  - cbn [sequence_items]. unfold lift. cbn [select].
    unfold list_getitem. unfold is_int in Hint.
    destruct (as_index v); [done|]. by eauto.
Qed.

Lemma copy_is_fresh ns w1 w2 c :
  copy_object (VRef ns) w1 = (w2, Ok c) ->
  heap w1 !! c = None /\ c <> ns /\
  heap w2 !! c = heap w1 !! ns /\ heap w2 !! ns = heap w1 !! ns /\
  is_Some (heap w1 !! ns).
Proof.
  unfold copy_object. destruct (heap w1 !! ns) as [o|] eqn:Ho; [|done].
  intros [= <- <-]. cbn.
  pose proof (FlagsFacts.fresh_loc_None (heap w1)) as Hf.
  pose proof (FlagsFacts.fresh_loc_ne (heap w1) ns o Ho) as Hne.
  rewrite lookup_insert_eq, lookup_insert_ne by done.
  by eauto.
Qed.

(** C6, as the code has it.  A [render-parts] or [run-parts] expression is
    evaluated with a new dict as its namespace, a copy of the document's
    flag namespace, which itself stays as it is.  No type is checked; when
    the value is neither an integer nor a Sequence whose members are all
    integers (an empty Sequence, the empty string included, has no member
    to object to), selecting the parts raises, whatever the parts are,
    and so does
    [_select_parts]: at once for [render-parts], and for [run-parts]
    whenever the selection for [render-parts] gets as far as evaluating
    it. *)
Theorem selection_rejects_non_integers self option_name expr
    w w1 ns w2 c w3 v :
  options self !! option_name = Some (VStr expr) ->
  flag_namespace (docname self) w = (w1, Ok ns) ->
  copy_object (VRef ns) w1 = (w2, Ok c) ->
  py_eval expr c w2 = (w3, Ok v) ->
  (heap w1 !! c = None /\ c <> ns /\
   heap w2 !! c = heap w1 !! ns /\ heap w2 !! ns = heap w1 !! ns) /\
  (valid_indices (heap w3) v = false ->
   (forall parts, exists e,
      selected self parts option_name w = (w3, Raise e)) /\
   (option_name = "render-parts" ->
    exists w' e, _select_parts self w = (w', Raise e)) /\
   (option_name = "run-parts" ->
    forall w0,
      (forall parts, exists r,
         selected self parts "render-parts" w0 = (w, r)) ->
      exists w' e, _select_parts self w0 = (w', Raise e))).
Proof.
  intros Ho Hn Hc He. split.
  { destruct (copy_is_fresh _ _ _ _ Hc) as (H1 & H2 & H3 & H4 & _). done. }
  intros Hv.
  assert (Hsel : forall parts, exists e,
             selected self parts option_name w = (w3, Raise e))
    by (intros parts; eapply selected_raises; eauto).
  split; [exact Hsel|]. split.
  - intros ->. unfold Flags._select_parts.
    unfold bind at 1, lift at 1.
    destruct (Parts.parse_parts (content self)) as [parts|e]; [|by eauto].
    unfold bind at 1. destruct (Hsel parts) as [e ->]. by eauto.
  - intros -> w0 Hrender. unfold Flags._select_parts.
    unfold bind at 1, lift at 1.
    destruct (Parts.parse_parts (content self)) as [parts|e]; [|by eauto].
    unfold bind at 1. destruct (Hrender parts) as [[to_render|e] ->];
      [|by eauto].
    unfold bind at 1. destruct (Hsel parts) as [e ->]. by eauto.
Qed.

End WithInterpreter.

Lemma selection_rejects_non_integers_witness :
  exists w' e,
    Flags._select_parts eval_float float_directive Examples.w_init
      = (w', Raise e).
Proof.
  destruct (selection_rejects_non_integers eval_float float_directive
              "render-parts" "1.5" Examples.w_init
              _ _ _ _ _ _ eq_refl eq_refl eq_refl eq_refl) as [_ H].
  destruct (H eq_refl) as (_ & Hr & _).
  exact (Hr eq_refl).
Defined.

(** C6, as stated, fails for the empty string: it is a [str], neither an
    integer nor a sequence of integers, yet it is a Sequence with nothing
    to iterate over, so the selection succeeds and renders no part. *)
Lemma empty_string_selects_nothing :
  is_int (VStr EmptyString) = false /\
  (Flags._select_parts eval_empty_str empty_str_directive
     Examples.w_init).2 = Ok (EmptyString, "x = 1").
Proof. split; reflexivity. Qed.

End SelectFacts.

(** ** From the directive's options to what each builder sees *)

Module OptionsToNodes.
Import Visibility Spec SpecMore ExamplesMore.

Lemma add_builders_words options opt_name (node_attrs : attrs) old :
  absent_or_str (options !! opt_name) ->
  node_attrs !! opt_name = Some old ->
  add_builders options opt_name node_attrs =
    Ok (<[opt_name := old ++ option_words (options !! opt_name)]> node_attrs).
Proof.
  intros Ho Hold. unfold add_builders, option_words, get.
  destruct (options !! opt_name) as [[]|]; try done.
  - by rewrite Hold.
  - by rewrite app_nil_r, insert_id.
Qed.

(** The node attributes for any string-valued (or absent) [hide-from] and
    [show-to] options. *)
Lemma proc_builder_opts_words h options cfg :
  absent_or_str (options !! "hide-from") ->
  absent_or_str (options !! "show-to") ->
  let inc := effective_include_source h options cfg in
  (_proc_builder_opts h options cfg).2 =
    Ok (<["show-to" := base_show_to inc ++ option_words (options !! "show-to")]>
          (<["hide-from" :=
               base_hide_from inc ++ option_words (options !! "hide-from")]>
             (<["show-to" := base_show_to inc]> ∅))).
Proof.
  intros Hh Hs inc. unfold _proc_builder_opts. cbn [snd].
  rewrite ProcOptsFacts.setdefault_lookup.
  fold (effective_include_source h options cfg). fold inc.
  set (opts := setdefault "include-source" cfg options).
  assert (Eh : opts !! "hide-from" = options !! "hide-from")
    by (subst opts; by rewrite ProcOptsFacts.setdefault_lookup_ne).
  assert (Es : opts !! "show-to" = options !! "show-to")
    by (subst opts; by rewrite ProcOptsFacts.setdefault_lookup_ne).
  rewrite <- Eh in Hh. rewrite <- Es in Hs.
  assert (Hbase : (if inc
                   then <["hide-from" := []]> (<["show-to" := []]> (∅ : attrs))
                   else <["hide-from" := ["all"]]>
                          (<["show-to" := ["doctest"]]> ∅)) =
                  <["hide-from" := base_hide_from inc]>
                    (<["show-to" := base_show_to inc]> ∅))
    by (by destruct inc).
  rewrite Hbase.
  rewrite (add_builders_words opts "hide-from" _ (base_hide_from inc) Hh)
    by (by rewrite lookup_insert_eq).
  cbn [Exc.rbind]. rewrite insert_insert_eq.
  rewrite (add_builders_words opts "show-to" _ (base_show_to inc) Hs)
    by (rewrite lookup_insert_ne by done; by rewrite lookup_insert_eq).
  by rewrite Eh, Es.
Qed.

Lemma likes_builder_of_lists (show_to hide_from : list string) (a : attrs) b :
  a !! "show-to" = Some show_to ->
  a !! "hide-from" = Some hide_from ->
  likes_builder (node_of_attrs a) b =
    Str.mem b show_to || negb (Str.mem "all" hide_from || Str.mem b hide_from).
Proof.
  intros Hs Hh. rewrite VisibilityFacts.likes_builder_node_of_attrs.
  unfold nbplot_container.likes_builder, get. rewrite Hs, Hh.
  destruct (Str.mem b show_to); [done|].
  by destruct (Str.mem "all" hide_from).
Qed.

Lemma elem_of_one (b x : string) : bool_decide (b ∈ [x]) = bool_decide (b = x).
Proof.
  apply bool_decide_ext. rewrite list_elem_of_singleton. done.
Qed.

Lemma hidden_source_attrs h options cfg :
  absent_or_str (options !! "hide-from") ->
  options !! "show-to" = None ->
  effective_include_source h options cfg = false ->
  exists node_attrs,
    (_proc_builder_opts h options cfg).2 = Ok node_attrs /\
    forall b, likes_builder (node_of_attrs node_attrs) b
              = bool_decide (b = "doctest").
Proof.
  intros Hh Hs Hinc.
  pose proof (proc_builder_opts_words h options cfg Hh) as H.
  rewrite Hs in H. specialize (H I). cbn zeta in H. rewrite Hinc in H.
  eexists. split; [exact H|]. intros b.
  erewrite likes_builder_of_lists;
    [|by rewrite lookup_insert_eq
     |rewrite lookup_insert_ne by done; by rewrite lookup_insert_eq].
  cbn [base_show_to base_hide_from option_words app].
  unfold Str.mem.
  rewrite (bool_decide_eq_true_2 ("all" ∈ "all" :: _)) by (by left).
  cbn [orb negb]. rewrite orb_false_r. apply elem_of_one.
Qed.

(** X1.  With source inclusion off and no [show-to] option, the node that
    carries the rendered source is accepted by the [doctest] builder and by
    no other builder, whatever the [hide-from] option says. *)
Theorem hidden_source_only_for_doctest h options cfg :
  absent_or_str (options !! "hide-from") ->
  options !! "show-to" = None ->
  effective_include_source h options cfg = false ->
  exists node_attrs,
    (_proc_builder_opts h options cfg).2 = Ok node_attrs /\
    forall b, likes_builder (node_of_attrs node_attrs) b
              = bool_decide (b = "doctest").
Proof. apply hidden_source_attrs. Qed.

Lemma hidden_source_only_for_doctest_witness :
  exists node_attrs,
    (_proc_builder_opts ∅ hidden_options (VBool true)).2 = Ok node_attrs /\
    forall b, likes_builder (node_of_attrs node_attrs) b
              = bool_decide (b = "doctest").
Proof.
  apply (hidden_source_only_for_doctest ∅ hidden_options (VBool true)).
  - exact I.
  - reflexivity.
  - reflexivity.
Defined.

(** X2.  With source inclusion on and no [show-to] option, a builder is
    refused exactly when the [hide-from] option lists it or lists [all]. *)
Theorem shown_source_hidden_from_listed h options cfg :
  absent_or_str (options !! "hide-from") ->
  options !! "show-to" = None ->
  effective_include_source h options cfg = true ->
  exists node_attrs,
    (_proc_builder_opts h options cfg).2 = Ok node_attrs /\
    forall b,
      likes_builder (node_of_attrs node_attrs) b =
        negb (bool_decide ("all" ∈ option_words (options !! "hide-from")) ||
              bool_decide (b ∈ option_words (options !! "hide-from"))).
Proof.
  intros Hh Hs Hinc.
  pose proof (proc_builder_opts_words h options cfg Hh) as H.
  rewrite Hs in H. specialize (H I). cbn zeta in H. rewrite Hinc in H.
  eexists. split; [exact H|]. intros b.
  erewrite likes_builder_of_lists;
    [|by rewrite lookup_insert_eq
     |rewrite lookup_insert_ne by done; by rewrite lookup_insert_eq].
  reflexivity.
Qed.

Lemma shown_source_hidden_from_listed_witness :
  exists node_attrs,
    (_proc_builder_opts ∅ hide_two_options (VBool true)).2 = Ok node_attrs /\
    forall b,
      likes_builder (node_of_attrs node_attrs) b =
        negb (bool_decide
                ("all" ∈ option_words (hide_two_options !! "hide-from")) ||
              bool_decide
                (b ∈ option_words (hide_two_options !! "hide-from"))).
Proof.
  apply (shown_source_hidden_from_listed ∅ hide_two_options (VBool true)).
  - exact I.
  - reflexivity.
  - reflexivity.
Defined.

(** X3.  A builder named in the [show-to] option is accepted whatever the
    [include-source] and [hide-from] options are. *)
Theorem show_to_option_wins h options cfg b :
  absent_or_str (options !! "hide-from") ->
  absent_or_str (options !! "show-to") ->
  b ∈ option_words (options !! "show-to") ->
  exists node_attrs,
    (_proc_builder_opts h options cfg).2 = Ok node_attrs /\
    likes_builder (node_of_attrs node_attrs) b = true.
Proof.
  intros Hh Hs Hb.
  pose proof (proc_builder_opts_words h options cfg Hh Hs) as H.
  cbn zeta in H. eexists. split; [exact H|].
  erewrite likes_builder_of_lists;
    [|by rewrite lookup_insert_eq
     |rewrite lookup_insert_ne by done; by rewrite lookup_insert_eq].
  apply orb_true_intro. left. apply VisibilityFacts.mem_true.
  apply elem_of_app. by right.
Qed.

Lemma show_to_option_wins_witness :
  exists node_attrs,
    (_proc_builder_opts ∅ show_html_options (VBool true)).2 = Ok node_attrs /\
    likes_builder (node_of_attrs node_attrs) "html" = true.
Proof.
  apply (show_to_option_wins ∅ show_html_options (VBool true) "html").
  - exact I.
  - exact I.
  - vm_compute. constructor.
Defined.

(** X4.  With source inclusion off and no [show-to] option, the visitor of
    each builder that visits nodes (html, latex, text, texinfo) skips the
    node with the rendered source, while a node of a class without
    [likes_builder], such as the epilogue with the figures, is skipped by no
    builder. *)
Theorem hidden_source_is_skipped h options cfg :
  absent_or_str (options !! "hide-from") ->
  options !! "show-to" = None ->
  effective_include_source h options cfg = false ->
  exists node_attrs,
    (_proc_builder_opts h options cfg).2 = Ok node_attrs /\
    Forall (fun b => Visiting.checked_visit b (node_of_attrs node_attrs)
                     = Raise (Exc.mk Visiting.SkipNode "skip"))
           Visiting.visiting_builders /\
    forall b, Visiting.checked_visit b PlainNode = Ok tt.
Proof.
  intros Hh Hs Hinc.
  destruct (hidden_source_attrs h options cfg Hh Hs Hinc)
    as (node_attrs & Hr & Hl).
  exists node_attrs. split; [exact Hr|]. split; [|done].
  unfold Visiting.visiting_builders, Visiting.checked_visit.
  repeat constructor; by rewrite Hl.
Qed.

Lemma hidden_source_is_skipped_witness :
  exists node_attrs,
    (_proc_builder_opts ∅ hidden_options (VBool true)).2 = Ok node_attrs /\
    Forall (fun b => Visiting.checked_visit b (node_of_attrs node_attrs)
                     = Raise (Exc.mk Visiting.SkipNode "skip"))
           Visiting.visiting_builders /\
    forall b, Visiting.checked_visit b PlainNode = Ok tt.
Proof.
  apply (hidden_source_is_skipped ∅ hidden_options (VBool true)).
  - exact I.
  - reflexivity.
  - reflexivity.
Defined.

End OptionsToNodes.

(** ** More on [_hide_from_builder] *)

Module HideMore.
Import Visibility Spec SpecMore ExamplesMore.

Lemma mem_remove_first_ne b name l :
  b <> name -> Str.mem b (Str.remove_first name l) = Str.mem b l.
Proof.
  intros Hne. unfold Str.mem. apply bool_decide_ext.
  induction l as [|y l IH]; [done|]. cbn [Str.remove_first].
  case_bool_decide as Hy.
  - subst y. rewrite elem_of_cons. tauto.
  - rewrite !elem_of_cons. tauto.
Qed.

Lemma mem_app_singleton_ne b name l :
  b <> name -> Str.mem b (l ++ [name]) = Str.mem b l.
Proof.
  intros Hne. unfold Str.mem. apply bool_decide_ext.
  rewrite elem_of_app, list_elem_of_singleton. tauto.
Qed.

(** X5.  Hiding a node from one builder leaves its answer to every other
    builder as it was (the builder hidden from not being the [all]
    sentinel). *)
Theorem hide_from_builder_spares_others (a : attrs) (name b : string)
    (show_to hide_from : list string) :
  a !! "show-to" = Some show_to ->
  a !! "hide-from" = Some hide_from ->
  name <> "all" -> b <> name ->
  likes_builder (node_of_attrs (_hide_from_builder a name).1) b =
    likes_builder (node_of_attrs a) b.
Proof.
  intros Hs Hh Hall Hb.
  rewrite (OptionsToNodes.likes_builder_of_lists show_to hide_from a b Hs Hh).
  unfold _hide_from_builder. rewrite Hs.
  set (a1 := if Str.mem name show_to
             then <["show-to" := Str.remove_first name show_to]> a else a).
  assert (Hs1 : exists s1, a1 !! "show-to" = Some s1 /\
                           Str.mem b s1 = Str.mem b show_to).
  { subst a1. destruct (Str.mem name show_to).
    - eexists. rewrite lookup_insert_eq. split; [done|].
      by apply mem_remove_first_ne.
    - by eauto. }
  assert (Hh1 : a1 !! "hide-from" = Some hide_from).
  { subst a1. destruct (Str.mem name show_to); [|done].
    by rewrite lookup_insert_ne. }
  destruct Hs1 as (s1 & Hs1 & Hm1). rewrite Hh1. clearbody a1.
  destruct (Str.mem name hide_from); cbn [negb fst].
  - rewrite (OptionsToNodes.likes_builder_of_lists s1 hide_from a1 b Hs1 Hh1).
    by rewrite Hm1.
  - erewrite (OptionsToNodes.likes_builder_of_lists s1 (hide_from ++ [name]));
      [|by rewrite lookup_insert_ne|by rewrite lookup_insert_eq].
    rewrite Hm1, !mem_app_singleton_ne by done. done.
Qed.

Lemma hide_from_builder_spares_others_witness :
  likes_builder (node_of_attrs (_hide_from_builder plain_attrs "doctest").1)
    "html" = likes_builder (node_of_attrs plain_attrs) "html".
Proof.
  apply (hide_from_builder_spares_others plain_attrs "doctest" "html"
           ["html"; "doctest"] ["latex"]).
  - reflexivity.
  - reflexivity.
  - discriminate.
  - discriminate.
Defined.

(** X6.  A dict without a [show-to] entry makes the call raise [KeyError]
    and is left as it was; a dict with [show-to] but without [hide-from]
    makes it raise [KeyError] too, after the first occurrence of the name
    has already gone from [show-to]. *)
Theorem hide_from_builder_missing_key (a : attrs) (name : string) :
  (a !! "show-to" = None ->
   _hide_from_builder a name = (a, Raise (Exc.mk KeyError "show-to"))) /\
  (forall show_to,
     a !! "show-to" = Some show_to -> a !! "hide-from" = None ->
     exists a',
       _hide_from_builder a name = (a', Raise (Exc.mk KeyError "hide-from")) /\
       a' !! "show-to" =
         Some (if Str.mem name show_to
               then Str.remove_first name show_to else show_to)).
Proof.
  split.
  - intros H. unfold _hide_from_builder. by rewrite H.
  - intros show_to Hs Hh. unfold _hide_from_builder. rewrite Hs.
    destruct (Str.mem name show_to).
    + rewrite lookup_insert_ne by done. rewrite Hh.
      eexists. split; [done|]. by rewrite lookup_insert_eq.
    + rewrite Hh. by eauto.
Qed.

End HideMore.

(** ** More on doctest handling *)

Module DoctestMore.
Import Str Doctest Spec SpecMore ExamplesMore.

Lemma all_chars_app f s t :
  all_chars f (s +:+ t) = all_chars f s && all_chars f t.
Proof.
  induction s as [|a s IH]; [done|].
  rewrite StrFacts.append_cons. cbn [all_chars]. rewrite IH.
  by rewrite andb_assoc.
Qed.

Lemma all_chars_span f g s :
  all_chars f s = true ->
  all_chars f (span g s).1 = true /\ all_chars f (span g s).2 = true.
Proof.
  induction s as [|a s IH]; [done|]. cbn [all_chars span].
  intros [Ha Hs]%andb_prop. destruct (g a).
  - destruct (span g s) as [p r]. cbn in *. rewrite Ha.
    destruct (IH Hs). done.
  - cbn. by rewrite Ha, Hs.
Qed.

Lemma all_chars_drop_prefix f p s r :
  all_chars f s = true -> drop_prefix p s = Some r -> all_chars f r = true.
Proof.
  revert s. induction p as [|a p IH]; intros s Hs; cbn [drop_prefix].
  - by intros [= <-].
  - destruct s as [|b s]; [done|]. cbn [all_chars] in Hs.
    apply andb_prop in Hs as [_ Hs].
    destruct (ascii_eqb a b); [|done]. by apply IH.
Qed.

Lemma all_chars_lstrip f s : all_chars f s = true -> all_chars f (lstrip s) = true.
Proof.
  induction s as [|a s IH]; [done|]. cbn [all_chars lstrip].
  intros [Ha Hs]%andb_prop. destruct (is_space a); [by apply IH|].
  cbn [all_chars]. by rewrite Ha, Hs.
Qed.

Lemma all_chars_rstrip f s : all_chars f s = true -> all_chars f (rstrip s) = true.
Proof.
  induction s as [|a s IH]; [done|]. cbn [all_chars rstrip].
  intros [Ha Hs]%andb_prop. specialize (IH Hs).
  destruct (rstrip s) as [|b r].
  - destruct (is_space a); [done|]. cbn. by rewrite Ha.
  - cbn [all_chars] in *. by rewrite Ha, IH.
Qed.

Lemma all_chars_strip f s : all_chars f s = true -> all_chars f (strip s) = true.
Proof. intros H. unfold strip. by apply all_chars_rstrip, all_chars_lstrip. Qed.

(** The pieces that [split("\n")] gives hold no LF. *)
Lemma split_on_LF_free s :
  Forall (fun l => all_chars not_LF l = true) (split_on LF s).
Proof.
  induction s as [|a s IH]; [by repeat constructor|].
  cbn [split_on]. destruct (ascii_eqb a LF) eqn:Ha.
  - by constructor.
  - destruct (split_on LF s) as [|w ws]; [by repeat constructor; cbn;
      unfold not_LF; rewrite Ha|].
    inversion IH as [|? ? Hw Hws]; subst. constructor; [|done].
    cbn [all_chars]. unfold not_LF at 1. by rewrite Ha, Hw.
Qed.

(** A piece without LF, then LF, then more text. *)
Lemma split_on_line_app b rest :
  all_chars not_LF b = true ->
  split_on LF (b +:+ Parts.NL +:+ rest) = b :: split_on LF rest.
Proof.
  induction b as [|a b IH]; cbn [all_chars].
  - intros _. reflexivity.
  - intros [Ha Hb]%andb_prop. rewrite StrFacts.append_cons.
    cbn [split_on]. unfold not_LF in Ha. apply negb_true_iff in Ha.
    rewrite Ha. by rewrite IH.
Qed.

Lemma split_on_single l :
  all_chars not_LF l = true -> split_on LF l = [l].
Proof.
  induction l as [|a l IH]; [done|]. cbn [all_chars].
  intros [Ha Hl]%andb_prop. cbn [split_on].
  unfold not_LF in Ha. apply negb_true_iff in Ha. rewrite Ha.
  by rewrite (IH Hl).
Qed.

Lemma split_on_join (ls : list string) :
  ls <> [] -> Forall (fun l => all_chars not_LF l = true) ls ->
  split_on LF (join Parts.NL ls) = ls.
Proof.
  induction ls as [|l ls IH]; [done|]. intros _ Hall.
  inversion Hall as [|? ? Hl Hls]; subst. cbn [join].
  destruct ls as [|m ls].
  - by apply split_on_single.
  - rewrite split_on_line_app by done. f_equal. by apply IH.
Qed.

Lemma unescape_line_code line :
  unescape_line line = line_code line +:+ Parts.NL.
Proof.
  unfold unescape_line, line_code.
  destruct (match_prompt_line line); [done|].
  destruct (negb _); [|done]. by rewrite !StrFacts.append_assoc.
Qed.

Lemma line_code_LF_free line :
  all_chars not_LF line = true -> all_chars not_LF (line_code line) = true.
Proof.
  intros Hl. unfold line_code, match_prompt_line, drop_while.
  destruct (all_chars_span not_LF is_space line Hl) as [_ Hr].
  destruct (drop_prefix ">>> " _) as [g|] eqn:H1.
  { by eapply all_chars_drop_prefix. }
  destruct (drop_prefix "... " _) as [g|] eqn:H2.
  { by eapply all_chars_drop_prefix. }
  destruct (negb _); [|done].
  rewrite all_chars_app. by rewrite all_chars_strip.
Qed.

Lemma translate_flat_go lines : forall acc,
  fold_left (fun code line => code +:+ unescape_line line) lines acc
    = acc +:+ flat lines.
Proof.
  induction lines as [|l ls IH]; intros acc; cbn [fold_left flat].
  - by rewrite StrFacts.append_nil_r.
  - by rewrite IH, StrFacts.append_assoc.
Qed.

Lemma translate_flat text : translate text = flat (split_on LF text).
Proof. unfold translate. by rewrite translate_flat_go. Qed.

Lemma split_flat lines :
  Forall (fun l => all_chars not_LF l = true) lines ->
  split_on LF (flat lines) = map line_code lines ++ [EmptyString].
Proof.
  induction 1 as [|l ls Hl _ IH]; [done|].
  cbn [flat map app]. rewrite unescape_line_code, StrFacts.append_assoc.
  rewrite split_on_line_app by (by apply line_code_LF_free).
  by rewrite IH.
Qed.

(** X7.  The translation of a transcript keeps the lines in place: line
    [k] of the code comes from line [k] of the text (the code after its
    prompt, a comment for other text, nothing for a blank line), and the
    code ends with a LF. *)
Theorem translate_keeps_lines (text : string) :
  split_on LF (translate text)
    = map line_code (split_on LF text) ++ [EmptyString].
Proof.
  rewrite translate_flat. apply split_flat, split_on_LF_free.
Qed.

Lemma flat_prompt_lines codes :
  flat (map prompt_line codes)
    = match codes with
      | [] => EmptyString
      | _ :: _ => join Parts.NL codes +:+ Parts.NL
      end.
Proof.
  induction codes as [|c cs IH]; [done|].
  cbn [map flat]. rewrite IH.
  assert (Hc : unescape_line (prompt_line c) = c +:+ Parts.NL) by reflexivity.
  rewrite Hc. cbn [join]. destruct cs as [|d cs].
  - by rewrite StrFacts.append_nil_r.
  - by rewrite !StrFacts.append_assoc.
Qed.

Lemma all_chars_prompt_line c :
  all_chars not_LF c = true -> all_chars not_LF (prompt_line c) = true.
Proof. intros H. unfold prompt_line. by rewrite all_chars_app, H. Qed.

(** X8.  A transcript made of prompt lines only, which does not compile
    as it stands, is turned into the code of its lines, each followed by a
    LF. *)
Theorem unescape_prompt_lines (py_compile : string -> result unit)
    (codes : list string) (e : exc) :
  codes <> [] ->
  Forall (fun c => all_chars not_LF c = true) codes ->
  py_compile (join Parts.NL (map prompt_line codes)) = Raise e ->
  Exc.isinstance e SyntaxError = true ->
  unescape_doctest py_compile (join Parts.NL (map prompt_line codes))
    = Ok (join Parts.NL codes +:+ Parts.NL).
Proof.
  intros Hne Hall Hc He.
  assert (Hlines : split_on LF (join Parts.NL (map prompt_line codes))
                   = map prompt_line codes).
  { apply split_on_join; [by destruct codes|].
    apply Forall_map. eapply Forall_impl; [exact Hall|].
    intros c. apply all_chars_prompt_line. }
  assert (Hfound : search_prompt true (join Parts.NL (map prompt_line codes))
                   = true).
  { apply DoctestFacts.search_prompt_spec.
    destruct codes as [|c cs]; [done|].
    exists (prompt_line c). split.
    - rewrite Hlines. by left.
    - exists EmptyString, (" " +:+ c). by split. }
  unfold unescape_doctest, contains_doctest. rewrite Hc, He, Hfound.
  cbn [Exc.rbind negb]. rewrite translate_flat, Hlines, flat_prompt_lines.
  by destruct codes.
Qed.

Lemma unescape_prompt_lines_witness :
  unescape_doctest rejects
    (join Parts.NL (map prompt_line ["a = 1"; "a + 1"]))
    = Ok (join Parts.NL ["a = 1"; "a + 1"] +:+ Parts.NL).
Proof.
  apply (unescape_prompt_lines rejects ["a = 1"; "a + 1"]
           (Exc.mk SyntaxError "invalid syntax")).
  - discriminate.
  - repeat constructor.
  - reflexivity.
  - reflexivity.
Defined.

Lemma contains_app p a r : contains p (a +:+ p +:+ r) = true.
Proof.
  induction a as [|c a IH].
  - rewrite StrFacts.append_nil_l.
    destruct (p +:+ r) eqn:E; cbn [contains];
      rewrite <- E, DoctestFacts.prefix_app; done.
  - rewrite StrFacts.append_cons. cbn [contains]. rewrite IH.
    apply orb_true_r.
Qed.

Lemma search_prompt_contains s : forall b,
  search_prompt b s = true -> contains ">>>" s = true.
Proof.
  induction s as [|a s IH]; intros b; cbn [search_prompt].
  - rewrite orb_false_r. by intros [_ H]%andb_prop.
  - intros [[_ H]%andb_prop|H]%orb_prop.
    + apply DoctestFacts.match_prompt_spec in H as (ws & rest & _ & ->).
      apply contains_app.
    + cbn [contains]. rewrite (IH _ H). apply orb_true_r.
Qed.

(** X9.  A text in which [>>>] does not occur is never taken for a
    transcript: also when it does not compile, it is returned as it is. *)
Theorem unescape_without_prompt (py_compile : string -> result unit)
    (text : string) (e : exc) :
  contains ">>>" text = false ->
  py_compile text = Raise e ->
  Exc.isinstance e SyntaxError = true ->
  unescape_doctest py_compile text = Ok text.
Proof.
  intros Hno Hc He. unfold unescape_doctest, contains_doctest.
  rewrite Hc, He.
  destruct (search_prompt true text) eqn:Hs; [|done].
  apply search_prompt_contains in Hs. congruence.
Qed.

Lemma unescape_without_prompt_witness :
  unescape_doctest rejects "x = = 1" = Ok "x = = 1".
Proof.
  apply (unescape_without_prompt rejects "x = = 1"
           (Exc.mk SyntaxError "invalid syntax")); reflexivity.
Defined.

End DoctestMore.

(** ** [remove_coding] *)

Module CodingFacts.
Import Str Doctest Spec SpecMore ExamplesMore.

Lemma match_coding_not_hash a s :
  ascii_eqb a "#"%char = false -> match_coding (String a s) = None.
Proof. intros H. cbn [match_coding]. by rewrite H. Qed.

Lemma remove_coding_no_hash s : forall b,
  (b = true -> startswith "#" (first_line s) = false) ->
  Forall (fun l => startswith "#" l = false) (tl (split_on LF s)) ->
  remove_coding_go 0 b s = s.
Proof.
  induction s as [|a s IH]; intros b Hb Hrest; [done|].
  cbn [remove_coding_go].
  assert (Hm : (if b then match_coding (String a s) else None) = None).
  { destruct b; [|done]. apply match_coding_not_hash.
    specialize (Hb eq_refl). unfold first_line in Hb. cbn [split_on] in Hb.
    destruct (ascii_eqb a LF) eqn:Ha.
    - apply bool_decide_eq_true in Ha. by subst a.
    - destruct (DoctestFacts.split_on_cons LF s) as (w & ws & Hw).
      rewrite Hw in Hb. cbn [hd] in Hb. unfold startswith in Hb.
      rewrite (DoctestFacts.prefix_cons "#" EmptyString) in Hb.
      unfold ascii_eqb. apply bool_decide_eq_false. intros ->.
      destruct (ascii_dec "#" "#"); [|done]. by destruct w. }
  rewrite Hm. f_equal. cbn [split_on] in Hrest.
  destruct (ascii_eqb a LF) eqn:Ha.
  - cbn [tl] in Hrest. apply IH.
    + intros _. unfold first_line.
      destruct (DoctestFacts.split_on_cons LF s) as (w & ws & Hw).
      rewrite Hw in *. by inversion Hrest.
    + destruct (DoctestFacts.split_on_cons LF s) as (w & ws & Hw).
      rewrite Hw in *. by inversion Hrest.
  - destruct (DoctestFacts.split_on_cons LF s) as (w & ws & Hw).
    rewrite Hw in *. cbn [tl] in *. by apply IH.
Qed.

(** X10.  A text none of whose lines starts with [#] is left as it is. *)
Theorem remove_coding_without_comment (text : string) :
  Forall (fun l => startswith "#" l = false) (split_on LF text) ->
  remove_coding text = text.
Proof.
  intros H. unfold remove_coding.
  destruct (DoctestFacts.split_on_cons LF text) as (w & ws & Hw).
  rewrite Hw in H. inversion H as [|? ? H1 H2]; subst.
  apply remove_coding_no_hash.
  - intros _. unfold first_line. by rewrite Hw.
  - by rewrite Hw.
Qed.

Lemma remove_coding_without_comment_witness :
  remove_coding "import os  # -*- coding: x -*-" =
    "import os  # -*- coding: x -*-".
Proof.
  apply (remove_coding_without_comment "import os  # -*- coding: x -*-").
  repeat constructor.
Defined.

Lemma length_app s t :
  String.length (s +:+ t) = (String.length s + String.length t)%nat.
Proof.
  induction s as [|a s IH]; [done|].
  rewrite StrFacts.append_cons. cbn [String.length]. by rewrite IH.
Qed.

Lemma drop_app s t : drop (String.length s) (s +:+ t) = t.
Proof.
  induction s as [|a s IH]; [by destruct t|].
  rewrite StrFacts.append_cons. by cbn [String.length drop].
Qed.

Lemma ends_with_app y p : ends_with p (y +:+ p) = true.
Proof.
  unfold ends_with. apply bool_decide_eq_true.
  rewrite length_app.
  replace (String.length y + String.length p - String.length p)%nat
    with (String.length y) by lia.
  apply drop_app.
Qed.

(** The rest of the line at the head of a text. *)
Lemma span_line x rest :
  all_chars not_LF x = true ->
  (span not_LF (x +:+ Parts.NL +:+ rest)).1 = x /\
  (span not_LF x).1 = x.
Proof.
  induction x as [|a x IH]; [done|]. cbn [all_chars].
  intros [Ha Hx]%andb_prop. rewrite StrFacts.append_cons. cbn [span].
  rewrite Ha. destruct (IH Hx) as [H1 H2].
  destruct (span not_LF (x +:+ _)) as [p r]. destruct (span not_LF x) as [p' r'].
  cbn in *. by subst.
Qed.

Lemma ends_with_tail a l :
  ends_with "-*-" (String a l) = true ->
  is_space a = true ->
  ends_with "-*-" l = true /\ (3 <= String.length l)%nat.
Proof.
  unfold ends_with. intros H%bool_decide_eq_true Ha.
  change (String.length "-*-") with 3%nat in *.
  cbn [String.length] in H.
  destruct (Nat.le_gt_cases 3 (String.length l)) as [Hl|Hl].
  - split; [|done]. apply bool_decide_eq_true.
    replace (S (String.length l) - 3)%nat
      with (S (String.length l - 3)) in H by lia.
    exact H.
  - exfalso.
    replace (S (String.length l) - 3)%nat with 0%nat in H by lia.
    cbn [drop] in H. injection H as -> _. discriminate Ha.
Qed.

(** [\s*.*-\*-$] on a text whose first line ends with [-*-]: the whole
    line is taken. *)
Lemma match_coding_ws_line s :
  ends_with "-*-" (span not_LF s).1 = true ->
  (3 <= String.length (span not_LF s).1)%nat ->
  match_coding_ws s = Some (String.length (span not_LF s).1).
Proof.
  induction s as [|a s IH]; [cbn; lia|].
  cbn [span]. destruct (not_LF a) eqn:Ha; [|cbn; lia].
  destruct (span not_LF s) as [l r] eqn:Hsp. cbn [fst] in *.
  intros He Hl. cbn [match_coding_ws].
  assert (Htail : match_coding_tail (String a s)
                  = Some (String.length (String a l))).
  { unfold match_coding_tail. cbn [span]. rewrite Ha, Hsp. cbn [fst].
    rewrite He. by rewrite (proj2 (Nat.leb_le _ _) Hl). }
  destruct (is_space a) eqn:Hsa; [|exact Htail].
  destruct (ends_with_tail a l He Hsa) as [He' Hl'].
  by rewrite (IH He' Hl').
Qed.

Lemma ascii_eqb_refl a : ascii_eqb a a = true.
Proof. unfold ascii_eqb. by rewrite bool_decide_eq_true. Qed.

Lemma drop_while_true f a s :
  f a = true -> drop_while f (String a s) = drop_while f s.
Proof.
  intros H. unfold drop_while. cbn [span]. rewrite H.
  by destruct (span f s).
Qed.

Lemma drop_while_false f a s :
  f a = false -> drop_while f (String a s) = String a s.
Proof. intros H. unfold drop_while. cbn [span]. by rewrite H. Qed.

Lemma match_coding_head s3 :
  match_coding ("# -*- coding:" +:+ s3) =
    match match_coding_ws s3 with
    | Some n => Some (13 + n)%nat
    | None => None
    end.
Proof.
  rewrite !StrFacts.append_cons, StrFacts.append_nil_l.
  unfold match_coding. rewrite ascii_eqb_refl.
  rewrite (drop_while_true is_space " "%char) by reflexivity.
  rewrite (drop_while_false is_space "-"%char) by reflexivity.
  cbn [drop_prefix]. rewrite !ascii_eqb_refl.
  rewrite (drop_while_true is_space " "%char) by reflexivity.
  rewrite (drop_while_false is_space "c"%char) by reflexivity.
  cbn [drop_prefix]. rewrite !ascii_eqb_refl.
  destruct (match_coding_ws s3) as [n|]; [|done].
  f_equal. cbn [String.length]. lia.
Qed.

Lemma skip_rest_of_line x : forall b t,
  all_chars not_LF x = true ->
  remove_coding_go (String.length x) b (x +:+ t) =
    remove_coding_go 0 (if is_empty x then b else false) t.
Proof.
  induction x as [|a x IH]; intros b t; [done|]. cbn [all_chars].
  intros [Ha Hx]%andb_prop. rewrite StrFacts.append_cons.
  cbn [String.length remove_coding_go is_empty].
  unfold not_LF in Ha. apply negb_true_iff in Ha. rewrite Ha.
  rewrite IH by done. by destruct (is_empty x).
Qed.

Lemma all_chars_coding_line enc :
  all_chars not_LF enc = true -> all_chars not_LF (coding_line enc) = true.
Proof.
  intros H. unfold coding_line. by rewrite !DoctestMore.all_chars_app, H.
Qed.

Lemma match_coding_line enc t :
  all_chars not_LF enc = true ->
  t = EmptyString \/ (exists r, t = Parts.NL +:+ r) ->
  match_coding (coding_line enc +:+ t)
    = Some (String.length (coding_line enc)).
Proof.
  intros Henc Ht. unfold coding_line.
  change "# -*- coding: " with ("# -*- coding:" +:+ " ").
  rewrite !StrFacts.append_assoc. rewrite match_coding_head.
  set (tail := " " +:+ (enc +:+ " -*-")).
  assert (Htl : all_chars not_LF tail = true)
    by (subst tail; by rewrite !DoctestMore.all_chars_app, Henc).
  assert (Heq : " " +:+ enc +:+ " -*-" +:+ t = tail +:+ t)
    by (subst tail; by rewrite !StrFacts.append_assoc).
  assert (Hline : (span not_LF (tail +:+ t)).1 = tail).
  { destruct Ht as [->|[r ->]].
    - rewrite StrFacts.append_nil_r.
      by apply (span_line tail EmptyString).
    - by apply (span_line tail r). }
  assert (Hlen : String.length tail = (5 + String.length enc)%nat).
  { subst tail. rewrite !length_app. cbn [String.length]. lia. }
  rewrite Heq, match_coding_ws_line; rewrite Hline.
  - reflexivity.
  - subst tail. change " -*-" with (" " +:+ "-*-").
    rewrite <- !StrFacts.append_assoc. apply ends_with_app.
  - lia.
Qed.

(** X11.  A coding comment in the form of PEP 263 at the start of the text
    is removed up to the end of its line: the line stays, empty, and the
    rest of the text is treated in the same way. *)
Theorem remove_coding_comment_line (encoding rest : string) :
  all_chars not_LF encoding = true ->
  remove_coding (coding_line encoding +:+ Parts.NL +:+ rest)
    = Parts.NL +:+ remove_coding rest /\
  remove_coding (coding_line encoding) = EmptyString.
Proof.
  intros Henc.
  assert (Hgo : forall t,
            t = EmptyString \/ (exists r, t = Parts.NL +:+ r) ->
            remove_coding (coding_line encoding +:+ t)
              = remove_coding_go 0 false t).
  { intros t Ht. unfold remove_coding.
    pose proof (match_coding_line encoding t Henc Ht) as Hm.
    pose proof (all_chars_coding_line encoding Henc) as Hall.
    destruct (coding_line encoding) as [|c l] eqn:Hcl; [discriminate|].
    rewrite StrFacts.append_cons in *. cbn [remove_coding_go].
    rewrite Hm. cbn [String.length all_chars] in *.
    apply andb_prop in Hall as [Hc Hl].
    rewrite skip_rest_of_line by done.
    unfold not_LF in Hc. apply negb_true_iff in Hc. rewrite Hc.
    by destruct (is_empty l). }
  split.
  - rewrite Hgo by (right; by eauto). reflexivity.
  - rewrite <- (StrFacts.append_nil_r (coding_line encoding)).
    by rewrite Hgo by (by left).
Qed.

Lemma remove_coding_comment_line_witness :
  remove_coding (coding_line "utf-8" +:+ Parts.NL +:+ "import os")
    = Parts.NL +:+ remove_coding "import os" /\
  remove_coding (coding_line "utf-8") = EmptyString.
Proof. apply (remove_coding_comment_line "utf-8" "import os"). reflexivity. Defined.

End CodingFacts.

(** ** More on the code runner *)

Module RunnerMore.
Import Runtime Runner.
Import Spec Examples ExamplesMore.
Local Open Scope py_scope.

Section WithInterpreter.

Variable PY3 : bool.
Variable py_compile : string -> result unit.
Variable py_exec : string -> Py.loc -> world -> world * option exc.
Variable format_exc : exc -> string.

Local Abbreviation run_code :=
  (Runner.run_code PY3 py_compile py_exec format_exc).
Local Abbreviation run_body := (Runner.run_body py_compile py_exec).
Local Abbreviation prepare := (Runner.prepare py_compile py_exec).
Local Abbreviation enter := (Spec.enter PY3).





(** With a namespace that is true, [pre_code] plays no part. *)
Lemma prepare_ignores_pre_code code l pre_code w0 :
  Py.truthy (heap w0) (VRef l) = true ->
  prepare code l pre_code w0 = prepare code l None w0.
Proof.
  intros Ht. unfold Runner.prepare, bind, lift, gets.
  destruct (Doctest.unescape_doctest py_compile code) as [code'|e]; [|done].
  rewrite Ht. cbn [negb str_truthy andb]. by rewrite andb_false_r.
Qed.

(** X14.  [pre_code] is run in an empty namespace only: when the
    namespace given is a dict with a binding, the call does what it does
    without [pre_code]. *)
Theorem run_code_skips_pre_code code code_path l function_name workdir
    pre_code raises w d :
  heap w !! l = Some (ODict d) ->
  d <> ∅ ->
  run_code code code_path (Some l) function_name workdir pre_code raises w
    = run_code code code_path (Some l) function_name workdir None raises w.
Proof.
  intros Hl Hd.
  assert (Ht : Py.truthy (heap w) (VRef l) = true).
  { cbn. rewrite Hl. by rewrite bool_decide_eq_false_2. }
  destruct (isdir w (cwd w)) eqn:Hcwd;
    [|by rewrite !RunnerFacts.run_code_no_cwd].
  destruct (chdir_error w (default (cwd w) workdir)) as [e|] eqn:Hwd.
  - by rewrite !(RunnerFacts.run_code_no_workdir _ _ _ _ _ _ _ _ _ _ _ _ e
                   Hcwd Hwd).
  - apply RunnerFacts.chdir_error_enterable in Hwd.
    pose proof (RunnerFacts.run_code_entered PY3 py_compile py_exec
                  format_exc code code_path (Some l) function_name workdir
                  pre_code raises w Hcwd Hwd) as H1.
    pose proof (RunnerFacts.run_code_entered PY3 py_compile py_exec
                  format_exc code code_path (Some l) function_name workdir
                  None raises w Hcwd Hwd) as H2.
    cbn zeta in H1, H2. cbn [Spec.enter] in H1, H2.
    rewrite H1, H2. clear H1 H2.
    unfold try_except, Runner.run_body.
    unfold bind at 1. unfold bind at 3.
    by rewrite prepare_ignores_pre_code.
Qed.

(** X15.  Without a namespace given, the dict the call returns is a new
    object: no object of the heap was at its place before the call. *)
Theorem run_code_new_namespace code code_path function_name workdir pre_code
    raises w l :
  (run_code code code_path None function_name workdir pre_code raises w).2
    = Ok l ->
  heap w !! l = None.
Proof.
  destruct (isdir w (cwd w)) eqn:Hcwd;
    [|by rewrite RunnerFacts.run_code_no_cwd].
  destruct (chdir_error w (default (cwd w) workdir)) as [e|] eqn:Hwd.
  - by rewrite (RunnerFacts.run_code_no_workdir _ _ _ _ _ _ _ _ _ _ _ _ e
                  Hcwd Hwd).
  - apply RunnerFacts.chdir_error_enterable in Hwd.
    pose proof (RunnerFacts.run_code_entered PY3 py_compile py_exec
                  format_exc code code_path None function_name workdir
                  pre_code raises w Hcwd Hwd) as H.
    cbn zeta in H. cbn [Spec.enter Py.alloc] in H.
    rewrite H. clear H.
    destruct (try_except _ _ _) as [w1 r].
    destruct (chdir_error w1 (cwd w)); [discriminate|].
    destruct r as [[]|e1]; [|discriminate].
    cbn. intros [= <-]. apply FlagsFacts.fresh_loc_None.
Qed.

End WithInterpreter.



Lemma run_code_skips_pre_code_witness :
  Runner.run_code true compiles quiet exc_msg
    "y = x" VNone (Some 1%positive) None None (Some "x = 2") None w_bound
  = Runner.run_code true compiles quiet exc_msg
      "y = x" VNone (Some 1%positive) None None None None w_bound.
Proof.
  apply (run_code_skips_pre_code true compiles quiet exc_msg
           "y = x" VNone 1%positive None None (Some "x = 2") None w_bound
           (<["x" := VInt 1]> ∅)); [reflexivity|].
  intros E. apply (f_equal (fun m => m !! "x")) in E.
  by rewrite lookup_insert_eq in E.
Defined.

Lemma run_code_new_namespace_witness :
  heap w_init !! 2%positive = None.
Proof.
  apply (run_code_new_namespace true compiles quiet exc_msg
           "x = 1" VNone None None None None w_init 2%positive).
  vm_compute. reflexivity.
Defined.

End RunnerMore.

(** ** More on the figure renderer *)

Module FiguresMore.
Import Str Runtime Figures Orchestration.
Import Spec SpecMore Examples ExamplesMore.
Local Open Scope py_scope.

Lemma split_on_sep_app c b rest :
  free_of c b = true ->
  split_on c (b +:+ String c rest) = b :: split_on c rest.
Proof.
  unfold free_of. induction b as [|a b IH]; cbn [all_chars].
  - intros _. rewrite StrFacts.append_nil_l. cbn [split_on].
    by rewrite CodingFacts.ascii_eqb_refl.
  - intros [Ha Hb]%andb_prop. rewrite StrFacts.append_cons.
    cbn [split_on]. apply negb_true_iff in Ha. rewrite Ha.
    by rewrite IH.
Qed.

Lemma split_on_free c s : free_of c s = true -> split_on c s = [s].
Proof.
  unfold free_of. induction s as [|a s IH]; [done|]. cbn [all_chars].
  intros [Ha Hs]%andb_prop. cbn [split_on].
  apply negb_true_iff in Ha. rewrite Ha. by rewrite (IH Hs).
Qed.

Lemma contains_char_free c s :
  free_of c s = true -> contains (str1 c) s = false.
Proof.
  unfold free_of. induction s as [|a s IH]; [done|]. cbn [all_chars].
  intros [Ha Hs]%andb_prop. cbn [contains]. rewrite (IH Hs).
  rewrite orb_false_r. cbn. apply negb_true_iff in Ha.
  unfold ascii_eqb in Ha. apply bool_decide_eq_false in Ha.
  destruct (ascii_dec c a) as [->|]; [done|]. reflexivity.
Qed.

Section WithBackend.

Variable PY3 : bool.
Variable py_compile : string -> result unit.
Variable py_exec : string -> Py.loc -> world -> world * option exc.
Variable format_exc : exc -> string.
Variable py_int : string -> option Z.
Variable int_opaque : string -> result Z.
Variable py_str : val -> string.
Variable abspath : string -> string -> string.
Variable os_dirname : string -> string.
Variable pjoin : string -> string -> string.
Variable rc_defaults : gmap string val.
Variable savefig : figure -> string -> Z -> world -> world * option exc.

Local Abbreviation parse_format :=
  (Figures.parse_format py_int int_opaque py_str).
Local Abbreviation parse_formats :=
  (Figures.parse_formats py_int int_opaque py_str).
Local Abbreviation save_formats := (Figures.save_formats format_exc pjoin savefig).
Local Abbreviation save_figures := (Figures.save_figures format_exc pjoin savefig).
Local Abbreviation collect_images :=
  (Figures.collect_images format_exc pjoin savefig).
Local Abbreviation run_for_figures :=
  (Figures.run_for_figures PY3 py_compile py_exec format_exc py_int
     int_opaque py_str abspath os_dirname rc_defaults).
Local Abbreviation render_figures :=
  (Figures.render_figures PY3 py_compile py_exec format_exc py_int
     int_opaque py_str abspath os_dirname pjoin rc_defaults savefig).
Local Abbreviation savefig_succeeds := (Spec.savefig_succeeds savefig).

(** X16.  A format given as a string: [suffix:dpi] gives the suffix with
    the resolution [int(dpi)], and fails with the [ValueError] of [int]
    when [dpi] is no integer literal; a string with a further colon fails
    with the [ValueError] of the unpacking; a string without colon gives
    itself with its default resolution. *)
Theorem parse_format_strings (suffix dpi : string) :
  free_of ":" suffix = true ->
  free_of ":" dpi = true ->
  parse_format (FStr (suffix +:+ ":" +:+ dpi)) =
    match py_int dpi with
    | Some z => Ok (suffix, z)
    | None => Raise (Exc.mk ValueError "invalid literal for int()")
    end /\
  (forall more,
     parse_format (FStr (suffix +:+ ":" +:+ dpi +:+ ":" +:+ more)) =
       Raise (Exc.mk ValueError "too many values to unpack")) /\
  parse_format (FStr suffix) = Ok (suffix, default_dpi suffix).
Proof.
  intros Hs Hd. split; [|split].
  - unfold Figures.parse_format.
    rewrite (DoctestMore.contains_app ":" suffix dpi).
    change (":" +:+ dpi) with (String ":" dpi).
    rewrite split_on_sep_app, split_on_free by done.
    unfold Figures.format_of_pair. cbn [Figures.int_of_val Figures.str_of_val].
    by destruct (py_int dpi).
  - intros more. unfold Figures.parse_format.
    rewrite (DoctestMore.contains_app ":" suffix (dpi +:+ ":" +:+ more)).
    change (":" +:+ dpi +:+ ":" +:+ more)
      with (String ":" (dpi +:+ String ":" more)).
    rewrite !split_on_sep_app by done.
    destruct (DoctestFacts.split_on_cons ":" more) as (x & xs & ->).
    reflexivity.
  - unfold Figures.parse_format.
    change ":"%string with (str1 ":").
    by rewrite (contains_char_free ":" suffix Hs).
Qed.

Lemma save_formats_fields figman fmts : forall img w,
  savefig_succeeds ->
  exists w' img',
    save_formats figman img fmts w = (w', Ok img') /\
    basename img' = basename img /\
    dirname img' = dirname img /\
    formats img' = formats img ++ map fst fmts.
Proof.
  induction fmts as [|[format dpi] fmts IH]; intros img w Hs.
  - exists w, img. by rewrite app_nil_r.
  - cbn [Figures.save_formats]. unfold bind at 1, try_except, savefig_.
    pose proof (Hs figman (filename pjoin img format) dpi w) as Hsave.
    destruct (savefig figman _ dpi w) as [w1 o]. cbn in Hsave. subst o.
    destruct (IH (mkImageFile (basename img) (dirname img)
                    (formats img ++ [format])) w1 Hs)
      as (w' & img' & -> & Hb & Hdir & Hf).
    exists w', img'. split; [done|]. split; [done|]. split; [done|].
    rewrite Hf. cbn. by rewrite <- app_assoc.
Qed.

Lemma save_figures_fields output_base output_dir fmts n rest : forall j w,
  savefig_succeeds ->
  exists w' images,
    save_figures output_base output_dir fmts n j rest w = (w', Ok images) /\
    Forall (fun img => dirname img = output_dir /\
                       formats img = map fst fmts) images.
Proof.
  induction rest as [|figman rest IH]; intros j w Hs.
  - exists w, []. done.
  - cbn [Figures.save_figures]. unfold bind at 1.
    destruct (save_formats_fields figman fmts
                (new_ImageFile (image_name output_base n j) output_dir) w Hs)
      as (w1 & img & -> & _ & Hdir & Hf).
    unfold bind at 1.
    destruct (IH (S j) w1 Hs) as (w' & images & -> & Hall).
    exists w', (img :: images). split; [done|].
    constructor; [|done]. by split.
Qed.

Lemma bind_ok_inv {A B} (m : M A) (k : A -> M B) w w1 b :
  bind m k w = (w1, Ok b) ->
  exists w' a, m w = (w', Ok a) /\ k a w' = (w1, Ok b).
Proof.
  unfold bind. destruct (m w) as [w' [a|e]]; [by eauto|discriminate].
Qed.

(** The formats that a successful run was given are those of the
    configuration. *)
Lemma run_for_figures_formats code code_path cfg setup_config context
    function_name context_reset close_figs raises w w1 fmts :
  run_for_figures code code_path cfg setup_config context function_name
    context_reset close_figs raises w = (w1, Ok fmts) ->
  parse_formats (plot_formats (nbplot_formats cfg)) = Ok fmts.
Proof.
  unfold Figures.run_for_figures.
  intros (wa & fs & Hp & H)%bind_ok_inv.
  apply bind_ok_inv in H as (wb & ns & _ & H).
  apply bind_ok_inv in H as (wc & [] & _ & H).
  apply bind_ok_inv in H as (wd & workdir & _ & H).
  apply bind_ok_inv in H as (we & [] & _ & H).
  apply bind_ok_inv in H as (wf & l & _ & H).
  unfold ret in H. injection H as _ <-.
  unfold lift in Hp. by injection Hp as _ ->.
Qed.

(** X17.  When the code has run and every image is written, every
    descriptor that [render_figures] returns is in the output directory and
    lists the formats of the configuration, in the order of the
    configuration; its file names are those of its base name with each of
    these formats as the extension. *)
Theorem render_figures_descriptors code code_path output_dir output_base cfg
    setup_config context function_name context_reset close_figs raises
    w w1 fmts :
  run_for_figures code code_path cfg setup_config context function_name
    context_reset close_figs raises w = (w1, Ok fmts) ->
  savefig_succeeds ->
  parse_formats (plot_formats (nbplot_formats cfg)) = Ok fmts /\
  exists w' images,
    render_figures code code_path output_dir output_base cfg setup_config
      context function_name context_reset close_figs raises w
      = (w', Ok images) /\
    Forall (fun img =>
              dirname img = output_dir /\
              formats img = map fst fmts /\
              filenames pjoin img =
                map (fun f => pjoin output_dir (basename img +:+ "." +:+ f))
                    (map fst fmts)) images.
Proof.
  intros Hrun Hs. split; [by eapply run_for_figures_formats|].
  unfold Figures.render_figures, bind at 1. rewrite Hrun.
  unfold Figures.collect_images, bind at 1, gets at 1.
  destruct (save_figures_fields output_base output_dir fmts
              (length (figs w1)) (figs w1) 0%nat w1 Hs)
    as (w' & images & -> & Hall).
  exists w', images. split; [done|].
  eapply Forall_impl; [exact Hall|].
  intros img [Hd Hf]. split; [done|]. split; [done|].
  unfold filenames, filename. by rewrite Hf, Hd.
Qed.

(** X18.  When the code has run and the first image of the first figure
    cannot be written, [render_figures] fails: with [PlotError] carrying the
    formatted trace when the exception of [savefig] derives from
    [Exception], and with that exception itself otherwise; no descriptor is
    returned. *)
Theorem render_figures_save_failure code code_path output_dir output_base cfg
    setup_config context function_name context_reset close_figs raises
    w w1 format dpi fmts figman rest w2 e :
  run_for_figures code code_path cfg setup_config context function_name
    context_reset close_figs raises w = (w1, Ok ((format, dpi) :: fmts)) ->
  figs w1 = figman :: rest ->
  savefig figman
    (pjoin output_dir
       (image_name output_base (S (length rest)) 0 +:+ "." +:+ format))
    dpi w1 = (w2, Some e) ->
  render_figures code code_path output_dir output_base cfg setup_config
    context function_name context_reset close_figs raises w
  = (w2, Raise (if Exc.isinstance e Exception
                then Exc.mk PlotError (format_exc e) else e)).
Proof.
  intros Hrun Hfigs Hsave.
  unfold Figures.render_figures, bind at 1. rewrite Hrun.
  unfold Figures.collect_images, bind at 1, gets at 1. rewrite Hfigs.
  cbn [length Figures.save_figures]. unfold bind at 1.
  cbn [Figures.save_formats]. unfold bind at 1, try_except, savefig_.
  unfold filename, new_ImageFile. cbn [basename dirname].
  rewrite Hsave. by destruct (Exc.isinstance e Exception).
Qed.

(** The call when the configured working directory is no directory:
    the world it leaves and the exception do not depend on the interpreter
    or on the backend. *)
Lemma render_figures_no_wd code code_path output_dir output_base cfg
    setup_config context function_name context_reset close_figs raises
    w p fmts d :
  parse_formats (plot_formats (nbplot_formats cfg)) = Ok fmts ->
  heap w !! plot_context w = Some (ODict d) ->
  nbplot_working_directory setup_config = VStr p ->
  isdir w (abspath (cwd w) p) = false ->
  exists w1,
    forall py_exec' savefig',
      Figures.render_figures PY3 py_compile py_exec' format_exc py_int
        int_opaque py_str abspath os_dirname pjoin rc_defaults savefig'
        code code_path output_dir output_base cfg setup_config
        context function_name context_reset close_figs raises w
      = (w1, Raise (Exc.mk OSError
                      "nbplot_working_directory must be a valid directory path")).
Proof.
  intros Hp Hl Hwd Hd.
  pose proof (FlagsFacts.fresh_loc_ne (heap w) _ _ Hl) as Hne.
  destruct context, context_reset; eexists; intros py_exec' savefig';
    unfold Figures.render_figures, Figures.run_for_figures, bind, lift, gets,
      new_dict, plt_close_all, modify, dict_clear, ret, _check_wd, raise;
    rewrite Hp, Hwd;
    unfold bind, gets, ret, Py.get_dict;
    cbn [Py.alloc heap cwd plot_context set_heap set_figs set_rcparams];
    rewrite ?lookup_insert_ne by done; rewrite ?Hl;
    unfold isdir in *;
    cbn [cwd files set_heap set_figs set_rcparams]; rewrite Hd; reflexivity.
Qed.

(** X19.  A configured working directory that is no directory makes
    [render_figures] fail with [OSError] before the code is run and before
    anything is written: the outcome is the same for every interpreter and
    every backend. *)
Theorem render_figures_bad_working_directory code code_path output_dir
    output_base cfg setup_config context function_name context_reset
    close_figs raises w p fmts d :
  parse_formats (plot_formats (nbplot_formats cfg)) = Ok fmts ->
  heap w !! plot_context w = Some (ODict d) ->
  nbplot_working_directory setup_config = VStr p ->
  isdir w (abspath (cwd w) p) = false ->
  (render_figures code code_path output_dir output_base cfg setup_config
     context function_name context_reset close_figs raises w).2
    = Raise (Exc.mk OSError
               "nbplot_working_directory must be a valid directory path") /\
  forall py_exec' savefig',
    Figures.render_figures PY3 py_compile py_exec' format_exc py_int
      int_opaque py_str abspath os_dirname pjoin rc_defaults savefig'
      code code_path output_dir output_base cfg setup_config
      context function_name context_reset close_figs raises w
    = render_figures code code_path output_dir output_base cfg setup_config
        context function_name context_reset close_figs raises w.
Proof.
  intros Hp Hl Hwd Hd.
  destruct (render_figures_no_wd code code_path output_dir output_base cfg
              setup_config context function_name context_reset close_figs
              raises w p fmts d Hp Hl Hwd Hd) as [w1 H].
  split; [by rewrite H|]. intros py_exec' savefig'. by rewrite !H.
Qed.
(** *** Figures across a call *)

Lemma keeps_ret {A} (a : A) : keeps_figs (ret a).
Proof. by intros w. Qed.

Lemma keeps_raise {A} e : keeps_figs (raise (A:=A) e).
Proof. by intros w. Qed.

Lemma keeps_lift {A} (r : result A) : keeps_figs (lift r).
Proof. by intros w. Qed.

Lemma keeps_gets {A} (f : world -> A) : keeps_figs (gets f).
Proof. by intros w. Qed.

Lemma keeps_modify (f : world -> world) :
  (forall w, figs (f w) = figs w) -> keeps_figs (modify f).
Proof. intros H w. apply H. Qed.

Lemma keeps_bind {A B} (m : M A) (k : A -> M B) :
  keeps_figs m -> (forall a, keeps_figs (k a)) -> keeps_figs (bind m k).
Proof.
  intros Hm Hk w. unfold bind. pose proof (Hm w) as H1.
  destruct (m w) as [w1 [a|e]]; [|done].
  rewrite (Hk a w1). exact H1.
Qed.

Lemma keeps_try_except {A} (m : M A) (h : exc -> M A) :
  keeps_figs m -> (forall e, keeps_figs (h e)) -> keeps_figs (try_except m h).
Proof.
  intros Hm Hh w. unfold try_except. pose proof (Hm w) as H1.
  destruct (m w) as [w1 [a|e]]; [done|].
  rewrite (Hh e w1). exact H1.
Qed.

Lemma keeps_try_finally {A} (m : M A) (fin : M unit) :
  keeps_figs m -> keeps_figs fin -> keeps_figs (try_finally m fin).
Proof.
  intros Hm Hf w. unfold try_finally. pose proof (Hm w) as H1.
  destruct (m w) as [w1 r]. pose proof (Hf w1) as H2.
  destruct (fin w1) as [w2 [[]|e]]; cbn in *; congruence.
Qed.

Lemma keeps_if {A} (b : bool) (m1 m2 : M A) :
  keeps_figs m1 -> keeps_figs m2 -> keeps_figs (if b then m1 else m2).
Proof. by destruct b. Qed.

Lemma keeps_new_dict d : keeps_figs (new_dict d).
Proof. by intros w. Qed.

Lemma keeps_dict_setitem l key v : keeps_figs (dict_setitem l key v).
Proof. intros w. unfold dict_setitem. by destruct (Py.get_dict _ _). Qed.

Lemma keeps_dict_clear l : keeps_figs (dict_clear l).
Proof. intros w. unfold dict_clear. by destruct (Py.get_dict _ _). Qed.

Lemma keeps_os_getcwd : keeps_figs Runner.os_getcwd.
Proof. intros w. unfold Runner.os_getcwd. by destruct (isdir _ _). Qed.

Lemma keeps_os_chdir path : keeps_figs (Runner.os_chdir path).
Proof. intros w. unfold Runner.os_chdir. by destruct (chdir_error _ _). Qed.

Lemma keeps_exec code ns :
  plots_nothing py_exec -> keeps_figs (Runner.exec_ py_exec code ns).
Proof.
  intros Hq w. unfold Runner.exec_. pose proof (Hq code ns w) as H.
  by destruct (py_exec code ns w) as [w1 [e|]].
Qed.

Lemma keeps_exec_name_main ns : keeps_figs (Runner.exec_name_main ns).
Proof. intros w. unfold Runner.exec_name_main. by destruct (Py.get_dict _ _). Qed.

Lemma keeps_run_code code code_path ns function_name workdir pre_code raises :
  plots_nothing py_exec ->
  keeps_figs (Runner.run_code PY3 py_compile py_exec format_exc
                code code_path ns function_name workdir pre_code raises).
Proof.
  intros Hq. unfold Runner.run_code.
  apply keeps_bind; [apply keeps_os_getcwd|intros pwd].
  apply keeps_bind; [apply keeps_gets|intros old_sys_path].
  apply keeps_bind;
    [destruct workdir; [apply keeps_ret|apply keeps_os_getcwd]|intros wd].
  apply keeps_bind; [apply keeps_os_chdir|intros _].
  apply keeps_bind; [by apply keeps_modify|intros _].
  apply keeps_bind; [apply keeps_gets|intros old_sys_argv].
  apply keeps_bind; [by apply keeps_modify|intros _].
  apply keeps_bind; [apply keeps_gets|intros stdout].
  apply keeps_bind; [by apply keeps_modify|intros _].
  apply keeps_bind;
    [destruct ns; [apply keeps_ret|apply keeps_new_dict]|intros l].
  apply keeps_bind; [|intros _; apply keeps_ret].
  apply keeps_try_finally.
  - apply keeps_try_except.
    + unfold Runner.run_body.
      apply keeps_bind; [|intros code'].
      * unfold Runner.prepare.
        apply keeps_bind; [apply keeps_lift|intros c].
        apply keeps_bind; [apply keeps_gets|intros ns_true].
        apply keeps_bind;
          [apply keeps_if; [by apply keeps_exec|apply keeps_ret]|intros _].
        apply keeps_bind; [apply keeps_dict_setitem|intros _].
        apply keeps_bind;
          [apply keeps_if; [apply keeps_exec_name_main|apply keeps_ret]
          |intros _].
        apply keeps_ret.
      * apply keeps_bind; [|intros _].
        -- unfold Runner.exec_expecting. destruct raises as [cls|];
             [|by apply keeps_exec].
           apply keeps_try_except; [by apply keeps_exec|intros e].
           apply keeps_if; [apply keeps_ret|apply keeps_raise].
        -- unfold Runner.call_function.
           apply keeps_if; [by apply keeps_exec|apply keeps_ret].
    + intros e. unfold Runner.to_plot_error.
      apply keeps_if; apply keeps_raise.
  - unfold Runner.restore.
    apply keeps_bind; [apply keeps_os_chdir|intros _].
    apply keeps_bind; [by apply keeps_modify|intros _].
    apply keeps_bind; [by apply keeps_modify|intros _].
    by apply keeps_modify.
Qed.

Lemma keeps_at {A} (m : M A) w w1 r :
  keeps_figs m -> m w = (w1, r) -> figs w1 = figs w.
Proof. intros Hk Hm. pose proof (Hk w) as H. by rewrite Hm in H. Qed.

(** The list of descriptors is as long as the list of figures. *)
Lemma save_figures_length output_base output_dir fmts n rest :
  forall j w w' images,
    save_figures output_base output_dir fmts n j rest w = (w', Ok images) ->
    length images = length rest.
Proof.
  induction rest as [|figman rest IH]; intros j w w' images.
  - unfold ret. cbn. by intros [= _ <-].
  - cbn [Figures.save_figures].
    intros (w1 & img & _ & H)%bind_ok_inv.
    apply bind_ok_inv in H as (w2 & imgs & Hrest & H).
    unfold ret in H. injection H as _ <-.
    cbn [length]. f_equal. by eapply IH.
Qed.

(** X20.  For code that opens and closes no figure, a successful call
    returns one descriptor for each figure that was open before the call
    when the context is kept, is not reset and the figures are not to be
    closed, and no descriptor otherwise: figures of earlier code are saved
    again only on request. *)
Theorem render_figures_earlier_figures code code_path output_dir output_base
    cfg setup_config context function_name context_reset close_figs raises
    w w' images :
  plots_nothing py_exec ->
  render_figures code code_path output_dir output_base cfg setup_config
    context function_name context_reset close_figs raises w
    = (w', Ok images) ->
  length images =
    if negb context || close_figs || context_reset then 0%nat
    else length (figs w).
Proof.
  intros Hq. unfold Figures.render_figures.
  intros (w1 & fmts & Hrun & Hcol)%bind_ok_inv.
  assert (Hfigs : figs w1 =
            if negb context || close_figs || context_reset then []
            else figs w).
  { revert Hrun. unfold Figures.run_for_figures.
    intros (wa & fs & Hp & H)%bind_ok_inv.
    apply bind_ok_inv in H as (wb & ns & Hns & H).
    apply bind_ok_inv in H as (wc & [] & Hreset & H).
    apply bind_ok_inv in H as (wd & workdir & Hwd & H).
    apply bind_ok_inv in H as (we & [] & Hclose & H).
    apply bind_ok_inv in H as (wf & l & Hcode & H).
    unfold ret in H. injection H as <- _.
    apply (keeps_at _ _ _ _ (keeps_lift _)) in Hp.
    assert (Hb : figs wb = figs wa).
    { revert Hns. apply keeps_at.
      apply keeps_if; [apply keeps_gets|apply keeps_new_dict]. }
    assert (Hc : figs wc = if context_reset then [] else figs wb).
    { destruct context_reset.
      - apply bind_ok_inv in Hreset as (x1 & [] & H1 & Hreset).
        apply bind_ok_inv in Hreset as (x2 & [] & H2 & Hreset).
        apply bind_ok_inv in Hreset as (x3 & [] & H3 & Hreset).
        apply bind_ok_inv in Hreset as (x4 & pc & H4 & Hreset).
        apply (keeps_at _ _ _ _ (keeps_dict_clear _)) in Hreset.
        apply (keeps_at _ _ _ _ (keeps_gets _)) in H4.
        unfold modify in H2, H3. unfold plt_close_all, modify in H1.
        injection H1 as <-. injection H2 as <-. injection H3 as <-.
        rewrite Hreset, H4. reflexivity.
      - unfold ret in Hreset. by injection Hreset as <-. }
    assert (Hd : figs wd = figs wc).
    { revert Hwd. apply keeps_at.
      destruct (nbplot_working_directory setup_config) as [| | |p| | |].
      1: destruct code_path;
           first [apply keeps_ret | apply keeps_raise
                 | apply keeps_bind;
                     [apply keeps_gets|intros ?; apply keeps_ret]].
      all: apply keeps_bind; [|intros ?; apply keeps_ret].
      all: try apply keeps_raise.
      apply keeps_bind; [apply keeps_gets|intros ?].
      apply keeps_bind; [apply keeps_gets|intros ?].
      apply keeps_if; [apply keeps_ret|apply keeps_raise]. }
    assert (He : figs we = if negb context || close_figs then []
                           else figs wd).
    { destruct (negb context || close_figs).
      - unfold plt_close_all, modify in Hclose. by injection Hclose as <-.
      - unfold ret in Hclose. by injection Hclose as <-. }
    apply (keeps_at _ _ _ _ (keeps_run_code _ _ _ _ _ _ _ Hq)) in Hcode.
    rewrite Hcode, He, Hd, Hc, Hb, Hp.
    by destruct (negb context || close_figs), context_reset. }
  revert Hcol. unfold Figures.collect_images.
  intros (w2 & fm & Hg & Hsave)%bind_ok_inv.
  unfold gets in Hg. injection Hg as <- <-.
  apply save_figures_length in Hsave. rewrite Hsave, Hfigs.
  by destruct (negb context || close_figs || context_reset).
Qed.

End WithBackend.

(** *** A concrete backend *)

Lemma parse_format_strings_witness :
  Figures.parse_format int_100 no_int (fun _ => "?")
    (FStr ("png" +:+ ":" +:+ "100")) = Ok ("png", 100%Z).
Proof.
  exact (proj1 (parse_format_strings int_100 no_int (fun _ => "?")
                  "png" "100" eq_refl eq_refl)).
Defined.

Lemma render_figures_descriptors_witness :
  exists w' images,
    render_with (plotting [1; 2]%nat) saves png_only false w_init
      = (w', Ok images) /\
    Forall (fun img => dirname img = "/build" /\ formats img = ["png"])
           images.
Proof.
  destruct (render_figures_descriptors true compiles
              (plotting [1; 2]%nat) exc_msg (fun _ => None) no_int (fun _ => "?")
              (fun _ path => path) (fun _ => "/docs")
              (fun dir name => dir +:+ "/" +:+ name) ∅ saves
              "plt.plot(x)" (VStr "/docs/index.rst") "/build" "index-1"
              png_only png_only true None false true None
              w_init
              (run_with (plotting [1; 2]%nat) png_only false
                 w_init).1
              [("png", 80%Z)])
    as (_ & w' & images & Hr & Hall).
  - vm_compute. reflexivity.
  - intros figman fn dpi w. reflexivity.
  - exists w', images. split; [exact Hr|].
    eapply Forall_impl; [exact Hall|]. cbn. tauto.
Defined.

Lemma render_figures_save_failure_witness :
  render_with (plotting [1]%nat) read_only png_only false w_init
  = ((run_with (plotting [1]%nat) png_only false w_init).1,
     Raise (Exc.mk PlotError "read-only file system")).
Proof.
  apply (render_figures_save_failure true compiles
           (plotting [1]%nat) exc_msg (fun _ => None) no_int (fun _ => "?")
           (fun _ path => path) (fun _ => "/docs")
           (fun dir name => dir +:+ "/" +:+ name) ∅ read_only
           "plt.plot(x)" (VStr "/docs/index.rst") "/build" "index-1"
           png_only png_only true None false true None
           w_init
           (run_with (plotting [1]%nat) png_only false w_init).1
           "png" 80%Z [] 1%nat []
           (run_with (plotting [1]%nat) png_only false w_init).1
           (Exc.mk OSError "read-only file system")).
  - vm_compute. reflexivity.
  - vm_compute. reflexivity.
  - reflexivity.
Defined.

Lemma render_figures_bad_working_directory_witness :
  (render_with quiet saves nowhere_config false w_init).2
    = Raise (Exc.mk OSError
               "nbplot_working_directory must be a valid directory path").
Proof.
  apply (render_figures_bad_working_directory true compiles
           quiet exc_msg (fun _ => None) no_int (fun _ => "?")
           (fun _ path => path) (fun _ => "/docs")
           (fun dir name => dir +:+ "/" +:+ name) ∅ saves
           "plt.plot(x)" (VStr "/docs/index.rst") "/build" "index-1"
           png_only nowhere_config true None false true None
           w_init "/nowhere" [("png", 80%Z)] ∅); reflexivity.
Defined.

Lemma render_figures_earlier_figures_witness :
  exists w' images,
    render_with quiet saves png_only true w_two_figures
      = (w', Ok images) /\
    length images = 2%nat.
Proof.
  eexists _, _. split; [vm_compute; reflexivity|].
  refine (render_figures_earlier_figures true compiles
           quiet exc_msg (fun _ => None) no_int (fun _ => "?")
           (fun _ path => path) (fun _ => "/docs")
           (fun dir name => dir +:+ "/" +:+ name) ∅ saves
           "plt.plot(x)" (VStr "/docs/index.rst") "/build" "index-1"
           png_only png_only true None false false None
           w_two_figures _ _ _ _).
  - intros code ns w. reflexivity.
  - vm_compute. reflexivity.
Defined.

End FiguresMore.

(** ** More on the flag namespaces and the reset markers *)

Module FlagsMore.
Import Runtime Flags Orchestration.
Import Spec SpecMore.
Local Open Scope py_scope.

(** X21.  The namespace of a document is made once: the first access
    gives a dict, new and empty when the document had none, and every
    later access gives the same dict and changes nothing.  The access
    never fails. *)
Theorem flag_namespace_stable (docname : string) (w : world) :
  exists l,
    let w1 := (flag_namespace docname w).1 in
    flag_namespace docname w = (w1, Ok l) /\
    flag_namespace docname w1 = (w1, Ok l) /\
    (nbplot_flag_namespaces w !! docname = None ->
     heap w !! l = None /\ heap w1 !! l = Some (ODict ∅)) /\
    (forall l0, nbplot_flag_namespaces w !! docname = Some l0 ->
     l = l0 /\ w1 = w).
Proof.
  destruct (nbplot_flag_namespaces w !! docname) as [l0|] eqn:Hk.
  - exists l0. cbn zeta.
    rewrite (FlagsFacts.flag_namespace_known docname l0 w Hk). cbn [fst].
    rewrite (FlagsFacts.flag_namespace_known docname l0 w Hk).
    split; [done|]. split; [done|]. split; [done|].
    by intros ? [= <-].
  - exists (Py.fresh_loc (heap w)). cbn zeta.
    rewrite (FlagsFacts.flag_namespace_unknown docname w Hk). cbn [fst].
    split; [done|]. split; [|split; [|done]].
    + apply FlagsFacts.flag_namespace_known. cbn. apply lookup_insert_eq.
    + intros _. split; [apply FlagsFacts.fresh_loc_None|].
      cbn. apply lookup_insert_eq.
Qed.

(** The marker of a document after [do_purge_doc], however the copy of
    the configured flags goes. *)
Lemma do_purge_doc_markers docname w :
  nbplot_reset_markers (do_purge_doc docname w).1
    = <[docname := false]> (nbplot_reset_markers w).
Proof.
  unfold do_purge_doc, bind, modify, gets, copy_object.
  cbn [nbplot_flags set_reset_markers heap].
  destruct (nbplot_flags w) as [| | | | |l|]; try reflexivity.
  change (heap (set_reset_markers
                  (<[docname := false]> (nbplot_reset_markers w)) w))
    with (heap w).
  by destruct (heap w !! l).
Qed.

Lemma context_reset_step_first docname w :
  default false (nbplot_reset_markers w !! docname) = false ->
  context_reset_step docname w =
    (set_reset_markers (<[docname := true]> (nbplot_reset_markers w)) w,
     Ok true).
Proof.
  intros H. unfold context_reset_step, bind, gets. by rewrite H.
Qed.

Lemma context_reset_step_later docname w :
  nbplot_reset_markers w !! docname = Some true ->
  context_reset_step docname w = (w, Ok false).
Proof.
  intros H. unfold context_reset_step, bind, gets. by rewrite H.
Qed.

(** X22.  After [do_purge_doc] for a document, and for every document
    after [do_builder_init], the first directive asks for a reset of the
    plot context and every later directive of the document does not; the
    markers of the other documents stay as they are. *)
Theorem context_reset_once (docname : string) (w : world) :
  let w1 := (do_purge_doc docname w).1 in
  let w2 := (context_reset_step docname w1).1 in
  context_reset_step docname w1 = (w2, Ok true) /\
  context_reset_step docname w2 = (w2, Ok false) /\
  (forall other, other <> docname ->
     nbplot_reset_markers w2 !! other = nbplot_reset_markers w !! other) /\
  (context_reset_step docname (do_builder_init w).1).2 = Ok true.
Proof.
  cbn zeta.
  assert (H1 : default false
                 (nbplot_reset_markers (do_purge_doc docname w).1 !! docname)
               = false).
  { by rewrite do_purge_doc_markers, lookup_insert_eq. }
  rewrite (context_reset_step_first docname _ H1). cbn [fst].
  split; [done|]. split; [|split].
  - apply context_reset_step_later.
    cbn [nbplot_reset_markers set_reset_markers]. apply lookup_insert_eq.
  - intros other Hne. cbn [nbplot_reset_markers set_reset_markers].
    rewrite lookup_insert_ne by done.
    rewrite do_purge_doc_markers. by rewrite lookup_insert_ne.
  - rewrite context_reset_step_first; [done|]. cbn. by rewrite lookup_empty.
Qed.

End FlagsMore.

(** ** More on the parts and their selection *)

Module PartsMore.
Import Str Runtime Parts Flags.
Import Spec SpecMore Examples ExamplesMore.
Local Open Scope py_scope.

Lemma part_strs2dicts_contents n : forall part_strs dicts,
  (length part_strs <= n)%nat ->
  _part_strs2dicts part_strs = Ok dicts ->
  Forall (fun p => is_Some (Parts.contents p)) dicts /\
  length part_strs = (2 * length dicts)%nat.
Proof.
  induction n as [|n IH]; intros part_strs dicts Hn.
  - destruct part_strs; [|cbn in Hn; lia]. cbn. by intros [= <-].
  - destruct part_strs as [|part_def rest]; [cbn; by intros [= <-]|].
    cbn [_part_strs2dicts].
    destruct (_proc_part_def part_def) as [part_dict|e];
      [|discriminate]. cbn [Exc.rbind].
    destruct rest as [|contents rest']; [discriminate|].
    destruct (_part_strs2dicts rest') as [ds|e] eqn:Hrest;
      [|discriminate]. cbn [Exc.rbind]. intros [= <-].
    destruct (IH rest' ds ltac:(cbn in Hn; lia) Hrest) as [Hall Hlen].
    split.
    + constructor; [|done]. unfold Parts.contents.
      rewrite lookup_insert_eq. by eexists.
    + cbn [length]. lia.
Qed.

Lemma parse_parts_shape (lines : list string) (parts : list part) :
  parse_parts lines = Ok parts ->
  parts <> [] /\ Forall (fun p => is_Some (Parts.contents p)) parts.
Proof.
  unfold parse_parts.
  destruct (PARTER_split (strip (join NL lines))) as [|first rest];
    [discriminate|].
  destruct rest as [|second rest].
  - intros [= <-]. split; [done|]. constructor; [|done].
    unfold Parts.contents. rewrite lookup_singleton_eq. by eexists.
  - assert (Hgen : forall l, l <> [] ->
              _part_strs2dicts l = Ok parts ->
              parts <> [] /\
              Forall (fun p => is_Some (Parts.contents p)) parts).
    { intros l Hl Hd.
      destruct (part_strs2dicts_contents (length l) l parts (le_n _) Hd)
        as [Hall Hlen].
      split; [|done]. intros ->. destruct l; [done|]. cbn in Hlen. lia. }
    destruct (is_empty first); apply Hgen; done.
Qed.

(** X23.  Whatever the content, the parts that [parse_parts] returns are
    never none, and each of them has its lines under the key [contents]. *)
Theorem parse_parts_parts (lines : list string) (parts : list part) :
  parse_parts lines = Ok parts ->
  parts <> [] /\ Forall (fun p => is_Some (Parts.contents p)) parts.
Proof. apply parse_parts_shape. Qed.

Section WithInterpreter.

Variable py_eval : string -> Py.loc -> world -> world * result val.

Local Abbreviation _select_parts := (Flags._select_parts py_eval).
Local Abbreviation selected := (Flags.selected py_eval).

Lemma list_getitem_zero {A} (x : A) (l : list A) :
  list_getitem (x :: l) (VInt 0) = Ok x.
Proof. unfold list_getitem. cbn. reflexivity. Qed.

(** An option that is not given selects the first part and evaluates
    nothing. *)
Lemma selected_default self first rest c option_name w :
  options self !! option_name = None ->
  Parts.contents first = Some c ->
  selected self (first :: rest) option_name w = (w, Ok [c]).
Proof.
  intros Ho Hc. unfold Flags.selected, Flags._get_parts. rewrite Ho.
  unfold bind, ret, gets, lift. cbn [sequence_items select].
  rewrite list_getitem_zero. cbn [Exc.rbind].
  unfold part_contents. unfold Parts.contents in Hc.
  destruct (first !! "contents") as [[s|l]|]; try discriminate.
  by injection Hc as ->.
Qed.

(** X24.  A directive with neither [render-parts] nor [run-parts] renders
    and runs the same text, the lines of its first part: no expression is
    evaluated and nothing changes. *)
Theorem select_parts_default (self : directive) (w : world)
    (parts : list part) :
  options self !! "render-parts" = None ->
  options self !! "run-parts" = None ->
  parse_parts (content self) = Ok parts ->
  exists first rest c,
    parts = first :: rest /\
    Parts.contents first = Some c /\
    _select_parts self w = (w, Ok (join NL c, join NL c)).
Proof.
  intros Hr Hu Hp.
  destruct (parse_parts_shape (content self) parts Hp) as [Hne Hall].
  destruct parts as [|first rest]; [done|].
  inversion Hall as [|? ? [c Hc] _]; subst.
  exists first, rest, c. split; [done|]. split; [done|].
  unfold Flags._select_parts. unfold bind at 1. unfold lift at 1.
  rewrite Hp. unfold bind at 1.
  rewrite (selected_default self first rest c "render-parts" w Hr Hc).
  unfold bind at 1.
  rewrite (selected_default self first rest c "run-parts" w Hu Hc).
  unfold ret. cbn [concat]. by rewrite app_nil_r.
Qed.

End WithInterpreter.

Lemma parse_parts_parts_witness :
  [ ({["contents" := PLines ["x = 1"]]} : part) ] <> [] /\
  Forall (fun p => is_Some (Parts.contents p))
         [ ({["contents" := PLines ["x = 1"]]} : part) ].
Proof.
  apply (parse_parts_parts ["x = 1"]). vm_compute. reflexivity.
Defined.

Lemma select_parts_default_witness :
  exists first rest c,
    [ ({["contents" := PLines ["x = 1"]]} : part) ] = first :: rest /\
    Parts.contents first = Some c /\
    Flags._select_parts eval_float plain_directive w_init
      = (w_init, Ok (join NL c, join NL c)).
Proof.
  apply (select_parts_default eval_float plain_directive w_init
           [ {["contents" := PLines ["x = 1"]]} ]);
    [reflexivity|reflexivity|vm_compute; reflexivity].
Defined.

End PartsMore.

(** ** The boolean options and the names of the output *)

Module OptionsMore.
Import Str StrMore Options Orchestration Figures.
Import Spec SpecMore.

Lemma lstrip_spaces_app p s :
  all_chars is_space p = true -> lstrip (p +:+ s) = lstrip s.
Proof.
  induction p as [|a p IH]; [done|]. cbn [all_chars].
  intros [Ha Hp]%andb_prop. rewrite StrFacts.append_cons.
  cbn [lstrip]. rewrite Ha. by apply IH.
Qed.

Lemma rstrip_spaces q : all_chars is_space q = true -> rstrip q = EmptyString.
Proof.
  induction q as [|a q IH]; [done|]. cbn [all_chars].
  intros [Ha Hq]%andb_prop. cbn [rstrip]. by rewrite (IH Hq), Ha.
Qed.

Lemma rstrip_app_spaces s q :
  all_chars is_space q = true -> rstrip (s +:+ q) = rstrip s.
Proof.
  intros Hq. induction s as [|a s IH].
  - rewrite StrFacts.append_nil_l. by apply rstrip_spaces.
  - rewrite StrFacts.append_cons. cbn [rstrip]. by rewrite IH.
Qed.

Lemma strip_spaces p : all_chars is_space p = true -> strip p = EmptyString.
Proof.
  intros Hp. unfold strip. apply rstrip_spaces.
  by apply DoctestMore.all_chars_lstrip.
Qed.

(** White space around a word is stripped, and nothing else. *)
Lemma strip_padded_word p w q :
  all_chars is_space p = true ->
  all_chars is_space q = true ->
  is_word_str w = true ->
  strip (p +:+ w +:+ q) = w.
Proof.
  intros Hp Hq Hw. unfold strip. rewrite lstrip_spaces_app by done.
  rewrite StrFacts.lstrip_first.
  - rewrite rstrip_app_spaces by done.
    destruct (StrFacts.last_char_word w Hw) as (c & Hc & Hsc).
    by apply StrFacts.rstrip_last with c.
  - unfold is_word_str in Hw. destruct w as [|a w]; [done|].
    rewrite StrFacts.append_cons. cbn in Hw.
    apply andb_prop in Hw as [Ha _]. by apply negb_true_iff in Ha.
Qed.

(** X25.  The value of a boolean option is decided by its word alone,
    letter case apart, whatever white space surrounds it; an argument of
    white space only counts as no argument, the option being used as a
    flag; an unknown word is refused with [PlotValueError], whose message
    quotes the argument as it was given. *)
Theorem option_boolean_word (p w q : string) :
  all_chars is_space p = true ->
  all_chars is_space q = true ->
  is_word_str w = true ->
  _option_boolean (Some (p +:+ w +:+ q)) =
    (if mem (lower w) ["no"; "0"; "false"] then Ok false
     else if mem (lower w) ["yes"; "1"; "true"] then Ok true
     else Raise (Exc.mk PlotValueError
                   (QUOTE +:+ (p +:+ w +:+ q) +:+ QUOTE
                    +:+ " unknown boolean"))) /\
  _option_boolean (Some p) = Ok true.
Proof.
  intros Hp Hq Hw. split.
  - unfold _option_boolean. rewrite strip_padded_word by done.
    assert (Hne : is_empty w = false).
    { unfold is_word_str in Hw. by destruct w. }
    assert (Hne' : is_empty (p +:+ w +:+ q) = false).
    { destruct p as [|a p]; [|done]. rewrite StrFacts.append_nil_l.
      by destruct w. }
    by rewrite Hne, Hne'.
  - unfold _option_boolean. rewrite strip_spaces by done.
    cbn [is_empty]. by rewrite orb_true_r.
Qed.

Lemma option_boolean_word_witness :
  _option_boolean (Some ("  " +:+ "No" +:+ " ")) =
    (if mem (lower "No") ["no"; "0"; "false"] then Ok false
     else if mem (lower "No") ["yes"; "1"; "true"] then Ok true
     else Raise (Exc.mk PlotValueError
                   (QUOTE +:+ ("  " +:+ "No" +:+ " ") +:+ QUOTE
                    +:+ " unknown boolean"))) /\
  _option_boolean (Some "  ") = Ok true.
Proof. apply (option_boolean_word "  " "No" " "); reflexivity. Defined.

Lemma free_of_app c s t :
  free_of c (s +:+ t) = free_of c s && free_of c t.
Proof. apply DoctestMore.all_chars_app. Qed.

Lemma replace_char_free a b s :
  a <> b -> free_of a (replace_char a b s) = true.
Proof.
  intros Hab. unfold free_of. induction s as [|c s IH]; [done|].
  cbn [replace_char all_chars]. rewrite IH, andb_true_r.
  unfold ascii_eqb. destruct (bool_decide (c = a)) eqn:Hc.
  - apply negb_true_iff, bool_decide_eq_false. congruence.
  - by rewrite Hc.
Qed.

Lemma digits_free (d : Decimal.uint) :
  free_of "." (DecimalString.NilEmpty.string_of_uint d) = true.
Proof. induction d; cbn; done. Qed.

Lemma str_of_nat_free j : free_of "." (str_of_nat j) = true.
Proof.
  unfold str_of_nat, DecimalString.NilZero.string_of_uint.
  destruct (Nat.to_uint j); try done; apply (digits_free (_ _)).
Qed.

Lemma zeros_free k :
  free_of "." (String.concat EmptyString (repeat "0" k)) = true.
Proof.
  induction k as [|k IH]; [done|]. cbn [repeat String.concat].
  destruct (repeat "0" k) eqn:E; [done|].
  rewrite StrFacts.append_nil_l, free_of_app, IH. done.
Qed.

(** X26.  The base of the output names holds no dot, whatever the name of
    the source file: neither do the names of the images, a single one or
    numbered, so that the only dots of an image file name are those of its
    format. *)
Theorem output_base_without_dot (base : string) (counter : Z) (n j : nat) :
  free_of "." (output_base base counter) = true /\
  free_of "." (image_name (output_base base counter) n j) = true.
Proof.
  assert (H : free_of "." (output_base base counter) = true)
    by (by apply replace_char_free).
  split; [exact H|]. unfold image_name.
  destruct (Nat.eqb n 1); [exact H|].
  rewrite !free_of_app, H. unfold format_02d.
  by rewrite free_of_app, zeros_free, str_of_nat_free.
Qed.

End OptionsMore.

(** ** Indices of parts *)

Module SelectMore.
Import Str Runtime Parts Flags.
Local Open Scope Z_scope.

Lemma list_getitem_in_range {A} (l : list A) (k : nat) (x : A) :
  l !! k = Some x ->
  list_getitem l (VInt (Z.of_nat k)) = Ok x /\
  list_getitem l (VInt (Z.of_nat k - Z.of_nat (length l))) = Ok x.
Proof.
  intros Hk. pose proof (lookup_lt_Some _ _ _ Hk) as Hlt.
  assert (H0 : (Z.of_nat k <? 0) = false) by (apply Z.ltb_ge; lia).
  assert (H1 : (Z.of_nat (length l) <=? Z.of_nat k) = false)
    by (apply Z.leb_gt; lia).
  assert (H2 : (Z.of_nat k - Z.of_nat (length l) <? 0) = true)
    by (apply Z.ltb_lt; lia).
  unfold list_getitem. cbn [as_index]. cbv zeta. split.
  - rewrite H0. cbv iota. rewrite H0, H1. cbn [orb].
    by rewrite Nat2Z.id, Hk.
  - rewrite H2. cbv iota.
    replace (Z.of_nat k - Z.of_nat (length l) + Z.of_nat (length l))
      with (Z.of_nat k) by lia.
    rewrite H0, H1. cbn [orb]. by rewrite Nat2Z.id, Hk.
Qed.

Lemma list_getitem_out_of_range {A} (l : list A) (z : Z) :
  z < - Z.of_nat (length l) \/ Z.of_nat (length l) <= z ->
  list_getitem l (VInt z) = Raise (Exc.mk IndexError "list index out of range").
Proof.
  intros Hz. unfold list_getitem. cbn [as_index]. cbv zeta.
  destruct (z <? 0) eqn:Hneg.
  - apply Z.ltb_lt in Hneg.
    destruct Hz as [Hz|Hz]; [|lia].
    assert (H : (z + Z.of_nat (length l) <? 0) = true)
      by (apply Z.ltb_lt; lia).
    cbv iota. by rewrite H.
  - pose proof Hneg as Hb. apply Z.ltb_ge in Hneg.
    destruct Hz as [Hz|Hz]; [lia|].
    assert (H : (Z.of_nat (length l) <=? z) = true)
      by (apply Z.leb_le; lia).
    cbv iota. by rewrite Hb, H.
Qed.

(** X27.  An index selects the part at its place, counted from the first
    part, or from the end when it is negative; an index beyond either end
    fails with [IndexError]. *)
Theorem select_index_range (parts : list part) (k : nat) (p : part)
    (c : list string) :
  parts !! k = Some p ->
  Parts.contents p = Some c ->
  select parts [VInt (Z.of_nat k)] = Ok [c] /\
  select parts [VInt (Z.of_nat k - Z.of_nat (length parts))] = Ok [c] /\
  (forall z,
     z < - Z.of_nat (length parts) \/ Z.of_nat (length parts) <= z ->
     select parts [VInt z]
       = Raise (Exc.mk IndexError "list index out of range")).
Proof.
  intros Hk Hc.
  destruct (list_getitem_in_range parts k p Hk) as [H1 H2].
  assert (Hp : part_contents p = Ok c).
  { unfold part_contents. unfold Parts.contents in Hc.
    destruct (p !! "contents") as [[s|l]|]; try discriminate.
    by injection Hc as ->. }
  split; [|split].
  - cbn [select]. rewrite H1. cbn [Exc.rbind]. by rewrite Hp.
  - cbn [select]. rewrite H2. cbn [Exc.rbind]. by rewrite Hp.
  - intros z Hz. cbn [select].
    by rewrite list_getitem_out_of_range.
Qed.

Lemma select_index_range_witness :
  let parts : list part :=
    [ {["contents" := PLines ["a = 1"]]}; {["contents" := PLines ["b = 2"]]} ] in
  select parts [VInt (Z.of_nat 1)] = Ok [["b = 2"]] /\
  select parts [VInt (Z.of_nat 1 - Z.of_nat (length parts))] = Ok [["b = 2"]] /\
  (forall z,
     z < - Z.of_nat (length parts) \/ Z.of_nat (length parts) <= z ->
     select parts [VInt z]
       = Raise (Exc.mk IndexError "list index out of range")).
Proof.
  apply (select_index_range
           [ {["contents" := PLines ["a = 1"]]};
             {["contents" := PLines ["b = 2"]]} ]
           1 {["contents" := PLines ["b = 2"]]} ["b = 2"]);
    reflexivity.
Defined.

End SelectMore.

(** ** Parts and their separators *)

Module SeparatorFacts.
Import Str Parts.
Import Spec SpecMore.

Lemma drop_prefix_app p s : drop_prefix p (p +:+ s) = Some s.
Proof.
  induction p as [|a p IH]; [done|]. rewrite StrFacts.append_cons.
  cbn [drop_prefix]. by rewrite CodingFacts.ascii_eqb_refl.
Qed.

Lemma ascii_eqb_true a b : ascii_eqb a b = true -> a = b.
Proof. unfold ascii_eqb. apply bool_decide_eq_true. Qed.

(** A text that does not start with [p] cannot start with it once a line
    feed is put after the text, [p] holding no line feed. *)
Lemma drop_prefix_line p q t : forall b1,
  free_of LF p = true ->
  String.prefix p b1 = false ->
  drop_prefix (p +:+ q) (b1 +:+ String LF t) = None.
Proof.
  unfold free_of. induction p as [|c p IH]; intros b1.
  - intros _. by destruct b1.
  - cbn [all_chars]. intros [Hc Hp]%andb_prop. apply negb_true_iff in Hc.
    rewrite StrFacts.append_cons. destruct b1 as [|a b1].
    + intros _. rewrite StrFacts.append_nil_l. cbn [drop_prefix].
      by rewrite Hc.
    + rewrite DoctestFacts.prefix_cons, StrFacts.append_cons.
      cbn [drop_prefix].
      destruct (ascii_eqb c a) eqn:E; [|done].
      apply ascii_eqb_true in E as ->.
      destruct (ascii_dec a a); [|done]. by apply IH.
Qed.

(** The bare marker at the head of a text: no attribute is taken. *)
Lemma match_marker_bare body :
  match_marker (bare_marker +:+ body) = Some (EmptyString, body).
Proof.
  unfold match_marker, bare_marker.
  rewrite <- (StrFacts.append_assoc ".. part" NL NL).
  rewrite (StrFacts.append_assoc (".. part" +:+ NL) NL body).
  rewrite drop_prefix_app.
  change (NL +:+ body) with (String LF body).
  assert (Hn : match_attr_lines 0 (String LF body) = 0%nat).
  { cbn [match_attr_lines]. unfold match_attr_line.
    rewrite (CodingFacts.drop_while_false is_sp LF) by reflexivity.
    cbn [span]. replace (is_word LF) with false by reflexivity.
    reflexivity. }
  rewrite Hn. cbn [drop take]. unfold NL, str1. cbn [drop_prefix].
  by rewrite CodingFacts.ascii_eqb_refl.
Qed.

(** The bare marker is no match when a line feed comes before it. *)
Lemma match_marker_after_LF t : match_marker (String LF t) = None.
Proof.
  unfold match_marker.
  change (".. part" +:+ NL) with (String "." (". part" +:+ NL)).
  cbn [drop_prefix]. by replace (ascii_eqb "." LF) with false by reflexivity.
Qed.

Lemma PARTER_match_separator body :
  PARTER_match false (bare_separator +:+ body) = Some (EmptyString, body).
Proof.
  unfold PARTER_match, bare_separator.
  rewrite <- (StrFacts.append_assoc NL NL bare_marker).
  rewrite (StrFacts.append_assoc (NL +:+ NL) bare_marker body).
  rewrite drop_prefix_app. by rewrite match_marker_bare.
Qed.

(** The characters of a match are passed over. *)
Lemma split_skip x : forall b cur rest,
  PARTER_split_go (String.length x) b cur (x +:+ rest) =
    PARTER_split_go 0 (if is_empty x then b else false) cur rest.
Proof.
  induction x as [|a x IH]; intros b cur rest; [done|].
  rewrite StrFacts.append_cons. cbn [String.length PARTER_split_go].
  rewrite IH. by destruct (is_empty x).
Qed.

(** The pieces from a bare separator on, when no separator follows. *)
Lemma split_at_separator cur body :
  PARTER_search false body = false ->
  PARTER_split_go 0 false cur (bare_separator +:+ body)
    = [cur; EmptyString; body].
Proof.
  intros Hno.
  pose proof (PARTER_match_separator body) as Hm.
  set (x := NL +:+ bare_marker).
  assert (Hs : bare_separator +:+ body = String LF (x +:+ body)).
  { unfold bare_separator. subst x. unfold NL at 1, str1.
    rewrite StrFacts.append_cons, StrFacts.append_nil_l.
    by rewrite StrFacts.append_assoc. }
  rewrite Hs in *. cbn [PARTER_split_go]. rewrite Hm.
  rewrite CodingFacts.length_app.
  replace (String.length x + String.length body - String.length body)%nat
    with (String.length x) by lia.
  rewrite split_skip. cbn [is_empty x].
  replace (is_empty x) with false by reflexivity.
  rewrite PartsFacts.split_no_match by done.
  by rewrite StrFacts.append_nil_l.
Qed.

(** The pieces from a bare marker at the start of the text. *)
Lemma split_at_marker body :
  PARTER_search false body = false ->
  PARTER_split (bare_marker +:+ body)
    = [EmptyString; EmptyString; body].
Proof.
  intros Hno. unfold PARTER_split.
  assert (Hm : PARTER_match true (bare_marker +:+ body)
               = Some (EmptyString, body)).
  { unfold PARTER_match. rewrite match_marker_bare.
    unfold bare_marker.
    change (".. part" +:+ NL +:+ NL) with (String "." (". part" +:+ NL +:+ NL)).
    rewrite StrFacts.append_cons. unfold NL at 1, str1.
    rewrite StrFacts.append_cons. cbn [drop_prefix].
    by replace (ascii_eqb LF ".") with false by reflexivity. }
  set (x := ". part" +:+ NL +:+ NL).
  assert (Hs : bare_marker +:+ body = String "." (x +:+ body)) by done.
  rewrite Hs in *. cbn [PARTER_split_go]. rewrite Hm.
  rewrite CodingFacts.length_app.
  replace (String.length x + String.length body - String.length body)%nat
    with (String.length x) by lia.
  rewrite split_skip.
  replace (is_empty x) with false by reflexivity.
  rewrite PartsFacts.split_no_match by done.
  by rewrite StrFacts.append_nil_l.
Qed.

(** No separator starts inside a text without an empty line that does not
    begin with the marker, whatever comes after the separator at its
    end. *)
Lemma PARTER_match_before a b1 b body :
  contains (NL +:+ NL) (String a b1) = false ->
  (b = true -> String.prefix ".. part" (String a b1) = false) ->
  PARTER_match b (String a b1 +:+ bare_separator +:+ body) = None.
Proof.
  intros Hc Hb.
  assert (Hsep : bare_separator +:+ body
                 = String LF (String LF (bare_marker +:+ body))).
  { unfold bare_separator. rewrite !StrFacts.append_assoc. reflexivity. }
  assert (H1 : match drop_prefix (NL +:+ NL)
                       (String a b1 +:+ bare_separator +:+ body) with
               | Some s1 => match_marker s1
               | None => None
               end = None).
  { rewrite StrFacts.append_cons. unfold NL, str1.
    rewrite StrFacts.append_cons, StrFacts.append_nil_l.
    cbn [drop_prefix].
    destruct (ascii_eqb LF a) eqn:Ea; [|done].
    apply ascii_eqb_true in Ea as <-.
    destruct b1 as [|a' b1].
    - rewrite StrFacts.append_nil_l, Hsep.
      rewrite CodingFacts.ascii_eqb_refl. apply match_marker_after_LF.
    - rewrite StrFacts.append_cons.
      destruct (ascii_eqb LF a') eqn:Ea'; [|done].
      apply ascii_eqb_true in Ea' as <-.
      assert (Ht : contains (NL +:+ NL) (String LF (String LF b1)) = true).
      { cbn [contains]. change (NL +:+ NL) with (String LF (String LF EmptyString)).
        rewrite !DoctestFacts.prefix_cons.
        destruct (ascii_dec LF LF) as [_|]; [by destruct b1|done]. }
      congruence. }
  unfold PARTER_match. rewrite H1.
  destruct b; [|done]. unfold match_marker.
  rewrite Hsep.
  by rewrite (drop_prefix_line ".. part" NL _ (String a b1) eq_refl (Hb eq_refl)).
Qed.

(** The pieces of a text with one bare separator. *)
Lemma split_before_separator body : forall b1 b cur,
  contains (NL +:+ NL) b1 = false ->
  (b = true -> String.prefix ".. part" b1 = false) ->
  PARTER_split_go 0 b cur (b1 +:+ bare_separator +:+ body) =
    PARTER_split_go 0 (b && is_empty b1) (cur +:+ b1)
      (bare_separator +:+ body).
Proof.
  induction b1 as [|a b1 IH]; intros b cur Hc Hb.
  - rewrite StrFacts.append_nil_l, StrFacts.append_nil_r.
    by rewrite andb_true_r.
  - pose proof (PARTER_match_before a b1 b body Hc Hb) as Hm.
    rewrite StrFacts.append_cons in *. cbn [PARTER_split_go]. rewrite Hm.
    assert (Hc' : contains (NL +:+ NL) b1 = false).
    { cbn [contains] in Hc. by apply orb_false_elim in Hc as [_ ?]. }
    rewrite (IH false (cur +:+ str1 a) Hc') by done.
    cbn [is_empty andb]. rewrite andb_false_r.
    rewrite StrFacts.append_assoc. reflexivity.
Qed.

(** X28.  A content of two texts with a bare separator between them (an
    empty line, the marker, an empty line) gives two parts without
    attributes, the lines of the first text and the lines of the second:
    provided the first text is not empty, has no empty line and does not
    begin with the marker, and the second holds no separator. *)
Theorem parse_parts_two_parts (lines : list string) (b1 b2 : string) :
  strip (join NL lines) = b1 +:+ bare_separator +:+ b2 ->
  b1 <> EmptyString ->
  contains (NL +:+ NL) b1 = false ->
  startswith ".. part" b1 = false ->
  PARTER_search false b2 = false ->
  parse_parts lines
    = Ok [plain_part (splitlines b1); plain_part (splitlines b2)].
Proof.
  intros Htext Hne Hc Hs Hno. unfold parse_parts. rewrite Htext.
  unfold PARTER_split.
  rewrite split_before_separator by done.
  rewrite StrFacts.append_nil_l.
  replace (true && is_empty b1) with false by (by destruct b1).
  rewrite split_at_separator by done.
  replace (is_empty b1) with false by (by destruct b1).
  reflexivity.
Qed.

(** X29.  A content that begins with the bare marker gives one part
    without attributes, the lines after the marker, when no separator
    follows: the marker at the start opens the first part. *)
Theorem parse_parts_leading_marker (lines : list string) (body : string) :
  strip (join NL lines) = bare_marker +:+ body ->
  PARTER_search false body = false ->
  parse_parts lines = Ok [plain_part (splitlines body)].
Proof.
  intros Htext Hno. unfold parse_parts. rewrite Htext.
  rewrite split_at_marker by done. reflexivity.
Qed.

Lemma parse_parts_two_parts_witness :
  parse_parts ["a = 1"; EmptyString; ".. part"; EmptyString; "b = 2"]
    = Ok [plain_part (splitlines "a = 1"); plain_part (splitlines "b = 2")].
Proof.
  apply (parse_parts_two_parts
           ["a = 1"; EmptyString; ".. part"; EmptyString; "b = 2"]
           "a = 1" "b = 2"); try reflexivity.
  discriminate.
Defined.

Lemma parse_parts_leading_marker_witness :
  parse_parts [".. part"; EmptyString; "b = 2"]
    = Ok [plain_part (splitlines "b = 2")].
Proof.
  apply (parse_parts_leading_marker [".. part"; EmptyString; "b = 2"] "b = 2");
    reflexivity.
Defined.

End SeparatorFacts.
